(** * Databricks MCP tool handlers: a shallow embedding

    The repository registers tool handlers (modules [compute], [governance],
    [mlflow], [security], [workspace]).  Every handler has the same skeleton:

<<
    try:
        client = get_workspace_client()
        ... one call on the SDK client, field extraction ...
        return {'status': 'success', ...}
    except Exception as e:
        return {'status': 'error', 'message': str(e)}
>>

    The embedding keeps that skeleton.  Python values are a universal type
    [val]; the expression language of the handlers (attribute access,
    conditional expressions, comprehensions, f-strings, dict literals) lives
    in the error monad [outcome]; statements that talk to the outside (the
    client accessor, an SDK call, a store into a caller-owned dict) live in
    [exec], a state-and-error monad whose state survives an exception.  The
    SDK is not part of the repository: it is the parameter [env]. *)

From Stdlib Require Import String Ascii List ZArith Lia Bool DecimalString.
Import ListNotations.
Local Open Scope string_scope.
Local Open Scope list_scope.

(** ** Exceptions and outcomes *)

(** An instance of Python's [Exception]: its class name and the text [str(e)]
    yields. *)
Record exc : Type := mkExc { exc_class : string; exc_text : string }.

(** [str(e)] *)
Definition str_of_exc (e : exc) : string := exc_text e.

Inductive outcome (A : Type) : Type :=
| Ok (a : A)
| Raise (e : exc).
Arguments Ok {A} a.
Arguments Raise {A} e.

Definition obind {A B : Type} (o : outcome A) (f : A -> outcome B) : outcome B :=
  match o with
  | Ok a => f a
  | Raise e => Raise e
  end.

Notation "'let!' x ':=' e 'in' k" := (obind e (fun x => k))
  (at level 10, x name, e at level 100, k at level 200, only parsing).

(** ** Python values *)

#[warnings="-register-all"]
Inductive val : Type :=
| VNone
| VBool (b : bool)
| VInt (z : Z)
| VStr (s : string)
| VBytes (raw : string)
| VList (items : list val)
| VDict (entries : list (string * val))
  (* a dict owned by the caller of the handler, passed by reference *)
| VRef (loc : nat)
  (* an SDK object: its class and its attribute table *)
| VObj (cls : string) (attrs : list (string * val))
  (* a bound method without arguments: what calling it does *)
| VMethod (raises : option exc) (result : val).

Definition dict : Type := list (string * val).

(** [d.get(k)]: the first entry under [k]. *)
Fixpoint lookup (k : string) (d : dict) : option val :=
  match d with
  | [] => None
  | (k', v) :: rest => if String.eqb k k' then Some v else lookup k rest
  end.

(** [d[k] = v]: an existing key keeps its place, a new key goes last. *)
Fixpoint dict_set (d : dict) (k : string) (v : val) : dict :=
  match d with
  | [] => [(k, v)]
  | (k', v') :: rest =>
      if String.eqb k k' then (k', v) :: rest else (k', v') :: dict_set rest k v
  end.

Definition keys (d : dict) : list string := map fst d.

(** A dict display [{k1: v1, ...}] once its values are known: entries are
    stored left to right, a repeated key overwrites. *)
Definition dict_of_items (kvs : list (string * val)) : dict :=
  fold_left (fun d kv => dict_set d (fst kv) (snd kv)) kvs [].

Definition type_name (v : val) : string :=
  match v with
  | VNone => "NoneType"
  | VBool _ => "bool"
  | VInt _ => "int"
  | VStr _ => "str"
  | VBytes _ => "bytes"
  | VList _ => "list"
  | VDict _ => "dict"
  | VRef _ => "dict"
  | VObj cls _ => cls
  | VMethod _ _ => "method"
  end.

(** Truth value testing, as [if x:] and [a if x else b] do it.  SDK objects
    define neither [__bool__] nor [__len__]: they are true. *)
Definition truthy (v : val) : bool :=
  match v with
  | VNone => false
  | VBool b => b
  | VInt z => negb (Z.eqb z 0)
  | VStr s => negb (String.eqb s "")
  | VBytes s => negb (String.eqb s "")
  | VList l => match l with [] => false | _ => true end
  | VDict d => match d with [] => false | _ => true end
  | VRef _ => true
  | VObj _ _ => true
  | VMethod _ _ => true
  end.

Definition attribute_error (v : val) (name : string) : exc :=
  mkExc "AttributeError"
    ("'" ++ type_name v ++ "' object has no attribute '" ++ name ++ "'").

Definition type_error (text : string) : exc := mkExc "TypeError" text.

(** [v.name] for the data attributes the handlers read.  None of these
    names is an attribute of a builtin type, so only SDK objects have them. *)
Definition getattr (v : val) (name : string) : outcome val :=
  match v with
  | VObj _ attrs =>
      match lookup name attrs with
      | Some x => Ok x
      | None => Raise (attribute_error v name)
      end
  | _ => Raise (attribute_error v name)
  end.

(** [hasattr(v, name)] *)
Definition hasattr (v : val) (name : string) : bool :=
  match getattr v name with
  | Ok _ => true
  | Raise _ => false
  end.

(** [v.name()] *)
Definition call_method (v : val) (name : string) : outcome val :=
  let! m := getattr v name in
  match m with
  | VMethod None r => Ok r
  | VMethod (Some e) _ => Raise e
  | other => Raise (type_error ("'" ++ type_name other ++ "' object is not callable"))
  end.

(** [len(v)] *)
Definition len (v : val) : outcome val :=
  match v with
  | VStr s => Ok (VInt (Z.of_nat (String.length s)))
  | VBytes s => Ok (VInt (Z.of_nat (String.length s)))
  | VList l => Ok (VInt (Z.of_nat (List.length l)))
  | VDict d => Ok (VInt (Z.of_nat (List.length d)))
  | _ => Raise (type_error ("object of type '" ++ type_name v ++ "' has no len()"))
  end.

Fixpoint chars (s : string) : list val :=
  match s with
  | EmptyString => []
  | String c rest => VStr (String c EmptyString) :: chars rest
  end.

Fixpoint byte_values (s : string) : list val :=
  match s with
  | EmptyString => []
  | String c rest => VInt (Z.of_nat (nat_of_ascii c)) :: byte_values rest
  end.

(** The items [for x in v] and [list(v)] run through. *)
Definition iterate (v : val) : outcome (list val) :=
  match v with
  | VList l => Ok l
  | VDict d => Ok (map (fun kv => VStr (fst kv)) d)
  | VStr s => Ok (chars s)
  | VBytes s => Ok (byte_values s)
  | _ => Raise (type_error ("'" ++ type_name v ++ "' object is not iterable"))
  end.

(** [list(v)] *)
Definition py_list (v : val) : outcome val :=
  let! l := iterate v in Ok (VList l).

Fixpoint pairs_of (l : list val) : outcome (list (string * val)) :=
  match l with
  | [] => Ok []
  | VList [VStr k; v] :: rest => let! kvs := pairs_of rest in Ok ((k, v) :: kvs)
  | _ => Raise (type_error "cannot convert dictionary update sequence element to a key and a value")
  end.

(** [dict(v)] of a mapping or of a list of pairs. *)
Definition py_dict (v : val) : outcome val :=
  match v with
  | VDict d => Ok (VDict d)
  | VList l => let! kvs := pairs_of l in Ok (VDict (dict_of_items kvs))
  | _ => Raise (type_error ("'" ++ type_name v ++ "' object is not iterable"))
  end.

(** [for x in l: out.append(f(x))], and the comprehension [[f(x) for x in l]]. *)
Fixpoint for_each (l : list val) (f : val -> outcome val) : outcome (list val) :=
  match l with
  | [] => Ok []
  | x :: rest =>
      let! y := f x in
      let! ys := for_each rest f in
      Ok (y :: ys)
  end.

Definition list_comp (source : outcome val) (f : val -> outcome val) : outcome val :=
  let! s := source in
  let! l := iterate s in
  let! ys := for_each l f in
  Ok (VList ys).

(** As [for_each], for a loop body that may [continue] (it yields [None]). *)
Fixpoint for_each_some (l : list val) (f : val -> outcome (option val))
  : outcome (list val) :=
  match l with
  | [] => Ok []
  | x :: rest =>
      let! y := f x in
      let! ys := for_each_some rest f in
      Ok (match y with Some v => v :: ys | None => ys end)
  end.

(** The values of a dict display, evaluated left to right. *)
Fixpoint eval_items (fields : list (string * outcome val)) : outcome (list (string * val)) :=
  match fields with
  | [] => Ok []
  | (k, e) :: rest =>
      let! v := e in
      let! kvs := eval_items rest in
      Ok ((k, v) :: kvs)
  end.

(** The dict display [{k1: e1, ..., kn: en}]. *)
Definition dict_lit (fields : list (string * outcome val)) : outcome val :=
  let! kvs := eval_items fields in Ok (VDict (dict_of_items kvs)).

(** [a if c else b], written [a <| c |> b]. *)
Definition if_else (a c b : outcome val) : outcome val :=
  let! t := c in if truthy t then a else b.

Notation "a <| c |> b" := (if_else a c b) (at level 69, c at next level, right associativity).

Definition attr_of (o : outcome val) (name : string) : outcome val :=
  let! v := o in getattr v name.

Notation "o ~> name" := (attr_of o name) (at level 40, left associativity).

Definition call_of (o : outcome val) (name : string) : outcome val :=
  let! v := o in call_method v name.

(** [sep.join(l)] *)
Fixpoint strings_of (l : list val) : outcome (list string) :=
  match l with
  | [] => Ok []
  | VStr s :: rest => let! ss := strings_of rest in Ok (s :: ss)
  | v :: _ => Raise (type_error ("sequence item: expected str instance, " ++ type_name v ++ " found"))
  end.

Definition join (sep : string) (v : val) : outcome val :=
  let! l := iterate v in
  let! ss := strings_of l in
  Ok (VStr (String.concat sep ss)).

(** [s.startswith(p)] *)
Definition startswith (s p : val) : outcome val :=
  match s, p with
  | VStr s', VStr p' => Ok (VBool (String.prefix p' s'))
  | VStr _, _ =>
      Raise (type_error ("startswith first arg must be str or a tuple of str, not " ++ type_name p))
  | VBytes _, _ => Raise (type_error "startswith first arg must be bytes or a tuple of bytes")
  | _, _ => Raise (attribute_error s "startswith")
  end.

(** [s.encode('utf-8')]: strings are kept as their UTF-8 bytes. *)
Definition encode_utf8 (s : val) : outcome val :=
  match s with
  | VStr t => Ok (VBytes t)
  | _ => Raise (attribute_error s "encode")
  end.

(** ** The world outside the repository *)

(** One call on the SDK client: a method of the receiver, applied to
    positional and keyword arguments. *)
Record call : Type := mkCall {
  receiver : val;
  method : string;
  args : list val;
  kwargs : list (string * val)
}.

(** What a handler does to the outside, in order. *)
Inductive event : Type :=
| EClient               (* WorkspaceClient() *)
| EApi (c : call).      (* one API method called on the client *)

(** The Databricks SDK and the Python runtime, as far as the handlers use
    them and the repository does not define them. *)
Record env : Type := mkEnv {
  (* what WorkspaceClient() does *)
  workspace_client : outcome val;
  (* what an API method does, iterating its result included *)
  respond : call -> outcome val;
  (* str(v) of a value that is not None, a bool, an int or a str *)
  repr : val -> string;
  (* whether bytes decode as UTF-8 *)
  utf8_valid : string -> bool
}.

(** ** Statements *)

Record state : Type := mkState {
  (* the calls made so far, oldest first *)
  calls : list event;
  (* the dicts the caller owns *)
  heap : nat -> dict;
  (* every exception raised so far, caught or not; nothing reads it *)
  raised : list exc
}.

Definition exec (A : Type) : Type := state -> outcome A * state.

Definition ret {A : Type} (a : A) : exec A := fun st => (Ok a, st).

Definition bind {A B : Type} (m : exec A) (f : A -> exec B) : exec B :=
  fun st =>
    match m st with
    | (Ok a, st') => f a st'
    | (Raise e, st') => (Raise e, st')
    end.

Definition note (e : exc) (st : state) : state :=
  mkState (calls st) (heap st) (raised st ++ [e]).

Definition record (ev : event) (st : state) : state :=
  mkState (calls st ++ [ev]) (heap st) (raised st).

Definition store (l : nat) (d : dict) (st : state) : state :=
  mkState (calls st) (fun l' => if Nat.eqb l' l then d else heap st l') (raised st).

(** [raise e] *)
Definition throw {A : Type} (e : exc) : exec A := fun st => (Raise e, note e st).

(** An expression evaluated as a statement. *)
Definition lift {A : Type} (o : outcome A) : exec A :=
  match o with
  | Ok a => ret a
  | Raise e => throw e
  end.

(** [try: body / except Exception as e: handler(e)] *)
Definition try_except {A : Type} (body : exec A) (handler : exc -> exec A) : exec A :=
  fun st =>
    match body st with
    | (Ok a, st') => (Ok a, st')
    | (Raise e, st') => handler e st'
    end.

Notation "x <- m ;; k" := (bind m (fun x => k))
  (at level 61, m at next level, right associativity, only parsing).
Notation "x <~ e ;; k" := (bind (lift e) (fun x => k))
  (at level 61, e at next level, right associativity, only parsing).

(** The envelope every handler returns from its [except] clause. *)
Definition error_envelope (e : exc) : val :=
  VDict [("status", VStr "error"); ("message", VStr (str_of_exc e))].

(** The skeleton shared by all handlers. *)
Definition guarded (body : exec val) : exec val :=
  try_except body (fun e => ret (error_envelope e)).

(** ** Expressions over [outcome]

    The handlers' expressions nest; each builtin below takes its operands
    already wrapped in [outcome], so that a translated expression keeps the
    shape of its source. *)

Definition len_of (o : outcome val) : outcome val := let! v := o in len v.

Definition list_of (o : outcome val) : outcome val := let! v := o in py_list v.

Definition dict_of (o : outcome val) : outcome val := let! v := o in py_dict v.

Definition hasattr_of (o : outcome val) (name : string) : outcome val :=
  let! v := o in Ok (VBool (hasattr v name)).

Definition join_of (sep : string) (o : outcome val) : outcome val :=
  let! v := o in join sep v.

Definition startswith_of (s p : outcome val) : outcome val :=
  let! s' := s in let! p' := p in startswith s' p'.

Definition encode_utf8_of (o : outcome val) : outcome val :=
  let! v := o in encode_utf8 v.

(** [not x] *)
Definition not_of (o : outcome val) : outcome val :=
  let! v := o in Ok (VBool (negb (truthy v))).

(** [a and b]: [b] is looked at only when [a] is true. *)
Definition and_of (a b : outcome val) : outcome val :=
  let! x := a in if truthy x then b else Ok x.

(** The list display [[e1, ..., en]]. *)
Fixpoint eval_list (es : list (outcome val)) : outcome (list val) :=
  match es with
  | [] => Ok []
  | e :: rest =>
      let! v := e in
      let! vs := eval_list rest in
      Ok (v :: vs)
  end.

Definition list_lit (es : list (outcome val)) : outcome val :=
  let! vs := eval_list es in Ok (VList vs).

(** [l.append(x)] on a list no one else holds: the list with [x] at its end. *)
Definition append_of (l x : outcome val) : outcome val :=
  let! l' := l in
  let! x' := x in
  match l' with
  | VList items => Ok (VList (items ++ [x']))
  | _ => Raise (attribute_error l' "append")
  end.

(** [out = []; for x in source: out.append(f(x))] *)
Definition collect (source : outcome val) (f : val -> outcome val) : outcome val :=
  let! s := source in
  let! l := iterate s in
  let! ys := for_each l f in
  Ok (VList ys).

(** As [collect], for a loop body that may [continue]. *)
Definition collect_some (source : outcome val) (f : val -> outcome (option val))
  : outcome val :=
  let! s := source in
  let! l := iterate s in
  let! ys := for_each_some l f in
  Ok (VList ys).

(** [d[k] = e] on a dict display no one else holds. *)
Definition with_key (d : val) (k : string) (e : outcome val) : outcome val :=
  let! v := e in
  match d with
  | VDict entries => Ok (VDict (dict_set entries k v))
  | _ => Raise (type_error ("'" ++ type_name d ++ "' object does not support item assignment"))
  end.

(** The dict display [{k: v}] with a computed key.  Keys are strings in
    this model; the one handler that uses it declares its key [str]. *)
Definition dict_item (k : outcome val) (v : outcome val) : outcome val :=
  let! k' := k in
  let! v' := v in
  match k' with
  | VStr s => Ok (VDict [(s, v')])
  | _ => Raise (type_error ("unsupported key type: '" ++ type_name k' ++ "'"))
  end.

(** [v == "literal"] *)
Definition eq_str (v : val) (s : string) : bool :=
  match v with
  | VStr t => String.eqb t s
  | _ => false
  end.

(** A piece of an f-string: literal text or a replacement field. *)
Inductive piece : Type :=
| Lit (text : string)
| Fmt (e : outcome val).

(** [str(z)] of an int. *)
Definition decimal (z : Z) : string := NilZero.string_of_int (Z.to_int z).

(** A parameter that may be left out: [None] when it is. *)
Definition opt {A : Type} (inj : A -> val) (o : option A) : val :=
  match o with
  | Some a => inj a
  | None => VNone
  end.

(** ** Requests

    One constructor per registered tool; its arguments are the parameters the
    tool declares, with their declared types.  A parameter whose default is
    [None] is an [option]; a [dict] parameter is the location of a dict the
    caller owns. *)

Inductive request : Type :=
| Invoke_list_clusters
| Invoke_get_cluster (cluster_id : string)
| Invoke_create_cluster (cluster_config : nat)
| Invoke_start_cluster (cluster_id : string)
| Invoke_restart_cluster (cluster_id : string)
| Invoke_terminate_cluster (cluster_id : string)
| Invoke_delete_cluster (cluster_id : string)
| Invoke_edit_cluster (cluster_id : string) (cluster_config : nat)
| Invoke_get_cluster_events (cluster_id : string) (start_time : option Z) (end_time : option Z) (order : string) (limit : Z)
| Invoke_list_instance_pools
| Invoke_get_instance_pool (instance_pool_id : string)
| Invoke_create_instance_pool (pool_config : nat)
| Invoke_edit_instance_pool (instance_pool_id : string) (pool_config : nat)
| Invoke_delete_instance_pool (instance_pool_id : string)
| Invoke_list_cluster_libraries (cluster_id : string)
| Invoke_install_cluster_libraries (cluster_id : string) (libraries : list val)
| Invoke_uninstall_cluster_libraries (cluster_id : string) (libraries : list val)
| Invoke_list_all_cluster_libraries
| Invoke_list_cluster_policies
| Invoke_get_cluster_policy (policy_id : string)
| Invoke_create_cluster_policy (policy_config : nat)
| Invoke_edit_cluster_policy (policy_id : string) (policy_config : nat)
| Invoke_delete_cluster_policy (policy_id : string)
| Invoke_list_node_types
| Invoke_list_spark_versions
| Invoke_list_system_schemas
| Invoke_query_audit_logs (start_date : string) (end_date : string) (service_name : option string) (action_name : option string) (limit : Z)
| Invoke_query_table_lineage (table_name : string) (upstream : bool) (downstream : bool)
| Invoke_query_column_lineage (table_name : string) (column_name : option string)
| Invoke_query_table_usage (table_name : string) (days : Z)
| Invoke_query_workspace_objects (object_type : option string) (created_days : Z)
| Invoke_query_permissions_changes (principal : option string) (days : Z)
| Invoke_query_compute_usage (start_date : string) (end_date : string) (cluster_id : option string)
| Invoke_query_storage_usage (start_date : string) (end_date : string)
| Invoke_list_quality_monitors (catalog_name : option string)
| Invoke_get_quality_monitor_status (table_name : string)
| Invoke_list_models
| Invoke_get_model (model_name : string)
| Invoke_create_model (model_name : string) (description : option string) (tags : option (list val))
| Invoke_update_model (model_name : string) (description : option string)
| Invoke_delete_model (model_name : string)
| Invoke_list_model_versions (model_name : string)
| Invoke_get_model_version (model_name : string) (version : string)
| Invoke_create_model_version (model_name : string) (source : string) (run_id : option string) (description : option string) (tags : option (list val))
| Invoke_update_model_version (model_name : string) (version : string) (description : option string) (stage : option string)
| Invoke_delete_model_version (model_name : string) (version : string)
| Invoke_transition_model_version_stage (model_name : string) (version : string) (stage : string) (archive_existing_versions : bool)
| Invoke_list_experiments
| Invoke_get_experiment (experiment_id : string)
| Invoke_create_experiment (name : string) (artifact_location : option string) (tags : option (list val))
| Invoke_update_experiment (experiment_id : string) (new_name : option string)
| Invoke_delete_experiment (experiment_id : string)
| Invoke_restore_experiment (experiment_id : string)
| Invoke_search_runs (experiment_ids : list val) (filter_string : option string) (run_view_type : string) (max_results : Z)
| Invoke_get_run (run_id : string)
| Invoke_delete_run (run_id : string)
| Invoke_restore_run (run_id : string)
| Invoke_list_secret_scopes
| Invoke_create_secret_scope (scope_name : string) (backend_type : string)
| Invoke_delete_secret_scope (scope_name : string)
| Invoke_list_secrets (scope_name : string)
| Invoke_put_secret (scope_name : string) (key : string) (value : string)
| Invoke_delete_secret (scope_name : string) (key : string)
| Invoke_get_secret_acl (scope_name : string) (principal : string)
| Invoke_list_secret_acls (scope_name : string)
| Invoke_put_secret_acl (scope_name : string) (principal : string) (permission : string)
| Invoke_delete_secret_acl (scope_name : string) (principal : string)
| Invoke_list_users
| Invoke_get_user (user_id : string)
| Invoke_create_user (user_config : nat)
| Invoke_update_user (user_id : string) (user_config : nat)
| Invoke_delete_user (user_id : string)
| Invoke_list_groups
| Invoke_get_group (group_id : string)
| Invoke_create_group (group_config : nat)
| Invoke_update_group (group_id : string) (group_config : nat)
| Invoke_delete_group (group_id : string)
| Invoke_list_service_principals
| Invoke_get_service_principal (sp_id : string)
| Invoke_create_service_principal (sp_config : nat)
| Invoke_update_service_principal (sp_id : string) (sp_config : nat)
| Invoke_delete_service_principal (sp_id : string)
| Invoke_list_tokens
| Invoke_create_token (comment : option string) (lifetime_seconds : option Z)
| Invoke_revoke_token (token_id : string)
| Invoke_list_ip_access_lists
| Invoke_get_ip_access_list (list_id : string)
| Invoke_create_ip_access_list (ip_config : nat)
| Invoke_update_ip_access_list (list_id : string) (ip_config : nat)
| Invoke_delete_ip_access_list (list_id : string)
| Invoke_get_workspace_conf
| Invoke_set_workspace_conf (config_key : string) (config_value : string)
| Invoke_list_workspace_objects (path : string)
| Invoke_get_workspace_object (path : string)
| Invoke_export_workspace_object (path : string) (format : string)
| Invoke_import_workspace_object (path : string) (content : string) (language : string) (format : string) (overwrite : bool)
| Invoke_delete_workspace_object (path : string) (recursive : bool)
| Invoke_create_workspace_directory (path : string)
| Invoke_list_repos
| Invoke_get_repo (repo_id : string)
| Invoke_create_repo (repo_config : nat)
| Invoke_update_repo (repo_id : string) (branch : option string) (tag : option string)
| Invoke_delete_repo (repo_id : string)
| Invoke_get_repo_permissions (repo_id : string)
| Invoke_set_repo_permissions (repo_id : string) (access_control_list : list val)
| Invoke_update_repo_permissions (repo_id : string) (access_control_list : list val)
| Invoke_get_workspace_permissions (workspace_object_type : string) (workspace_object_id : string)
| Invoke_set_workspace_permissions (workspace_object_type : string) (workspace_object_id : string) (access_control_list : list val)
| Invoke_update_workspace_permissions (workspace_object_type : string) (workspace_object_id : string) (access_control_list : list val)
| Invoke_get_current_user
| Invoke_get_workspace_settings
| Invoke_update_token_management_settings (token_config : nat)
| Invoke_update_ip_access_list_settings (ip_config : nat).

Section Handlers.

Variable E : env.

(** [str(v)], and what a replacement field of an f-string shows. *)
Definition py_str (v : val) : string :=
  match v with
  | VNone => "None"
  | VBool true => "True"
  | VBool false => "False"
  | VInt z => decimal z
  | VStr s => s
  | _ => repr E v
  end.

Definition str_of (o : outcome val) : outcome val :=
  let! v := o in Ok (VStr (py_str v)).

Fixpoint fstr_text (ps : list piece) : outcome string :=
  match ps with
  | [] => Ok ""
  | Lit s :: rest => let! t := fstr_text rest in Ok (s ++ t)%string
  | Fmt e :: rest =>
      let! v := e in
      let! t := fstr_text rest in
      Ok (py_str v ++ t)%string
  end.

(** The f-string made of the pieces [ps]. *)
Definition fstr (ps : list piece) : outcome val :=
  let! s := fstr_text ps in Ok (VStr s).

(** [b.decode('utf-8')] *)
Definition decode_utf8 (v : val) : outcome val :=
  match v with
  | VBytes raw =>
      if utf8_valid E raw then Ok (VStr raw)
      else Raise (mkExc "UnicodeDecodeError" "'utf-8' codec can't decode bytes")
  | _ => Raise (attribute_error v "decode")
  end.

Definition decode_utf8_of (o : outcome val) : outcome val :=
  let! v := o in decode_utf8 v.

(** [get_workspace_client()]: every module defines it as [WorkspaceClient()]. *)
Definition get_workspace_client : exec val :=
  fun st =>
    let st' := record EClient st in
    match workspace_client E with
    | Ok c => (Ok c, st')
    | Raise e => (Raise e, note e st')
    end.

(** One API method called on the client, positional and keyword arguments
    given. *)
Definition api (client : val) (path : string) (a : list val) (kw : list (string * val))
  : exec val :=
  fun st =>
    let c := mkCall client path a kw in
    let st' := record (EApi c) st in
    match respond E c with
    | Ok v => (Ok v, st')
    | Raise e => (Raise e, note e st')
    end.

(** The keyword arguments [**d] stands for. *)
Definition kwargs_of (d : val) : exec (list (string * val)) :=
  fun st =>
    match d with
    | VDict entries => (Ok entries, st)
    | VRef l => (Ok (heap st l), st)
    | _ => throw (type_error ("argument after ** must be a mapping, not " ++ type_name d)) st
    end.

(** [d[k] = e]: a dict of the caller's is changed in place. *)
Definition set_item (d : val) (k : string) (e : outcome val) : exec val :=
  v <~ e ;;
  fun st =>
    match d with
    | VDict entries => (Ok (VDict (dict_set entries k v)), st)
    | VRef l => (Ok (VRef l), store l (dict_set (heap st l) k v) st)
    | _ => throw (type_error ("'" ++ type_name d ++ "' object does not support item assignment")) st
    end.

(** [try: body / except cls: handler], other exceptions pass. *)
Definition try_except_only {A : Type} (cls : string) (body : exec A) (handler : exec A)
  : exec A :=
  fun st =>
    match body st with
    | (Ok a, st') => (Ok a, st')
    | (Raise e, st') => if String.eqb (exc_class e) cls then handler st' else (Raise e, st')
    end.

(** ** The handlers *)

(** *** compute.py *)

(** [list_clusters], compute.py line 22. *)
Definition list_clusters : exec val :=
  guarded (
    client <- get_workspace_client ;;
    clusters <- api client "clusters.list" [] [] ;;
    clusters <~ list_of (Ok clusters) ;;
    cluster_list <~ collect (Ok clusters) (fun cluster =>
      dict_lit [
        ("cluster_id", Ok cluster ~> "cluster_id");
        ("cluster_name", Ok cluster ~> "cluster_name");
        ("state", (Ok cluster ~> "state" ~> "name" <| Ok cluster ~> "state" |> Ok VNone));
        ("node_type_id", Ok cluster ~> "node_type_id");
        ("driver_node_type_id", Ok cluster ~> "driver_node_type_id");
        ("num_workers", Ok cluster ~> "num_workers");
        ("autoscale", (call_of (Ok cluster ~> "autoscale") "dict" <| Ok cluster ~> "autoscale" |> Ok VNone));
        ("spark_version", Ok cluster ~> "spark_version");
        ("creator_user_name", Ok cluster ~> "creator_user_name");
        ("start_time", Ok cluster ~> "start_time");
        ("terminated_time", Ok cluster ~> "terminated_time");
        ("last_state_loss_time", Ok cluster ~> "last_state_loss_time");
        ("last_activity_time", Ok cluster ~> "last_activity_time")
      ]) ;;
    lift (dict_lit [
      ("status", Ok (VStr "success"));
      ("clusters", Ok cluster_list);
      ("count", len_of (Ok cluster_list))
    ])).

(** [get_cluster], compute.py line 60. *)
Definition get_cluster (cluster_id : val) : exec val :=
  guarded (
    client <- get_workspace_client ;;
    cluster <- api client "clusters.get" [cluster_id] [] ;;
    lift (dict_lit [
      ("status", Ok (VStr "success"));
      ("cluster", dict_lit [
        ("cluster_id", Ok cluster ~> "cluster_id");
        ("cluster_name", Ok cluster ~> "cluster_name");
        ("state", (Ok cluster ~> "state" ~> "name" <| Ok cluster ~> "state" |> Ok VNone));
        ("state_message", Ok cluster ~> "state_message");
        ("node_type_id", Ok cluster ~> "node_type_id");
        ("driver_node_type_id", Ok cluster ~> "driver_node_type_id");
        ("num_workers", Ok cluster ~> "num_workers");
        ("autoscale", (call_of (Ok cluster ~> "autoscale") "dict" <| Ok cluster ~> "autoscale" |> Ok VNone));
        ("spark_version", Ok cluster ~> "spark_version");
        ("spark_conf", Ok cluster ~> "spark_conf");
        ("aws_attributes", (call_of (Ok cluster ~> "aws_attributes") "dict" <| Ok cluster ~> "aws_attributes" |> Ok VNone));
        ("azure_attributes", (call_of (Ok cluster ~> "azure_attributes") "dict" <| Ok cluster ~> "azure_attributes" |> Ok VNone));
        ("gcp_attributes", (call_of (Ok cluster ~> "gcp_attributes") "dict" <| Ok cluster ~> "gcp_attributes" |> Ok VNone));
        ("cluster_source", (Ok cluster ~> "cluster_source" ~> "name" <| Ok cluster ~> "cluster_source" |> Ok VNone));
        ("creator_user_name", Ok cluster ~> "creator_user_name");
        ("start_time", Ok cluster ~> "start_time");
        ("terminated_time", Ok cluster ~> "terminated_time");
        ("last_state_loss_time", Ok cluster ~> "last_state_loss_time");
        ("last_activity_time", Ok cluster ~> "last_activity_time");
        ("cluster_memory_mb", Ok cluster ~> "cluster_memory_mb");
        ("cluster_cores", Ok cluster ~> "cluster_cores");
        ("default_tags", Ok cluster ~> "default_tags");
        ("custom_tags", Ok cluster ~> "custom_tags");
        ("init_scripts", (list_comp (Ok cluster ~> "init_scripts") (fun script => call_of (Ok script) "dict") <| Ok cluster ~> "init_scripts" |> Ok VNone));
        ("enable_elastic_disk", Ok cluster ~> "enable_elastic_disk");
        ("disk_spec", (call_of (Ok cluster ~> "disk_spec") "dict" <| Ok cluster ~> "disk_spec" |> Ok VNone));
        ("cluster_log_conf", (call_of (Ok cluster ~> "cluster_log_conf") "dict" <| Ok cluster ~> "cluster_log_conf" |> Ok VNone))
      ])
    ])).

(** [create_cluster], compute.py line 109. *)
Definition create_cluster (cluster_config : val) : exec val :=
  guarded (
    client <- get_workspace_client ;;
    kw <- kwargs_of cluster_config ;;
    response <- api client "clusters.create" [] kw ;;
    lift (dict_lit [
      ("status", Ok (VStr "success"));
      ("cluster_id", Ok response ~> "cluster_id");
      ("message", fstr [Lit "Cluster "; Fmt (Ok response ~> "cluster_id"); Lit " creation initiated"])
    ])).

(** [start_cluster], compute.py line 133. *)
Definition start_cluster (cluster_id : val) : exec val :=
  guarded (
    client <- get_workspace_client ;;
    _ <- api client "clusters.start" [cluster_id] [] ;;
    lift (dict_lit [
      ("status", Ok (VStr "success"));
      ("message", fstr [Lit "Cluster "; Fmt (Ok cluster_id); Lit " start initiated"])
    ])).

(** [restart_cluster], compute.py line 154. *)
Definition restart_cluster (cluster_id : val) : exec val :=
  guarded (
    client <- get_workspace_client ;;
    _ <- api client "clusters.restart" [cluster_id] [] ;;
    lift (dict_lit [
      ("status", Ok (VStr "success"));
      ("message", fstr [Lit "Cluster "; Fmt (Ok cluster_id); Lit " restart initiated"])
    ])).

(** [terminate_cluster], compute.py line 175. *)
Definition terminate_cluster (cluster_id : val) : exec val :=
  guarded (
    client <- get_workspace_client ;;
    _ <- api client "clusters.delete" [cluster_id] [] ;;
    lift (dict_lit [
      ("status", Ok (VStr "success"));
      ("message", fstr [Lit "Cluster "; Fmt (Ok cluster_id); Lit " termination initiated"])
    ])).

(** [delete_cluster], compute.py line 196. *)
Definition delete_cluster (cluster_id : val) : exec val :=
  guarded (
    client <- get_workspace_client ;;
    _ <- api client "clusters.permanent_delete" [cluster_id] [] ;;
    lift (dict_lit [
      ("status", Ok (VStr "success"));
      ("message", fstr [Lit "Cluster "; Fmt (Ok cluster_id); Lit " permanent deletion initiated"])
    ])).

(** [edit_cluster], compute.py line 217. *)
Definition edit_cluster (cluster_id : val) (cluster_config : val) : exec val :=
  guarded (
    client <- get_workspace_client ;;
    cluster_config <- set_item cluster_config "cluster_id" (Ok cluster_id) ;;
    kw <- kwargs_of cluster_config ;;
    _ <- api client "clusters.edit" [] kw ;;
    lift (dict_lit [
      ("status", Ok (VStr "success"));
      ("message", fstr [Lit "Cluster "; Fmt (Ok cluster_id); Lit " configuration updated"])
    ])).

(** [get_cluster_events], compute.py line 243. *)
Definition get_cluster_events (cluster_id : val) (start_time : val) (end_time : val) (order : val) (limit : val) : exec val :=
  guarded (
    client <- get_workspace_client ;;
    events_response <- api client "clusters.get_events" [] [("cluster_id", cluster_id); ("start_time", start_time); ("end_time", end_time); ("order", order); ("limit", limit)] ;;
    guard <~ Ok events_response ~> "events" ;;
    events_list <~ (if truthy guard
       then collect (Ok events_response ~> "events") (fun event =>
        dict_lit [
          ("cluster_id", Ok event ~> "cluster_id");
          ("timestamp", Ok event ~> "timestamp");
          ("type", (Ok event ~> "type" ~> "name" <| Ok event ~> "type" |> Ok VNone));
          ("details", (call_of (Ok event ~> "details") "dict" <| Ok event ~> "details" |> Ok VNone))
        ])
       else Ok (VList [])) ;;
    lift (dict_lit [
      ("status", Ok (VStr "success"));
      ("events", Ok events_list);
      ("count", len_of (Ok events_list));
      ("next_page", Ok events_response ~> "next_page");
      ("total_count", Ok events_response ~> "total_count")
    ])).

(** [list_instance_pools], compute.py line 291. *)
Definition list_instance_pools : exec val :=
  guarded (
    client <- get_workspace_client ;;
    pools <- api client "instance_pools.list" [] [] ;;
    pools <~ list_of (Ok pools) ;;
    pool_list <~ collect (Ok pools) (fun pool =>
      dict_lit [
        ("instance_pool_id", Ok pool ~> "instance_pool_id");
        ("instance_pool_name", Ok pool ~> "instance_pool_name");
        ("state", (Ok pool ~> "state" ~> "name" <| Ok pool ~> "state" |> Ok VNone));
        ("node_type_id", Ok pool ~> "node_type_id");
        ("min_idle_instances", Ok pool ~> "min_idle_instances");
        ("max_capacity", Ok pool ~> "max_capacity");
        ("idle_instance_autotermination_minutes", Ok pool ~> "idle_instance_autotermination_minutes");
        ("enable_elastic_disk", Ok pool ~> "enable_elastic_disk");
        ("disk_spec", (call_of (Ok pool ~> "disk_spec") "dict" <| Ok pool ~> "disk_spec" |> Ok VNone));
        ("preloaded_spark_versions", Ok pool ~> "preloaded_spark_versions");
        ("aws_attributes", (call_of (Ok pool ~> "aws_attributes") "dict" <| Ok pool ~> "aws_attributes" |> Ok VNone));
        ("azure_attributes", (call_of (Ok pool ~> "azure_attributes") "dict" <| Ok pool ~> "azure_attributes" |> Ok VNone));
        ("gcp_attributes", (call_of (Ok pool ~> "gcp_attributes") "dict" <| Ok pool ~> "gcp_attributes" |> Ok VNone));
        ("custom_tags", Ok pool ~> "custom_tags");
        ("default_tags", Ok pool ~> "default_tags");
        ("stats", (call_of (Ok pool ~> "stats") "dict" <| Ok pool ~> "stats" |> Ok VNone))
      ]) ;;
    lift (dict_lit [
      ("status", Ok (VStr "success"));
      ("instance_pools", Ok pool_list);
      ("count", len_of (Ok pool_list))
    ])).

(** [get_instance_pool], compute.py line 332. *)
Definition get_instance_pool (instance_pool_id : val) : exec val :=
  guarded (
    client <- get_workspace_client ;;
    pool <- api client "instance_pools.get" [instance_pool_id] [] ;;
    lift (dict_lit [
      ("status", Ok (VStr "success"));
      ("instance_pool", dict_lit [
        ("instance_pool_id", Ok pool ~> "instance_pool_id");
        ("instance_pool_name", Ok pool ~> "instance_pool_name");
        ("state", (Ok pool ~> "state" ~> "name" <| Ok pool ~> "state" |> Ok VNone));
        ("node_type_id", Ok pool ~> "node_type_id");
        ("min_idle_instances", Ok pool ~> "min_idle_instances");
        ("max_capacity", Ok pool ~> "max_capacity");
        ("idle_instance_autotermination_minutes", Ok pool ~> "idle_instance_autotermination_minutes");
        ("enable_elastic_disk", Ok pool ~> "enable_elastic_disk");
        ("disk_spec", (call_of (Ok pool ~> "disk_spec") "dict" <| Ok pool ~> "disk_spec" |> Ok VNone));
        ("preloaded_spark_versions", Ok pool ~> "preloaded_spark_versions");
        ("preloaded_docker_images", (list_comp (Ok pool ~> "preloaded_docker_images") (fun img => call_of (Ok img) "dict") <| Ok pool ~> "preloaded_docker_images" |> Ok VNone));
        ("aws_attributes", (call_of (Ok pool ~> "aws_attributes") "dict" <| Ok pool ~> "aws_attributes" |> Ok VNone));
        ("azure_attributes", (call_of (Ok pool ~> "azure_attributes") "dict" <| Ok pool ~> "azure_attributes" |> Ok VNone));
        ("gcp_attributes", (call_of (Ok pool ~> "gcp_attributes") "dict" <| Ok pool ~> "gcp_attributes" |> Ok VNone));
        ("custom_tags", Ok pool ~> "custom_tags");
        ("default_tags", Ok pool ~> "default_tags");
        ("stats", (call_of (Ok pool ~> "stats") "dict" <| Ok pool ~> "stats" |> Ok VNone))
      ])
    ])).

(** [create_instance_pool], compute.py line 371. *)
Definition create_instance_pool (pool_config : val) : exec val :=
  guarded (
    client <- get_workspace_client ;;
    kw <- kwargs_of pool_config ;;
    response <- api client "instance_pools.create" [] kw ;;
    lift (dict_lit [
      ("status", Ok (VStr "success"));
      ("instance_pool_id", Ok response ~> "instance_pool_id");
      ("message", fstr [Lit "Instance pool "; Fmt (Ok response ~> "instance_pool_id"); Lit " created successfully"])
    ])).

(** [edit_instance_pool], compute.py line 394. *)
Definition edit_instance_pool (instance_pool_id : val) (pool_config : val) : exec val :=
  guarded (
    client <- get_workspace_client ;;
    pool_config <- set_item pool_config "instance_pool_id" (Ok instance_pool_id) ;;
    kw <- kwargs_of pool_config ;;
    _ <- api client "instance_pools.edit" [] kw ;;
    lift (dict_lit [
      ("status", Ok (VStr "success"));
      ("message", fstr [Lit "Instance pool "; Fmt (Ok instance_pool_id); Lit " updated successfully"])
    ])).

(** [delete_instance_pool], compute.py line 420. *)
Definition delete_instance_pool (instance_pool_id : val) : exec val :=
  guarded (
    client <- get_workspace_client ;;
    _ <- api client "instance_pools.delete" [instance_pool_id] [] ;;
    lift (dict_lit [
      ("status", Ok (VStr "success"));
      ("message", fstr [Lit "Instance pool "; Fmt (Ok instance_pool_id); Lit " deleted successfully"])
    ])).

(** [list_cluster_libraries], compute.py line 443. *)
Definition list_cluster_libraries (cluster_id : val) : exec val :=
  guarded (
    client <- get_workspace_client ;;
    libraries <- api client "libraries.cluster_status" [cluster_id] [] ;;
    guard <~ Ok libraries ~> "library_statuses" ;;
    library_list <~ (if truthy guard
       then collect (Ok libraries ~> "library_statuses") (fun lib_status =>
        dict_lit [
          ("library", (call_of (Ok lib_status ~> "library") "dict" <| Ok lib_status ~> "library" |> Ok VNone));
          ("status", (Ok lib_status ~> "status" ~> "name" <| Ok lib_status ~> "status" |> Ok VNone));
          ("messages", Ok lib_status ~> "messages");
          ("is_library_for_all_clusters", Ok lib_status ~> "is_library_for_all_clusters")
        ])
       else Ok (VList [])) ;;
    lift (dict_lit [
      ("status", Ok (VStr "success"));
      ("cluster_id", Ok libraries ~> "cluster_id");
      ("libraries", Ok library_list);
      ("count", len_of (Ok library_list))
    ])).

(** [install_cluster_libraries], compute.py line 477. *)
Definition install_cluster_libraries (cluster_id : val) (libraries : val) : exec val :=
  guarded (
    client <- get_workspace_client ;;
    _ <- api client "libraries.install" [] [("cluster_id", cluster_id); ("libraries", libraries)] ;;
    lift (dict_lit [
      ("status", Ok (VStr "success"));
      ("message", fstr [Lit "Libraries installation initiated on cluster "; Fmt (Ok cluster_id)]);
      ("libraries_count", len_of (Ok libraries))
    ])).

(** [uninstall_cluster_libraries], compute.py line 501. *)
Definition uninstall_cluster_libraries (cluster_id : val) (libraries : val) : exec val :=
  guarded (
    client <- get_workspace_client ;;
    _ <- api client "libraries.uninstall" [] [("cluster_id", cluster_id); ("libraries", libraries)] ;;
    lift (dict_lit [
      ("status", Ok (VStr "success"));
      ("message", fstr [Lit "Libraries uninstallation initiated on cluster "; Fmt (Ok cluster_id)]);
      ("libraries_count", len_of (Ok libraries))
    ])).

(** [list_all_cluster_libraries], compute.py line 525. *)
Definition list_all_cluster_libraries : exec val :=
  guarded (
    client <- get_workspace_client ;;
    all_statuses <- api client "libraries.all_cluster_statuses" [] [] ;;
    all_statuses <~ list_of (Ok all_statuses) ;;
    cluster_libraries <~ collect (Ok all_statuses) (fun status =>
      let! cluster_info := dict_lit [
        ("cluster_id", Ok status ~> "cluster_id");
        ("library_statuses", list_lit [])
      ] in
      let! guard := Ok status ~> "library_statuses" in
      if truthy guard
      then
        (* every [append] goes to the list under 'library_statuses' *)
        with_key cluster_info "library_statuses"
          (collect (Ok status ~> "library_statuses") (fun lib_status =>
            dict_lit [
              ("library", (call_of (Ok lib_status ~> "library") "dict" <| Ok lib_status ~> "library" |> Ok VNone));
              ("status", (Ok lib_status ~> "status" ~> "name" <| Ok lib_status ~> "status" |> Ok VNone));
              ("messages", Ok lib_status ~> "messages");
              ("is_library_for_all_clusters", Ok lib_status ~> "is_library_for_all_clusters")
            ]))
      else Ok cluster_info) ;;
    lift (dict_lit [
      ("status", Ok (VStr "success"));
      ("cluster_libraries", Ok cluster_libraries);
      ("clusters_count", len_of (Ok cluster_libraries))
    ])).

(** [list_cluster_policies], compute.py line 565. *)
Definition list_cluster_policies : exec val :=
  guarded (
    client <- get_workspace_client ;;
    policies <- api client "cluster_policies.list" [] [] ;;
    policies <~ list_of (Ok policies) ;;
    policy_list <~ collect (Ok policies) (fun policy =>
      dict_lit [
        ("policy_id", Ok policy ~> "policy_id");
        ("name", Ok policy ~> "name");
        ("definition", Ok policy ~> "definition");
        ("created_at_timestamp", Ok policy ~> "created_at_timestamp");
        ("is_default", Ok policy ~> "is_default");
        ("max_clusters_per_user", Ok policy ~> "max_clusters_per_user");
        ("policy_family_id", Ok policy ~> "policy_family_id");
        ("policy_family_definition_overrides", Ok policy ~> "policy_family_definition_overrides")
      ]) ;;
    lift (dict_lit [
      ("status", Ok (VStr "success"));
      ("policies", Ok policy_list);
      ("count", len_of (Ok policy_list))
    ])).

(** [get_cluster_policy], compute.py line 598. *)
Definition get_cluster_policy (policy_id : val) : exec val :=
  guarded (
    client <- get_workspace_client ;;
    policy <- api client "cluster_policies.get" [policy_id] [] ;;
    lift (dict_lit [
      ("status", Ok (VStr "success"));
      ("policy", dict_lit [
        ("policy_id", Ok policy ~> "policy_id");
        ("name", Ok policy ~> "name");
        ("definition", Ok policy ~> "definition");
        ("created_at_timestamp", Ok policy ~> "created_at_timestamp");
        ("is_default", Ok policy ~> "is_default");
        ("max_clusters_per_user", Ok policy ~> "max_clusters_per_user");
        ("policy_family_id", Ok policy ~> "policy_family_id");
        ("policy_family_definition_overrides", Ok policy ~> "policy_family_definition_overrides")
      ])
    ])).

(** [create_cluster_policy], compute.py line 628. *)
Definition create_cluster_policy (policy_config : val) : exec val :=
  guarded (
    client <- get_workspace_client ;;
    kw <- kwargs_of policy_config ;;
    response <- api client "cluster_policies.create" [] kw ;;
    lift (dict_lit [
      ("status", Ok (VStr "success"));
      ("policy_id", Ok response ~> "policy_id");
      ("message", fstr [Lit "Cluster policy "; Fmt (Ok response ~> "policy_id"); Lit " created successfully"])
    ])).

(** [edit_cluster_policy], compute.py line 651. *)
Definition edit_cluster_policy (policy_id : val) (policy_config : val) : exec val :=
  guarded (
    client <- get_workspace_client ;;
    policy_config <- set_item policy_config "policy_id" (Ok policy_id) ;;
    kw <- kwargs_of policy_config ;;
    _ <- api client "cluster_policies.edit" [] kw ;;
    lift (dict_lit [
      ("status", Ok (VStr "success"));
      ("message", fstr [Lit "Cluster policy "; Fmt (Ok policy_id); Lit " updated successfully"])
    ])).

(** [delete_cluster_policy], compute.py line 677. *)
Definition delete_cluster_policy (policy_id : val) : exec val :=
  guarded (
    client <- get_workspace_client ;;
    _ <- api client "cluster_policies.delete" [policy_id] [] ;;
    lift (dict_lit [
      ("status", Ok (VStr "success"));
      ("message", fstr [Lit "Cluster policy "; Fmt (Ok policy_id); Lit " deleted successfully"])
    ])).

(** [list_node_types], compute.py line 700. *)
Definition list_node_types : exec val :=
  guarded (
    client <- get_workspace_client ;;
    node_types <- api client "clusters.list_node_types" [] [] ;;
    guard <~ Ok node_types ~> "node_types" ;;
    node_types_list <~ (if truthy guard
       then collect (Ok node_types ~> "node_types") (fun node_type =>
        dict_lit [
          ("node_type_id", Ok node_type ~> "node_type_id");
          ("memory_mb", Ok node_type ~> "memory_mb");
          ("num_cores", Ok node_type ~> "num_cores");
          ("description", Ok node_type ~> "description");
          ("instance_type_id", Ok node_type ~> "instance_type_id");
          ("is_deprecated", Ok node_type ~> "is_deprecated");
          ("category", Ok node_type ~> "category");
          ("support_ebs_volumes", Ok node_type ~> "support_ebs_volumes");
          ("support_cluster_tags", Ok node_type ~> "support_cluster_tags");
          ("support_port_forwarding", Ok node_type ~> "support_port_forwarding");
          ("display_order", Ok node_type ~> "display_order");
          ("node_info", (call_of (Ok node_type ~> "node_info") "dict" <| Ok node_type ~> "node_info" |> Ok VNone))
        ])
       else Ok (VList [])) ;;
    lift (dict_lit [
      ("status", Ok (VStr "success"));
      ("node_types", Ok node_types_list);
      ("count", len_of (Ok node_types_list))
    ])).

(** [list_spark_versions], compute.py line 738. *)
Definition list_spark_versions : exec val :=
  guarded (
    client <- get_workspace_client ;;
    spark_versions <- api client "clusters.spark_versions" [] [] ;;
    guard <~ Ok spark_versions ~> "versions" ;;
    versions_list <~ (if truthy guard
       then collect (Ok spark_versions ~> "versions") (fun version =>
        dict_lit [
          ("key", Ok version ~> "key");
          ("name", Ok version ~> "name")
        ])
       else Ok (VList [])) ;;
    lift (dict_lit [
      ("status", Ok (VStr "success"));
      ("spark_versions", Ok versions_list);
      ("count", len_of (Ok versions_list))
    ])).

(** *** governance.py *)

(** [list_system_schemas], governance.py line 20. *)
Definition list_system_schemas : exec val :=
  guarded (
    client <- get_workspace_client ;;
    try_except (
      schemas <- api client "schemas.list" [] [("catalog_name", (VStr "system"))] ;;
      schemas <~ list_of (Ok schemas) ;;
      schema_list <~ collect (Ok schemas) (fun schema =>
        dict_lit [
          ("name", Ok schema ~> "name");
          ("catalog_name", Ok schema ~> "catalog_name");
          ("comment", Ok schema ~> "comment");
          ("full_name", Ok schema ~> "full_name");
          ("owner", Ok schema ~> "owner");
          ("created_at", Ok schema ~> "created_at");
          ("updated_at", Ok schema ~> "updated_at")
        ]) ;;
      lift (dict_lit [
        ("status", Ok (VStr "success"));
        ("system_schemas", Ok schema_list);
        ("count", len_of (Ok schema_list));
        ("message", Ok (VStr "System schemas retrieved successfully"))
      ]))
    (fun _ =>
      (* Fallback to known system schemas *)
      lift (dict_lit [
        ("status", Ok (VStr "success"));
        ("system_schemas", list_lit [
          dict_lit [("name", Ok (VStr "access")); ("description", Ok (VStr "Audit logs and access information"))];
          dict_lit [("name", Ok (VStr "billing")); ("description", Ok (VStr "Billing and usage information"))];
          dict_lit [("name", Ok (VStr "compute")); ("description", Ok (VStr "Compute resource information"))];
          dict_lit [("name", Ok (VStr "storage")); ("description", Ok (VStr "Storage usage information"))];
          dict_lit [("name", Ok (VStr "marketplace")); ("description", Ok (VStr "Marketplace information"))];
          dict_lit [("name", Ok (VStr "information_schema")); ("description", Ok (VStr "Information schema metadata"))]
        ]);
        ("count", Ok (VInt 6));
        ("message", Ok (VStr "Standard system schemas listed"))
      ]))).

(** [query_audit_logs], governance.py line 70. *)
Definition query_audit_logs (start_date : val) (end_date : val) (service_name : val) (action_name : val) (limit : val) : exec val :=
  guarded (
    client <- get_workspace_client ;;
    where_conditions <~ list_lit [fstr [Lit "event_date >= '"; Fmt (Ok start_date); Lit "'"]; fstr [Lit "event_date <= '"; Fmt (Ok end_date); Lit "'"]] ;;
    where_conditions <~ (if truthy service_name
       then append_of (Ok where_conditions) (fstr [Lit "service_name = '"; Fmt (Ok service_name); Lit "'"])
       else Ok where_conditions) ;;
    where_conditions <~ (if truthy action_name
       then append_of (Ok where_conditions) (fstr [Lit "action_name = '"; Fmt (Ok action_name); Lit "'"])
       else Ok where_conditions) ;;
    where_clause <~ join_of " AND " (Ok where_conditions) ;;
    query <~ fstr [Lit "
            SELECT 
                event_time,
                event_date,
                workspace_id,
                account_id,
                user_identity,
                service_name,
                action_name,
                request_id,
                response,
                source_ip_address,
                user_agent
            FROM system.access.audit
            WHERE "; Fmt (Ok where_clause); Lit "
            ORDER BY event_time DESC
            LIMIT "; Fmt (Ok limit); Lit "
            "] ;;
    result <- api client "statement_execution.execute_statement" [] [("statement", query); ("warehouse_id", VNone)] ;;
    lift (dict_lit [
      ("status", Ok (VStr "success"));
      ("query", Ok query);
      ("start_date", Ok start_date);
      ("end_date", Ok end_date);
      ("service_name", Ok service_name);
      ("action_name", Ok action_name);
      ("statement_id", Ok result ~> "statement_id");
      ("message", Ok (VStr "Audit log query executed successfully"))
    ])).

(** [query_table_lineage], governance.py line 138. *)
Definition query_table_lineage (table_name : val) (upstream : val) (downstream : val) : exec val :=
  guarded (
    client <- get_workspace_client ;;
    lineage_conditions <~ list_lit [] ;;
    lineage_conditions <~ (if truthy upstream
       then append_of (Ok lineage_conditions) (fstr [Lit "target_table_full_name = '"; Fmt (Ok table_name); Lit "'"])
       else Ok lineage_conditions) ;;
    lineage_conditions <~ (if truthy downstream
       then append_of (Ok lineage_conditions) (fstr [Lit "source_table_full_name = '"; Fmt (Ok table_name); Lit "'"])
       else Ok lineage_conditions) ;;
    if negb (truthy lineage_conditions)
    then
      lift (dict_lit [
        ("status", Ok (VStr "error"));
        ("message", Ok (VStr "Must specify upstream or downstream lineage"))
      ])
    else
      where_clause <~ join_of " OR " (Ok lineage_conditions) ;;
      query <~ fstr [Lit "
            SELECT 
                source_table_full_name,
                target_table_full_name,
                source_table_catalog,
                source_table_schema,
                source_table_name,
                target_table_catalog,
                target_table_schema,
                target_table_name,
                created_at,
                created_by
            FROM system.access.table_lineage
            WHERE "; Fmt (Ok where_clause); Lit "
            ORDER BY created_at DESC
            "] ;;
      result <- api client "statement_execution.execute_statement" [] [("statement", query); ("warehouse_id", VNone)] ;;
      lift (dict_lit [
        ("status", Ok (VStr "success"));
        ("table_name", Ok table_name);
        ("query", Ok query);
        ("upstream", Ok upstream);
        ("downstream", Ok downstream);
        ("statement_id", Ok result ~> "statement_id");
        ("message", Ok (VStr "Table lineage query executed successfully"))
      ])).

(** [query_column_lineage], governance.py line 199. *)
Definition query_column_lineage (table_name : val) (column_name : val) : exec val :=
  guarded (
    client <- get_workspace_client ;;
    where_conditions <~ list_lit [fstr [Lit "(source_table_full_name = '"; Fmt (Ok table_name); Lit "' OR target_table_full_name = '"; Fmt (Ok table_name); Lit "')"]] ;;
    where_conditions <~ (if truthy column_name
       then append_of (Ok where_conditions) (fstr [Lit "(source_column_name = '"; Fmt (Ok column_name); Lit "' OR target_column_name = '"; Fmt (Ok column_name); Lit "')"])
       else Ok where_conditions) ;;
    where_clause <~ join_of " AND " (Ok where_conditions) ;;
    query <~ fstr [Lit "
            SELECT 
                source_table_full_name,
                source_column_name,
                target_table_full_name,
                target_column_name,
                created_at,
                created_by
            FROM system.access.column_lineage
            WHERE "; Fmt (Ok where_clause); Lit "
            ORDER BY created_at DESC
            "] ;;
    result <- api client "statement_execution.execute_statement" [] [("statement", query); ("warehouse_id", VNone)] ;;
    lift (dict_lit [
      ("status", Ok (VStr "success"));
      ("table_name", Ok table_name);
      ("column_name", Ok column_name);
      ("query", Ok query);
      ("statement_id", Ok result ~> "statement_id");
      ("message", Ok (VStr "Column lineage query executed successfully"))
    ])).

(** [query_table_usage], governance.py line 254. *)
Definition query_table_usage (table_name : val) (days : val) : exec val :=
  guarded (
    client <- get_workspace_client ;;
    query <~ fstr [Lit "
            SELECT 
                table_name,
                read_count,
                write_count,
                last_accessed,
                accessed_by_users
            FROM (
                SELECT 
                    '"; Fmt (Ok table_name); Lit "' as table_name,
                    COUNT(CASE WHEN action_name LIKE '%READ%' THEN 1 END) as read_count,
                    COUNT(CASE WHEN action_name LIKE '%WRITE%' THEN 1 END) as write_count,
                    MAX(event_time) as last_accessed,
                    COUNT(DISTINCT user_identity.email) as accessed_by_users
                FROM system.access.audit
                WHERE event_date >= DATE_SUB(CURRENT_DATE(), "; Fmt (Ok days); Lit ")
                AND (request_params.table_full_name = '"; Fmt (Ok table_name); Lit "' 
                     OR request_params.table_full_name LIKE '%"; Fmt (Ok table_name); Lit "%')
            )
            "] ;;
    result <- api client "statement_execution.execute_statement" [] [("statement", query); ("warehouse_id", VNone)] ;;
    lift (dict_lit [
      ("status", Ok (VStr "success"));
      ("table_name", Ok table_name);
      ("days", Ok days);
      ("query", Ok query);
      ("statement_id", Ok result ~> "statement_id");
      ("message", Ok (VStr "Table usage query executed successfully"))
    ])).

(** [query_workspace_objects], governance.py line 306. *)
Definition query_workspace_objects (object_type : val) (created_days : val) : exec val :=
  guarded (
    client <- get_workspace_client ;;
    where_conditions <~ list_lit [fstr [Lit "event_date >= DATE_SUB(CURRENT_DATE(), "; Fmt (Ok created_days); Lit ")"]; Ok (VStr "action_name = 'create'")] ;;
    where_conditions <~ (if truthy object_type
       then append_of (Ok where_conditions) (fstr [Lit "request_params.object_type = '"; Fmt (Ok object_type); Lit "'"])
       else Ok where_conditions) ;;
    where_clause <~ join_of " AND " (Ok where_conditions) ;;
    query <~ fstr [Lit "
            SELECT 
                event_time,
                user_identity.email as creator,
                request_params.object_type,
                request_params.path,
                request_params.object_id,
                service_name
            FROM system.access.audit
            WHERE "; Fmt (Ok where_clause); Lit "
            ORDER BY event_time DESC
            "] ;;
    result <- api client "statement_execution.execute_statement" [] [("statement", query); ("warehouse_id", VNone)] ;;
    lift (dict_lit [
      ("status", Ok (VStr "success"));
      ("object_type", Ok object_type);
      ("created_days", Ok created_days);
      ("query", Ok query);
      ("statement_id", Ok result ~> "statement_id");
      ("message", Ok (VStr "Workspace objects query executed successfully"))
    ])).

(** [query_permissions_changes], governance.py line 362. *)
Definition query_permissions_changes (principal : val) (days : val) : exec val :=
  guarded (
    client <- get_workspace_client ;;
    where_conditions <~ list_lit [fstr [Lit "event_date >= DATE_SUB(CURRENT_DATE(), "; Fmt (Ok days); Lit ")"]; Ok (VStr "action_name IN ('grant', 'revoke', 'update_permissions', 'set_permissions')")] ;;
    where_conditions <~ (if truthy principal
       then append_of (Ok where_conditions) (fstr [Lit "(user_identity.email = '"; Fmt (Ok principal); Lit "' OR request_params.principal_name = '"; Fmt (Ok principal); Lit "')"])
       else Ok where_conditions) ;;
    where_clause <~ join_of " AND " (Ok where_conditions) ;;
    query <~ fstr [Lit "
            SELECT 
                event_time,
                user_identity.email as changed_by,
                action_name,
                request_params.principal_name as affected_principal,
                request_params.permission_level,
                request_params.object_type,
                request_params.object_id,
                service_name
            FROM system.access.audit
            WHERE "; Fmt (Ok where_clause); Lit "
            ORDER BY event_time DESC
            "] ;;
    result <- api client "statement_execution.execute_statement" [] [("statement", query); ("warehouse_id", VNone)] ;;
    lift (dict_lit [
      ("status", Ok (VStr "success"));
      ("principal", Ok principal);
      ("days", Ok days);
      ("query", Ok query);
      ("statement_id", Ok result ~> "statement_id");
      ("message", Ok (VStr "Permission changes query executed successfully"))
    ])).

(** [query_compute_usage], governance.py line 420. *)
Definition query_compute_usage (start_date : val) (end_date : val) (cluster_id : val) : exec val :=
  guarded (
    client <- get_workspace_client ;;
    where_conditions <~ list_lit [fstr [Lit "usage_date >= '"; Fmt (Ok start_date); Lit "'"]; fstr [Lit "usage_date <= '"; Fmt (Ok end_date); Lit "'"]] ;;
    where_conditions <~ (if truthy cluster_id
       then append_of (Ok where_conditions) (fstr [Lit "cluster_id = '"; Fmt (Ok cluster_id); Lit "'"])
       else Ok where_conditions) ;;
    where_clause <~ join_of " AND " (Ok where_conditions) ;;
    query <~ fstr [Lit "
            SELECT 
                usage_date,
                cluster_id,
                cluster_name,
                node_type,
                usage_quantity,
                usage_unit,
                list_price,
                usage_metadata
            FROM system.billing.usage
            WHERE "; Fmt (Ok where_clause); Lit "
            AND usage_metadata.cluster_id IS NOT NULL
            ORDER BY usage_date DESC, usage_quantity DESC
            "] ;;
    result <- api client "statement_execution.execute_statement" [] [("statement", query); ("warehouse_id", VNone)] ;;
    lift (dict_lit [
      ("status", Ok (VStr "success"));
      ("start_date", Ok start_date);
      ("end_date", Ok end_date);
      ("cluster_id", Ok cluster_id);
      ("query", Ok query);
      ("statement_id", Ok result ~> "statement_id");
      ("message", Ok (VStr "Compute usage query executed successfully"))
    ])).

(** [query_storage_usage], governance.py line 479. *)
Definition query_storage_usage (start_date : val) (end_date : val) : exec val :=
  guarded (
    client <- get_workspace_client ;;
    query <~ fstr [Lit "
            SELECT 
                usage_date,
                storage_type,
                SUM(usage_quantity) as total_storage_tb,
                SUM(list_price) as total_cost_usd,
                COUNT(*) as usage_records
            FROM system.billing.usage
            WHERE usage_date >= '"; Fmt (Ok start_date); Lit "'
            AND usage_date <= '"; Fmt (Ok end_date); Lit "'
            AND usage_metadata.storage_type IS NOT NULL
            GROUP BY usage_date, storage_type
            ORDER BY usage_date DESC, total_storage_tb DESC
            "] ;;
    result <- api client "statement_execution.execute_statement" [] [("statement", query); ("warehouse_id", VNone)] ;;
    lift (dict_lit [
      ("status", Ok (VStr "success"));
      ("start_date", Ok start_date);
      ("end_date", Ok end_date);
      ("query", Ok query);
      ("statement_id", Ok result ~> "statement_id");
      ("message", Ok (VStr "Storage usage query executed successfully"))
    ])).

(** [list_quality_monitors], governance.py line 527. *)
Definition list_quality_monitors (catalog_name : val) : exec val :=
  guarded (
    client <- get_workspace_client ;;
    monitors <- api client "quality_monitors.list" [] [] ;;
    monitors <~ list_of (Ok monitors) ;;
    monitor_list <~ collect_some (Ok monitors) (fun monitor =>
      let! skip := and_of (Ok catalog_name) (not_of (startswith_of (Ok monitor ~> "table_name") (fstr [Fmt (Ok catalog_name); Lit "."]))) in
      if truthy skip
      then Ok None
      else
        let! monitor_info := dict_lit [
          ("table_name", Ok monitor ~> "table_name");
          ("monitor_version", Ok monitor ~> "monitor_version");
          ("status", Ok monitor ~> "status");
          ("profile_type", Ok monitor ~> "profile_type");
          ("output_schema_name", Ok monitor ~> "output_schema_name");
          ("created_by", Ok monitor ~> "created_by");
          ("created_time", Ok monitor ~> "created_time");
          ("updated_by", Ok monitor ~> "updated_by");
          ("updated_time", Ok monitor ~> "updated_time")
        ] in
        Ok (Some monitor_info)) ;;
    lift (dict_lit [
      ("status", Ok (VStr "success"));
      ("catalog_name", Ok catalog_name);
      ("monitors", Ok monitor_list);
      ("count", len_of (Ok monitor_list))
    ])).

(** [get_quality_monitor_status], governance.py line 570. *)
Definition get_quality_monitor_status (table_name : val) : exec val :=
  guarded (
    client <- get_workspace_client ;;
    monitor <- api client "quality_monitors.get" [table_name] [] ;;
    lift (dict_lit [
      ("status", Ok (VStr "success"));
      ("monitor", dict_lit [
        ("table_name", Ok monitor ~> "table_name");
        ("monitor_version", Ok monitor ~> "monitor_version");
        ("status", Ok monitor ~> "status");
        ("profile_type", Ok monitor ~> "profile_type");
        ("output_schema_name", Ok monitor ~> "output_schema_name");
        ("created_by", Ok monitor ~> "created_by");
        ("created_time", Ok monitor ~> "created_time");
        ("updated_by", Ok monitor ~> "updated_by");
        ("updated_time", Ok monitor ~> "updated_time");
        ("drift_metrics_table_name", Ok monitor ~> "drift_metrics_table_name");
        ("profile_metrics_table_name", Ok monitor ~> "profile_metrics_table_name")
      ])
    ])).

(** *** mlflow.py *)

(** [list_models], mlflow.py line 20. *)
Definition list_models : exec val :=
  guarded (
    client <- get_workspace_client ;;
    models <- api client "model_registry.list_models" [] [] ;;
    models <~ list_of (Ok models) ;;
    model_list <~ collect (Ok models) (fun model =>
      dict_lit [
        ("name", Ok model ~> "name");
        ("creation_timestamp", Ok model ~> "creation_timestamp");
        ("last_updated_timestamp", Ok model ~> "last_updated_timestamp");
        ("user_id", Ok model ~> "user_id");
        ("description", Ok model ~> "description");
        ("latest_versions", (list_comp (Ok model ~> "latest_versions") (fun version => call_of (Ok version) "dict") <| Ok model ~> "latest_versions" |> Ok VNone));
        ("tags", (list_comp (Ok model ~> "tags") (fun tag => call_of (Ok tag) "dict") <| Ok model ~> "tags" |> Ok VNone))
      ]) ;;
    lift (dict_lit [
      ("status", Ok (VStr "success"));
      ("models", Ok model_list);
      ("count", len_of (Ok model_list))
    ])).

(** [get_model], mlflow.py line 52. *)
Definition get_model (model_name : val) : exec val :=
  guarded (
    client <- get_workspace_client ;;
    model <- api client "model_registry.get_model" [model_name] [] ;;
    lift (dict_lit [
      ("status", Ok (VStr "success"));
      ("model", dict_lit [
        ("name", Ok model ~> "name");
        ("creation_timestamp", Ok model ~> "creation_timestamp");
        ("last_updated_timestamp", Ok model ~> "last_updated_timestamp");
        ("user_id", Ok model ~> "user_id");
        ("description", Ok model ~> "description");
        ("latest_versions", (list_comp (Ok model ~> "latest_versions") (fun version => call_of (Ok version) "dict") <| Ok model ~> "latest_versions" |> Ok VNone));
        ("tags", (list_comp (Ok model ~> "tags") (fun tag => call_of (Ok tag) "dict") <| Ok model ~> "tags" |> Ok VNone))
      ])
    ])).

(** [create_model], mlflow.py line 81. *)
Definition create_model (model_name : val) (description : val) (tags : val) : exec val :=
  guarded (
    client <- get_workspace_client ;;
    create_config <~ dict_lit [
      ("name", Ok model_name)
    ] ;;
    create_config <- (if truthy description
       then set_item create_config "description" (Ok description)
       else ret create_config) ;;
    create_config <- (if truthy tags
       then set_item create_config "tags" (Ok tags)
       else ret create_config) ;;
    kw <- kwargs_of create_config ;;
    model <- api client "model_registry.create_model" [] kw ;;
    lift (dict_lit [
      ("status", Ok (VStr "success"));
      ("model_name", Ok model ~> "name");
      ("creation_timestamp", Ok model ~> "creation_timestamp");
      ("message", fstr [Lit "Model "; Fmt (Ok model_name); Lit " created successfully"])
    ])).

(** [update_model], mlflow.py line 113. *)
Definition update_model (model_name : val) (description : val) : exec val :=
  guarded (
    client <- get_workspace_client ;;
    update_config <~ dict_lit [
      ("name", Ok model_name)
    ] ;;
    update_config <- (if truthy description
       then set_item update_config "description" (Ok description)
       else ret update_config) ;;
    kw <- kwargs_of update_config ;;
    _ <- api client "model_registry.update_model" [] kw ;;
    lift (dict_lit [
      ("status", Ok (VStr "success"));
      ("model_name", Ok model_name);
      ("message", fstr [Lit "Model "; Fmt (Ok model_name); Lit " updated successfully"])
    ])).

(** [delete_model], mlflow.py line 141. *)
Definition delete_model (model_name : val) : exec val :=
  guarded (
    client <- get_workspace_client ;;
    _ <- api client "model_registry.delete_model" [model_name] [] ;;
    lift (dict_lit [
      ("status", Ok (VStr "success"));
      ("model_name", Ok model_name);
      ("message", fstr [Lit "Model "; Fmt (Ok model_name); Lit " deleted successfully"])
    ])).

(** [list_model_versions], mlflow.py line 165. *)
Definition list_model_versions (model_name : val) : exec val :=
  guarded (
    client <- get_workspace_client ;;
    versions <- api client "model_registry.list_model_versions" [model_name] [] ;;
    versions <~ list_of (Ok versions) ;;
    version_list <~ collect (Ok versions) (fun version =>
      dict_lit [
        ("name", Ok version ~> "name");
        ("version", Ok version ~> "version");
        ("creation_timestamp", Ok version ~> "creation_timestamp");
        ("last_updated_timestamp", Ok version ~> "last_updated_timestamp");
        ("user_id", Ok version ~> "user_id");
        ("description", Ok version ~> "description");
        ("source", Ok version ~> "source");
        ("run_id", Ok version ~> "run_id");
        ("status", Ok version ~> "status");
        ("status_message", Ok version ~> "status_message");
        ("current_stage", Ok version ~> "current_stage");
        ("tags", (list_comp (Ok version ~> "tags") (fun tag => call_of (Ok tag) "dict") <| Ok version ~> "tags" |> Ok VNone))
      ]) ;;
    lift (dict_lit [
      ("status", Ok (VStr "success"));
      ("model_name", Ok model_name);
      ("versions", Ok version_list);
      ("count", len_of (Ok version_list))
    ])).

(** [get_model_version], mlflow.py line 206. *)
Definition get_model_version (model_name : val) (version : val) : exec val :=
  guarded (
    client <- get_workspace_client ;;
    model_version <- api client "model_registry.get_model_version" [model_name; version] [] ;;
    lift (dict_lit [
      ("status", Ok (VStr "success"));
      ("model_version", dict_lit [
        ("name", Ok model_version ~> "name");
        ("version", Ok model_version ~> "version");
        ("creation_timestamp", Ok model_version ~> "creation_timestamp");
        ("last_updated_timestamp", Ok model_version ~> "last_updated_timestamp");
        ("user_id", Ok model_version ~> "user_id");
        ("description", Ok model_version ~> "description");
        ("source", Ok model_version ~> "source");
        ("run_id", Ok model_version ~> "run_id");
        ("status", Ok model_version ~> "status");
        ("status_message", Ok model_version ~> "status_message");
        ("current_stage", Ok model_version ~> "current_stage");
        ("tags", (list_comp (Ok model_version ~> "tags") (fun tag => call_of (Ok tag) "dict") <| Ok model_version ~> "tags" |> Ok VNone))
      ])
    ])).

(** [create_model_version], mlflow.py line 241. *)
Definition create_model_version (model_name : val) (source : val) (run_id : val) (description : val) (tags : val) : exec val :=
  guarded (
    client <- get_workspace_client ;;
    create_config <~ dict_lit [
      ("name", Ok model_name);
      ("source", Ok source)
    ] ;;
    create_config <- (if truthy run_id
       then set_item create_config "run_id" (Ok run_id)
       else ret create_config) ;;
    create_config <- (if truthy description
       then set_item create_config "description" (Ok description)
       else ret create_config) ;;
    create_config <- (if truthy tags
       then set_item create_config "tags" (Ok tags)
       else ret create_config) ;;
    kw <- kwargs_of create_config ;;
    version <- api client "model_registry.create_model_version" [] kw ;;
    lift (dict_lit [
      ("status", Ok (VStr "success"));
      ("model_name", Ok model_name);
      ("version", Ok version ~> "version");
      ("source", Ok source);
      ("message", fstr [Lit "Model version "; Fmt (Ok version ~> "version"); Lit " created successfully for "; Fmt (Ok model_name)])
    ])).

(** [update_model_version], mlflow.py line 281. *)
Definition update_model_version (model_name : val) (version : val) (description : val) (stage : val) : exec val :=
  guarded (
    client <- get_workspace_client ;;
    update_config <~ dict_lit [
      ("name", Ok model_name);
      ("version", Ok version)
    ] ;;
    update_config <- (if truthy description
       then set_item update_config "description" (Ok description)
       else ret update_config) ;;
    kw <- kwargs_of update_config ;;
    _ <- api client "model_registry.update_model_version" [] kw ;;
    (* Handle stage transition separately if specified *)
    _ <- (if truthy stage
       then api client "model_registry.transition_model_version_stage" [] [("name", model_name); ("version", version); ("stage", stage)]
       else ret VNone) ;;
    lift (dict_lit [
      ("status", Ok (VStr "success"));
      ("model_name", Ok model_name);
      ("version", Ok version);
      ("stage", Ok stage);
      ("message", fstr [Lit "Model version "; Fmt (Ok version); Lit " updated successfully for "; Fmt (Ok model_name)])
    ])).

(** [delete_model_version], mlflow.py line 324. *)
Definition delete_model_version (model_name : val) (version : val) : exec val :=
  guarded (
    client <- get_workspace_client ;;
    _ <- api client "model_registry.delete_model_version" [model_name; version] [] ;;
    lift (dict_lit [
      ("status", Ok (VStr "success"));
      ("model_name", Ok model_name);
      ("version", Ok version);
      ("message", fstr [Lit "Model version "; Fmt (Ok version); Lit " deleted successfully from "; Fmt (Ok model_name)])
    ])).

(** [transition_model_version_stage], mlflow.py line 348. *)
Definition transition_model_version_stage (model_name : val) (version : val) (stage : val) (archive_existing_versions : val) : exec val :=
  guarded (
    client <- get_workspace_client ;;
    transition_config <~ dict_lit [
      ("name", Ok model_name);
      ("version", Ok version);
      ("stage", Ok stage);
      ("archive_existing_versions", Ok archive_existing_versions)
    ] ;;
    kw <- kwargs_of transition_config ;;
    version_result <- api client "model_registry.transition_model_version_stage" [] kw ;;
    lift (dict_lit [
      ("status", Ok (VStr "success"));
      ("model_name", Ok model_name);
      ("version", Ok version);
      ("stage", Ok stage);
      ("current_stage", Ok version_result ~> "current_stage");
      ("message", fstr [Lit "Model version "; Fmt (Ok version); Lit " transitioned to "; Fmt (Ok stage); Lit " stage for "; Fmt (Ok model_name)])
    ])).

(** [list_experiments], mlflow.py line 386. *)
Definition list_experiments : exec val :=
  guarded (
    client <- get_workspace_client ;;
    experiments <- api client "experiments.list_experiments" [] [] ;;
    experiments <~ list_of (Ok experiments) ;;
    experiment_list <~ collect (Ok experiments) (fun experiment =>
      dict_lit [
        ("experiment_id", Ok experiment ~> "experiment_id");
        ("name", Ok experiment ~> "name");
        ("artifact_location", Ok experiment ~> "artifact_location");
        ("lifecycle_stage", Ok experiment ~> "lifecycle_stage");
        ("last_update_time", Ok experiment ~> "last_update_time");
        ("creation_time", Ok experiment ~> "creation_time");
        ("tags", (list_comp (Ok experiment ~> "tags") (fun tag => call_of (Ok tag) "dict") <| Ok experiment ~> "tags" |> Ok VNone))
      ]) ;;
    lift (dict_lit [
      ("status", Ok (VStr "success"));
      ("experiments", Ok experiment_list);
      ("count", len_of (Ok experiment_list))
    ])).

(** [get_experiment], mlflow.py line 418. *)
Definition get_experiment (experiment_id : val) : exec val :=
  guarded (
    client <- get_workspace_client ;;
    experiment <- api client "experiments.get_experiment" [experiment_id] [] ;;
    lift (dict_lit [
      ("status", Ok (VStr "success"));
      ("experiment", dict_lit [
        ("experiment_id", Ok experiment ~> "experiment_id");
        ("name", Ok experiment ~> "name");
        ("artifact_location", Ok experiment ~> "artifact_location");
        ("lifecycle_stage", Ok experiment ~> "lifecycle_stage");
        ("last_update_time", Ok experiment ~> "last_update_time");
        ("creation_time", Ok experiment ~> "creation_time");
        ("tags", (list_comp (Ok experiment ~> "tags") (fun tag => call_of (Ok tag) "dict") <| Ok experiment ~> "tags" |> Ok VNone))
      ])
    ])).

(** [create_experiment], mlflow.py line 447. *)
Definition create_experiment (name : val) (artifact_location : val) (tags : val) : exec val :=
  guarded (
    client <- get_workspace_client ;;
    create_config <~ dict_lit [
      ("name", Ok name)
    ] ;;
    create_config <- (if truthy artifact_location
       then set_item create_config "artifact_location" (Ok artifact_location)
       else ret create_config) ;;
    create_config <- (if truthy tags
       then set_item create_config "tags" (Ok tags)
       else ret create_config) ;;
    kw <- kwargs_of create_config ;;
    experiment_id <- api client "experiments.create_experiment" [] kw ;;
    lift (dict_lit [
      ("status", Ok (VStr "success"));
      ("experiment_id", Ok experiment_id);
      ("name", Ok name);
      ("message", fstr [Lit "Experiment "; Fmt (Ok name); Lit " created successfully"])
    ])).

(** [update_experiment], mlflow.py line 479. *)
Definition update_experiment (experiment_id : val) (new_name : val) : exec val :=
  guarded (
    client <- get_workspace_client ;;
    update_config <~ dict_lit [
      ("experiment_id", Ok experiment_id)
    ] ;;
    update_config <- (if truthy new_name
       then set_item update_config "new_name" (Ok new_name)
       else ret update_config) ;;
    kw <- kwargs_of update_config ;;
    _ <- api client "experiments.update_experiment" [] kw ;;
    lift (dict_lit [
      ("status", Ok (VStr "success"));
      ("experiment_id", Ok experiment_id);
      ("new_name", Ok new_name);
      ("message", fstr [Lit "Experiment "; Fmt (Ok experiment_id); Lit " updated successfully"])
    ])).

(** [delete_experiment], mlflow.py line 508. *)
Definition delete_experiment (experiment_id : val) : exec val :=
  guarded (
    client <- get_workspace_client ;;
    _ <- api client "experiments.delete_experiment" [experiment_id] [] ;;
    lift (dict_lit [
      ("status", Ok (VStr "success"));
      ("experiment_id", Ok experiment_id);
      ("message", fstr [Lit "Experiment "; Fmt (Ok experiment_id); Lit " deleted successfully"])
    ])).

(** [restore_experiment], mlflow.py line 530. *)
Definition restore_experiment (experiment_id : val) : exec val :=
  guarded (
    client <- get_workspace_client ;;
    _ <- api client "experiments.restore_experiment" [experiment_id] [] ;;
    lift (dict_lit [
      ("status", Ok (VStr "success"));
      ("experiment_id", Ok experiment_id);
      ("message", fstr [Lit "Experiment "; Fmt (Ok experiment_id); Lit " restored successfully"])
    ])).

(** [search_runs], mlflow.py line 554. *)
Definition search_runs (experiment_ids : val) (filter_string : val) (run_view_type : val) (max_results : val) : exec val :=
  guarded (
    client <- get_workspace_client ;;
    search_config <~ dict_lit [
      ("experiment_ids", Ok experiment_ids);
      ("max_results", Ok max_results)
    ] ;;
    search_config <- (if truthy filter_string
       then set_item search_config "filter" (Ok filter_string)
       else ret search_config) ;;
    search_config <- (if truthy run_view_type
       then set_item search_config "run_view_type" (Ok run_view_type)
       else ret search_config) ;;
    kw <- kwargs_of search_config ;;
    runs_response <- api client "experiments.search_runs" [] kw ;;
    guard <~ Ok runs_response ~> "runs" ;;
    run_list <~ (if truthy guard
       then collect (Ok runs_response ~> "runs") (fun run =>
        dict_lit [
          ("run_id", (Ok run ~> "info" ~> "run_id" <| Ok run ~> "info" |> Ok VNone));
          ("run_uuid", (Ok run ~> "info" ~> "run_uuid" <| Ok run ~> "info" |> Ok VNone));
          ("experiment_id", (Ok run ~> "info" ~> "experiment_id" <| Ok run ~> "info" |> Ok VNone));
          ("user_id", (Ok run ~> "info" ~> "user_id" <| Ok run ~> "info" |> Ok VNone));
          ("status", (Ok run ~> "info" ~> "status" <| Ok run ~> "info" |> Ok VNone));
          ("start_time", (Ok run ~> "info" ~> "start_time" <| Ok run ~> "info" |> Ok VNone));
          ("end_time", (Ok run ~> "info" ~> "end_time" <| Ok run ~> "info" |> Ok VNone));
          ("artifact_uri", (Ok run ~> "info" ~> "artifact_uri" <| Ok run ~> "info" |> Ok VNone));
          ("lifecycle_stage", (Ok run ~> "info" ~> "lifecycle_stage" <| Ok run ~> "info" |> Ok VNone));
          ("run_name", (Ok run ~> "info" ~> "run_name" <| Ok run ~> "info" |> Ok VNone));
          ("tags", (Ok run ~> "data" ~> "tags" <| Ok run ~> "data" |> Ok VNone));
          ("params", (Ok run ~> "data" ~> "params" <| Ok run ~> "data" |> Ok VNone));
          ("metrics", (Ok run ~> "data" ~> "metrics" <| Ok run ~> "data" |> Ok VNone))
        ])
       else Ok (VList [])) ;;
    lift (dict_lit [
      ("status", Ok (VStr "success"));
      ("experiment_ids", Ok experiment_ids);
      ("runs", Ok run_list);
      ("count", len_of (Ok run_list));
      ("next_page_token", (Ok runs_response ~> "next_page_token" <| hasattr_of (Ok runs_response) "next_page_token" |> Ok VNone))
    ])).

(** [get_run], mlflow.py line 611. *)
Definition get_run (run_id : val) : exec val :=
  guarded (
    client <- get_workspace_client ;;
    run <- api client "experiments.get_run" [run_id] [] ;;
    lift (dict_lit [
      ("status", Ok (VStr "success"));
      ("run", dict_lit [
        ("run_id", (Ok run ~> "info" ~> "run_id" <| Ok run ~> "info" |> Ok VNone));
        ("run_uuid", (Ok run ~> "info" ~> "run_uuid" <| Ok run ~> "info" |> Ok VNone));
        ("experiment_id", (Ok run ~> "info" ~> "experiment_id" <| Ok run ~> "info" |> Ok VNone));
        ("user_id", (Ok run ~> "info" ~> "user_id" <| Ok run ~> "info" |> Ok VNone));
        ("status", (Ok run ~> "info" ~> "status" <| Ok run ~> "info" |> Ok VNone));
        ("start_time", (Ok run ~> "info" ~> "start_time" <| Ok run ~> "info" |> Ok VNone));
        ("end_time", (Ok run ~> "info" ~> "end_time" <| Ok run ~> "info" |> Ok VNone));
        ("artifact_uri", (Ok run ~> "info" ~> "artifact_uri" <| Ok run ~> "info" |> Ok VNone));
        ("lifecycle_stage", (Ok run ~> "info" ~> "lifecycle_stage" <| Ok run ~> "info" |> Ok VNone));
        ("run_name", (Ok run ~> "info" ~> "run_name" <| Ok run ~> "info" |> Ok VNone));
        ("tags", (Ok run ~> "data" ~> "tags" <| Ok run ~> "data" |> Ok VNone));
        ("params", (Ok run ~> "data" ~> "params" <| Ok run ~> "data" |> Ok VNone));
        ("metrics", (Ok run ~> "data" ~> "metrics" <| Ok run ~> "data" |> Ok VNone))
      ])
    ])).

(** [delete_run], mlflow.py line 646. *)
Definition delete_run (run_id : val) : exec val :=
  guarded (
    client <- get_workspace_client ;;
    _ <- api client "experiments.delete_run" [run_id] [] ;;
    lift (dict_lit [
      ("status", Ok (VStr "success"));
      ("run_id", Ok run_id);
      ("message", fstr [Lit "Run "; Fmt (Ok run_id); Lit " deleted successfully"])
    ])).

(** [restore_run], mlflow.py line 668. *)
Definition restore_run (run_id : val) : exec val :=
  guarded (
    client <- get_workspace_client ;;
    _ <- api client "experiments.restore_run" [run_id] [] ;;
    lift (dict_lit [
      ("status", Ok (VStr "success"));
      ("run_id", Ok run_id);
      ("message", fstr [Lit "Run "; Fmt (Ok run_id); Lit " restored successfully"])
    ])).

(** *** security.py *)

(** [list_secret_scopes], security.py line 20. *)
Definition list_secret_scopes : exec val :=
  guarded (
    client <- get_workspace_client ;;
    scopes <- api client "secrets.list_scopes" [] [] ;;
    scopes <~ list_of (Ok scopes) ;;
    scope_list <~ collect (Ok scopes) (fun scope =>
      dict_lit [
        ("name", Ok scope ~> "name");
        ("backend_type", (Ok scope ~> "backend_type" ~> "name" <| Ok scope ~> "backend_type" |> Ok VNone))
      ]) ;;
    lift (dict_lit [
      ("status", Ok (VStr "success"));
      ("scopes", Ok scope_list);
      ("count", len_of (Ok scope_list))
    ])).

(** [create_secret_scope], security.py line 47. *)
Definition create_secret_scope (scope_name : val) (backend_type : val) : exec val :=
  guarded (
    client <- get_workspace_client ;;
    _ <- api client "secrets.create_scope" [] [("scope", scope_name); ("backend_type", backend_type)] ;;
    lift (dict_lit [
      ("status", Ok (VStr "success"));
      ("scope_name", Ok scope_name);
      ("backend_type", Ok backend_type);
      ("message", fstr [Lit "Secret scope "; Fmt (Ok scope_name); Lit " created successfully"])
    ])).

(** [delete_secret_scope], security.py line 71. *)
Definition delete_secret_scope (scope_name : val) : exec val :=
  guarded (
    client <- get_workspace_client ;;
    _ <- api client "secrets.delete_scope" [] [("scope", scope_name)] ;;
    lift (dict_lit [
      ("status", Ok (VStr "success"));
      ("scope_name", Ok scope_name);
      ("message", fstr [Lit "Secret scope "; Fmt (Ok scope_name); Lit " deleted successfully"])
    ])).

(** [list_secrets], security.py line 93. *)
Definition list_secrets (scope_name : val) : exec val :=
  guarded (
    client <- get_workspace_client ;;
    secrets <- api client "secrets.list_secrets" [] [("scope", scope_name)] ;;
    secrets <~ list_of (Ok secrets) ;;
    secret_list <~ collect (Ok secrets) (fun secret =>
      dict_lit [
        ("key", Ok secret ~> "key");
        ("last_updated_timestamp", Ok secret ~> "last_updated_timestamp")
      ]) ;;
    lift (dict_lit [
      ("status", Ok (VStr "success"));
      ("scope_name", Ok scope_name);
      ("secrets", Ok secret_list);
      ("count", len_of (Ok secret_list))
    ])).

(** [put_secret], security.py line 124. *)
Definition put_secret (scope_name : val) (key : val) (value : val) : exec val :=
  guarded (
    client <- get_workspace_client ;;
    _ <- api client "secrets.put_secret" [] [("scope", scope_name); ("key", key); ("string_value", value)] ;;
    lift (dict_lit [
      ("status", Ok (VStr "success"));
      ("scope_name", Ok scope_name);
      ("key", Ok key);
      ("message", fstr [Lit "Secret "; Fmt (Ok key); Lit " created/updated successfully in scope "; Fmt (Ok scope_name)])
    ])).

(** [delete_secret], security.py line 149. *)
Definition delete_secret (scope_name : val) (key : val) : exec val :=
  guarded (
    client <- get_workspace_client ;;
    _ <- api client "secrets.delete_secret" [] [("scope", scope_name); ("key", key)] ;;
    lift (dict_lit [
      ("status", Ok (VStr "success"));
      ("scope_name", Ok scope_name);
      ("key", Ok key);
      ("message", fstr [Lit "Secret "; Fmt (Ok key); Lit " deleted successfully from scope "; Fmt (Ok scope_name)])
    ])).

(** [get_secret_acl], security.py line 173. *)
Definition get_secret_acl (scope_name : val) (principal : val) : exec val :=
  guarded (
    client <- get_workspace_client ;;
    acl <- api client "secrets.get_acl" [] [("scope", scope_name); ("principal", principal)] ;;
    lift (dict_lit [
      ("status", Ok (VStr "success"));
      ("scope_name", Ok scope_name);
      ("principal", Ok principal);
      ("permission", (Ok acl ~> "permission" ~> "name" <| Ok acl ~> "permission" |> Ok VNone))
    ])).

(** [list_secret_acls], security.py line 197. *)
Definition list_secret_acls (scope_name : val) : exec val :=
  guarded (
    client <- get_workspace_client ;;
    acls <- api client "secrets.list_acls" [] [("scope", scope_name)] ;;
    acls <~ list_of (Ok acls) ;;
    acl_list <~ collect (Ok acls) (fun acl =>
      dict_lit [
        ("principal", Ok acl ~> "principal");
        ("permission", (Ok acl ~> "permission" ~> "name" <| Ok acl ~> "permission" |> Ok VNone))
      ]) ;;
    lift (dict_lit [
      ("status", Ok (VStr "success"));
      ("scope_name", Ok scope_name);
      ("acls", Ok acl_list);
      ("count", len_of (Ok acl_list))
    ])).

(** [put_secret_acl], security.py line 228. *)
Definition put_secret_acl (scope_name : val) (principal : val) (permission : val) : exec val :=
  guarded (
    client <- get_workspace_client ;;
    _ <- api client "secrets.put_acl" [] [("scope", scope_name); ("principal", principal); ("permission", permission)] ;;
    lift (dict_lit [
      ("status", Ok (VStr "success"));
      ("scope_name", Ok scope_name);
      ("principal", Ok principal);
      ("permission", Ok permission);
      ("message", fstr [Lit "ACL for "; Fmt (Ok principal); Lit " set to "; Fmt (Ok permission); Lit " on scope "; Fmt (Ok scope_name)])
    ])).

(** [delete_secret_acl], security.py line 254. *)
Definition delete_secret_acl (scope_name : val) (principal : val) : exec val :=
  guarded (
    client <- get_workspace_client ;;
    _ <- api client "secrets.delete_acl" [] [("scope", scope_name); ("principal", principal)] ;;
    lift (dict_lit [
      ("status", Ok (VStr "success"));
      ("scope_name", Ok scope_name);
      ("principal", Ok principal);
      ("message", fstr [Lit "ACL for "; Fmt (Ok principal); Lit " deleted from scope "; Fmt (Ok scope_name)])
    ])).

(** [list_users], security.py line 280. *)
Definition list_users : exec val :=
  guarded (
    client <- get_workspace_client ;;
    users <- api client "users.list" [] [] ;;
    users <~ list_of (Ok users) ;;
    user_list <~ collect (Ok users) (fun user =>
      dict_lit [
        ("id", Ok user ~> "id");
        ("user_name", Ok user ~> "user_name");
        ("display_name", Ok user ~> "display_name");
        ("active", Ok user ~> "active");
        ("emails", (list_comp (Ok user ~> "emails") (fun email => call_of (Ok email) "dict") <| Ok user ~> "emails" |> Ok VNone));
        ("groups", (list_comp (Ok user ~> "groups") (fun group => call_of (Ok group) "dict") <| Ok user ~> "groups" |> Ok VNone))
      ]) ;;
    lift (dict_lit [
      ("status", Ok (VStr "success"));
      ("users", Ok user_list);
      ("count", len_of (Ok user_list))
    ])).

(** [get_user], security.py line 311. *)
Definition get_user (user_id : val) : exec val :=
  guarded (
    client <- get_workspace_client ;;
    user <- api client "users.get" [user_id] [] ;;
    lift (dict_lit [
      ("status", Ok (VStr "success"));
      ("user", dict_lit [
        ("id", Ok user ~> "id");
        ("user_name", Ok user ~> "user_name");
        ("display_name", Ok user ~> "display_name");
        ("active", Ok user ~> "active");
        ("emails", (list_comp (Ok user ~> "emails") (fun email => call_of (Ok email) "dict") <| Ok user ~> "emails" |> Ok VNone));
        ("groups", (list_comp (Ok user ~> "groups") (fun group => call_of (Ok group) "dict") <| Ok user ~> "groups" |> Ok VNone));
        ("roles", (list_comp (Ok user ~> "roles") (fun role => call_of (Ok role) "dict") <| Ok user ~> "roles" |> Ok VNone));
        ("schemas", Ok user ~> "schemas")
      ])
    ])).

(** [create_user], security.py line 341. *)
Definition create_user (user_config : val) : exec val :=
  guarded (
    client <- get_workspace_client ;;
    kw <- kwargs_of user_config ;;
    user <- api client "users.create" [] kw ;;
    lift (dict_lit [
      ("status", Ok (VStr "success"));
      ("user_id", Ok user ~> "id");
      ("user_name", Ok user ~> "user_name");
      ("message", fstr [Lit "User "; Fmt (Ok user ~> "user_name"); Lit " created successfully"])
    ])).

(** [update_user], security.py line 364. *)
Definition update_user (user_id : val) (user_config : val) : exec val :=
  guarded (
    client <- get_workspace_client ;;
    kw <- kwargs_of user_config ;;
    _ <- api client "users.patch" [user_id] kw ;;
    lift (dict_lit [
      ("status", Ok (VStr "success"));
      ("user_id", Ok user_id);
      ("message", fstr [Lit "User "; Fmt (Ok user_id); Lit " updated successfully"])
    ])).

(** [delete_user], security.py line 387. *)
Definition delete_user (user_id : val) : exec val :=
  guarded (
    client <- get_workspace_client ;;
    _ <- api client "users.delete" [user_id] [] ;;
    lift (dict_lit [
      ("status", Ok (VStr "success"));
      ("user_id", Ok user_id);
      ("message", fstr [Lit "User "; Fmt (Ok user_id); Lit " deleted successfully"])
    ])).

(** [list_groups], security.py line 411. *)
Definition list_groups : exec val :=
  guarded (
    client <- get_workspace_client ;;
    groups <- api client "groups.list" [] [] ;;
    groups <~ list_of (Ok groups) ;;
    group_list <~ collect (Ok groups) (fun group =>
      dict_lit [
        ("id", Ok group ~> "id");
        ("display_name", Ok group ~> "display_name");
        ("members", (list_comp (Ok group ~> "members") (fun member => call_of (Ok member) "dict") <| Ok group ~> "members" |> Ok VNone));
        ("groups", (list_comp (Ok group ~> "groups") (fun subgroup => call_of (Ok subgroup) "dict") <| Ok group ~> "groups" |> Ok VNone))
      ]) ;;
    lift (dict_lit [
      ("status", Ok (VStr "success"));
      ("groups", Ok group_list);
      ("count", len_of (Ok group_list))
    ])).

(** [get_group], security.py line 440. *)
Definition get_group (group_id : val) : exec val :=
  guarded (
    client <- get_workspace_client ;;
    group <- api client "groups.get" [group_id] [] ;;
    lift (dict_lit [
      ("status", Ok (VStr "success"));
      ("group", dict_lit [
        ("id", Ok group ~> "id");
        ("display_name", Ok group ~> "display_name");
        ("members", (list_comp (Ok group ~> "members") (fun member => call_of (Ok member) "dict") <| Ok group ~> "members" |> Ok VNone));
        ("groups", (list_comp (Ok group ~> "groups") (fun subgroup => call_of (Ok subgroup) "dict") <| Ok group ~> "groups" |> Ok VNone));
        ("roles", (list_comp (Ok group ~> "roles") (fun role => call_of (Ok role) "dict") <| Ok group ~> "roles" |> Ok VNone));
        ("schemas", Ok group ~> "schemas")
      ])
    ])).

(** [create_group], security.py line 468. *)
Definition create_group (group_config : val) : exec val :=
  guarded (
    client <- get_workspace_client ;;
    kw <- kwargs_of group_config ;;
    group <- api client "groups.create" [] kw ;;
    lift (dict_lit [
      ("status", Ok (VStr "success"));
      ("group_id", Ok group ~> "id");
      ("display_name", Ok group ~> "display_name");
      ("message", fstr [Lit "Group "; Fmt (Ok group ~> "display_name"); Lit " created successfully"])
    ])).

(** [update_group], security.py line 491. *)
Definition update_group (group_id : val) (group_config : val) : exec val :=
  guarded (
    client <- get_workspace_client ;;
    kw <- kwargs_of group_config ;;
    _ <- api client "groups.patch" [group_id] kw ;;
    lift (dict_lit [
      ("status", Ok (VStr "success"));
      ("group_id", Ok group_id);
      ("message", fstr [Lit "Group "; Fmt (Ok group_id); Lit " updated successfully"])
    ])).

(** [delete_group], security.py line 514. *)
Definition delete_group (group_id : val) : exec val :=
  guarded (
    client <- get_workspace_client ;;
    _ <- api client "groups.delete" [group_id] [] ;;
    lift (dict_lit [
      ("status", Ok (VStr "success"));
      ("group_id", Ok group_id);
      ("message", fstr [Lit "Group "; Fmt (Ok group_id); Lit " deleted successfully"])
    ])).

(** [list_service_principals], security.py line 538. *)
Definition list_service_principals : exec val :=
  guarded (
    client <- get_workspace_client ;;
    service_principals <- api client "service_principals.list" [] [] ;;
    service_principals <~ list_of (Ok service_principals) ;;
    sp_list <~ collect (Ok service_principals) (fun sp =>
      dict_lit [
        ("id", Ok sp ~> "id");
        ("application_id", Ok sp ~> "application_id");
        ("display_name", Ok sp ~> "display_name");
        ("active", Ok sp ~> "active");
        ("groups", (list_comp (Ok sp ~> "groups") (fun group => call_of (Ok group) "dict") <| Ok sp ~> "groups" |> Ok VNone))
      ]) ;;
    lift (dict_lit [
      ("status", Ok (VStr "success"));
      ("service_principals", Ok sp_list);
      ("count", len_of (Ok sp_list))
    ])).

(** [get_service_principal], security.py line 568. *)
Definition get_service_principal (sp_id : val) : exec val :=
  guarded (
    client <- get_workspace_client ;;
    sp <- api client "service_principals.get" [sp_id] [] ;;
    lift (dict_lit [
      ("status", Ok (VStr "success"));
      ("service_principal", dict_lit [
        ("id", Ok sp ~> "id");
        ("application_id", Ok sp ~> "application_id");
        ("display_name", Ok sp ~> "display_name");
        ("active", Ok sp ~> "active");
        ("groups", (list_comp (Ok sp ~> "groups") (fun group => call_of (Ok group) "dict") <| Ok sp ~> "groups" |> Ok VNone));
        ("roles", (list_comp (Ok sp ~> "roles") (fun role => call_of (Ok role) "dict") <| Ok sp ~> "roles" |> Ok VNone));
        ("schemas", Ok sp ~> "schemas")
      ])
    ])).

(** [create_service_principal], security.py line 597. *)
Definition create_service_principal (sp_config : val) : exec val :=
  guarded (
    client <- get_workspace_client ;;
    kw <- kwargs_of sp_config ;;
    sp <- api client "service_principals.create" [] kw ;;
    lift (dict_lit [
      ("status", Ok (VStr "success"));
      ("service_principal_id", Ok sp ~> "id");
      ("application_id", Ok sp ~> "application_id");
      ("display_name", Ok sp ~> "display_name");
      ("message", fstr [Lit "Service principal "; Fmt (Ok sp ~> "display_name"); Lit " created successfully"])
    ])).

(** [update_service_principal], security.py line 621. *)
Definition update_service_principal (sp_id : val) (sp_config : val) : exec val :=
  guarded (
    client <- get_workspace_client ;;
    kw <- kwargs_of sp_config ;;
    _ <- api client "service_principals.patch" [sp_id] kw ;;
    lift (dict_lit [
      ("status", Ok (VStr "success"));
      ("service_principal_id", Ok sp_id);
      ("message", fstr [Lit "Service principal "; Fmt (Ok sp_id); Lit " updated successfully"])
    ])).

(** [delete_service_principal], security.py line 644. *)
Definition delete_service_principal (sp_id : val) : exec val :=
  guarded (
    client <- get_workspace_client ;;
    _ <- api client "service_principals.delete" [sp_id] [] ;;
    lift (dict_lit [
      ("status", Ok (VStr "success"));
      ("service_principal_id", Ok sp_id);
      ("message", fstr [Lit "Service principal "; Fmt (Ok sp_id); Lit " deleted successfully"])
    ])).

(** [list_tokens], security.py line 668. *)
Definition list_tokens : exec val :=
  guarded (
    client <- get_workspace_client ;;
    tokens <- api client "tokens.list" [] [] ;;
    tokens <~ list_of (Ok tokens) ;;
    token_list <~ collect (Ok tokens) (fun token =>
      dict_lit [
        ("token_id", Ok token ~> "token_id");
        ("creation_time", Ok token ~> "creation_time");
        ("expiry_time", Ok token ~> "expiry_time");
        ("comment", Ok token ~> "comment")
      ]) ;;
    lift (dict_lit [
      ("status", Ok (VStr "success"));
      ("tokens", Ok token_list);
      ("count", len_of (Ok token_list))
    ])).

(** [create_token], security.py line 697. *)
Definition create_token (comment : val) (lifetime_seconds : val) : exec val :=
  guarded (
    client <- get_workspace_client ;;
    token_config <~ dict_lit [] ;;
    token_config <- (if truthy comment
       then set_item token_config "comment" (Ok comment)
       else ret token_config) ;;
    token_config <- (if truthy lifetime_seconds
       then set_item token_config "lifetime_seconds" (Ok lifetime_seconds)
       else ret token_config) ;;
    kw <- kwargs_of token_config ;;
    token <- api client "tokens.create" [] kw ;;
    lift (dict_lit [
      ("status", Ok (VStr "success"));
      ("token_id", Ok token ~> "token_id");
      ("token_value", Ok token ~> "token_value");
      ("comment", Ok comment);
      ("lifetime_seconds", Ok lifetime_seconds);
      ("message", fstr [Lit "Personal access token created successfully"]);
      ("warning", Ok (VStr "Token value is only shown once. Please save it securely."))
    ])).

(** [revoke_token], security.py line 731. *)
Definition revoke_token (token_id : val) : exec val :=
  guarded (
    client <- get_workspace_client ;;
    _ <- api client "tokens.delete" [token_id] [] ;;
    lift (dict_lit [
      ("status", Ok (VStr "success"));
      ("token_id", Ok token_id);
      ("message", fstr [Lit "Personal access token "; Fmt (Ok token_id); Lit " revoked successfully"])
    ])).

(** [list_ip_access_lists], security.py line 755. *)
Definition list_ip_access_lists : exec val :=
  guarded (
    client <- get_workspace_client ;;
    ip_lists <- api client "ip_access_lists.list" [] [] ;;
    ip_lists <~ list_of (Ok ip_lists) ;;
    ip_list_info <~ collect (Ok ip_lists) (fun ip_list =>
      dict_lit [
        ("list_id", Ok ip_list ~> "list_id");
        ("label", Ok ip_list ~> "label");
        ("list_type", (Ok ip_list ~> "list_type" ~> "name" <| Ok ip_list ~> "list_type" |> Ok VNone));
        ("enabled", Ok ip_list ~> "enabled");
        ("ip_addresses", Ok ip_list ~> "ip_addresses");
        ("created_at", Ok ip_list ~> "created_at");
        ("created_by", Ok ip_list ~> "created_by");
        ("updated_at", Ok ip_list ~> "updated_at");
        ("updated_by", Ok ip_list ~> "updated_by")
      ]) ;;
    lift (dict_lit [
      ("status", Ok (VStr "success"));
      ("ip_access_lists", Ok ip_list_info);
      ("count", len_of (Ok ip_list_info))
    ])).

(** [get_ip_access_list], security.py line 789. *)
Definition get_ip_access_list (list_id : val) : exec val :=
  guarded (
    client <- get_workspace_client ;;
    ip_list <- api client "ip_access_lists.get" [list_id] [] ;;
    lift (dict_lit [
      ("status", Ok (VStr "success"));
      ("ip_access_list", dict_lit [
        ("list_id", Ok ip_list ~> "list_id");
        ("label", Ok ip_list ~> "label");
        ("list_type", (Ok ip_list ~> "list_type" ~> "name" <| Ok ip_list ~> "list_type" |> Ok VNone));
        ("enabled", Ok ip_list ~> "enabled");
        ("ip_addresses", Ok ip_list ~> "ip_addresses");
        ("created_at", Ok ip_list ~> "created_at");
        ("created_by", Ok ip_list ~> "created_by");
        ("updated_at", Ok ip_list ~> "updated_at");
        ("updated_by", Ok ip_list ~> "updated_by")
      ])
    ])).

(** [create_ip_access_list], security.py line 820. *)
Definition create_ip_access_list (ip_config : val) : exec val :=
  guarded (
    client <- get_workspace_client ;;
    kw <- kwargs_of ip_config ;;
    ip_list <- api client "ip_access_lists.create" [] kw ;;
    lift (dict_lit [
      ("status", Ok (VStr "success"));
      ("list_id", Ok ip_list ~> "list_id");
      ("label", Ok ip_list ~> "label");
      ("message", fstr [Lit "IP access list "; Fmt (Ok ip_list ~> "label"); Lit " created successfully"])
    ])).

(** [update_ip_access_list], security.py line 843. *)
Definition update_ip_access_list (list_id : val) (ip_config : val) : exec val :=
  guarded (
    client <- get_workspace_client ;;
    ip_config <- set_item ip_config "list_id" (Ok list_id) ;;
    kw <- kwargs_of ip_config ;;
    _ <- api client "ip_access_lists.replace" [] kw ;;
    lift (dict_lit [
      ("status", Ok (VStr "success"));
      ("list_id", Ok list_id);
      ("message", fstr [Lit "IP access list "; Fmt (Ok list_id); Lit " updated successfully"])
    ])).

(** [delete_ip_access_list], security.py line 870. *)
Definition delete_ip_access_list (list_id : val) : exec val :=
  guarded (
    client <- get_workspace_client ;;
    _ <- api client "ip_access_lists.delete" [list_id] [] ;;
    lift (dict_lit [
      ("status", Ok (VStr "success"));
      ("list_id", Ok list_id);
      ("message", fstr [Lit "IP access list "; Fmt (Ok list_id); Lit " deleted successfully"])
    ])).

(** [get_workspace_conf], security.py line 894. *)
Definition get_workspace_conf : exec val :=
  guarded (
    client <- get_workspace_client ;;
    conf <- api client "workspace_conf.get_status" [] [] ;;
    lift (dict_lit [
      ("status", Ok (VStr "success"));
      ("workspace_configuration", (dict_of (Ok conf) <| Ok conf |> dict_lit []))
    ])).

(** [set_workspace_conf], security.py line 912. *)
Definition set_workspace_conf (config_key : val) (config_value : val) : exec val :=
  guarded (
    client <- get_workspace_client ;;
    conf <~ dict_item (Ok config_key) (Ok config_value) ;;
    _ <- api client "workspace_conf.set_status" [conf] [] ;;
    lift (dict_lit [
      ("status", Ok (VStr "success"));
      ("config_key", Ok config_key);
      ("config_value", Ok config_value);
      ("message", fstr [Lit "Workspace configuration "; Fmt (Ok config_key); Lit " set successfully"])
    ])).

(** *** workspace.py *)

(** [list_workspace_objects], workspace.py line 20. *)
Definition list_workspace_objects (path : val) : exec val :=
  guarded (
    client <- get_workspace_client ;;
    objects <- api client "workspace.list" [path] [] ;;
    objects <~ list_of (Ok objects) ;;
    object_list <~ collect (Ok objects) (fun obj =>
      dict_lit [
        ("object_type", (Ok obj ~> "object_type" ~> "name" <| Ok obj ~> "object_type" |> Ok VNone));
        ("path", Ok obj ~> "path");
        ("language", (Ok obj ~> "language" ~> "name" <| Ok obj ~> "language" |> Ok VNone));
        ("object_id", Ok obj ~> "object_id");
        ("size", Ok obj ~> "size");
        ("created_at", Ok obj ~> "created_at");
        ("modified_at", Ok obj ~> "modified_at")
      ]) ;;
    lift (dict_lit [
      ("status", Ok (VStr "success"));
      ("path", Ok path);
      ("objects", Ok object_list);
      ("count", len_of (Ok object_list))
    ])).

(** [get_workspace_object], workspace.py line 56. *)
Definition get_workspace_object (path : val) : exec val :=
  guarded (
    client <- get_workspace_client ;;
    obj <- api client "workspace.get_status" [path] [] ;;
    lift (dict_lit [
      ("status", Ok (VStr "success"));
      ("object", dict_lit [
        ("object_type", (Ok obj ~> "object_type" ~> "name" <| Ok obj ~> "object_type" |> Ok VNone));
        ("path", Ok obj ~> "path");
        ("language", (Ok obj ~> "language" ~> "name" <| Ok obj ~> "language" |> Ok VNone));
        ("object_id", Ok obj ~> "object_id");
        ("size", Ok obj ~> "size");
        ("created_at", Ok obj ~> "created_at");
        ("modified_at", Ok obj ~> "modified_at")
      ])
    ])).

(** [export_workspace_object], workspace.py line 85. *)
Definition export_workspace_object (path : val) (format : val) : exec val :=
  guarded (
    client <- get_workspace_client ;;
    (* Export the object *)
    export_response <- api client "workspace.export" [path] [("format", format)] ;;
    (* Convert bytes to string if possible *)
    converted <- try_except_only "UnicodeDecodeError" (
        if eq_str format "SOURCE"
        then
          content <~ decode_utf8_of (Ok export_response ~> "content") ;;
          ret (content, VStr "text")
        else
          content <~ str_of (Ok export_response ~> "content") ;;
          ret (content, VStr "binary"))
      (content <~ str_of (Ok export_response ~> "content") ;;
       ret (content, VStr "binary")) ;;
    lift (dict_lit [
      ("status", Ok (VStr "success"));
      ("path", Ok path);
      ("format", Ok format);
      ("content", Ok (fst converted));
      ("content_type", Ok (snd converted));
      ("size", len_of (Ok export_response ~> "content"))
    ])).

(** [import_workspace_object], workspace.py line 125. *)
Definition import_workspace_object (path : val) (content : val) (language : val) (format : val) (overwrite : val) : exec val :=
  guarded (
    client <- get_workspace_client ;;
    content_bytes <~ encode_utf8_of (Ok content) ;;
    _ <- api client "workspace.import_" [] [("path", path); ("content", content_bytes); ("language", language); ("format", format); ("overwrite", overwrite)] ;;
    lift (dict_lit [
      ("status", Ok (VStr "success"));
      ("path", Ok path);
      ("language", Ok language);
      ("format", Ok format);
      ("overwrite", Ok overwrite);
      ("content_size", len_of (Ok content_bytes));
      ("message", fstr [Lit "Content imported successfully to "; Fmt (Ok path)])
    ])).

(** [delete_workspace_object], workspace.py line 166. *)
Definition delete_workspace_object (path : val) (recursive : val) : exec val :=
  guarded (
    client <- get_workspace_client ;;
    _ <- api client "workspace.delete" [path] [("recursive", recursive)] ;;
    lift (dict_lit [
      ("status", Ok (VStr "success"));
      ("path", Ok path);
      ("recursive", Ok recursive);
      ("message", fstr [Lit "Workspace object "; Fmt (Ok path); Lit " deleted successfully"])
    ])).

(** [create_workspace_directory], workspace.py line 190. *)
Definition create_workspace_directory (path : val) : exec val :=
  guarded (
    client <- get_workspace_client ;;
    _ <- api client "workspace.mkdirs" [path] [] ;;
    lift (dict_lit [
      ("status", Ok (VStr "success"));
      ("path", Ok path);
      ("message", fstr [Lit "Workspace directory "; Fmt (Ok path); Lit " created successfully"])
    ])).

(** [list_repos], workspace.py line 214. *)
Definition list_repos : exec val :=
  guarded (
    client <- get_workspace_client ;;
    repos <- api client "repos.list" [] [] ;;
    repos <~ list_of (Ok repos) ;;
    repo_list <~ collect (Ok repos) (fun repo =>
      dict_lit [
        ("id", Ok repo ~> "id");
        ("path", Ok repo ~> "path");
        ("url", Ok repo ~> "url");
        ("provider", Ok repo ~> "provider");
        ("branch", Ok repo ~> "branch");
        ("head_commit_id", Ok repo ~> "head_commit_id")
      ]) ;;
    lift (dict_lit [
      ("status", Ok (VStr "success"));
      ("repositories", Ok repo_list);
      ("count", len_of (Ok repo_list))
    ])).

(** [get_repo], workspace.py line 245. *)
Definition get_repo (repo_id : val) : exec val :=
  guarded (
    client <- get_workspace_client ;;
    repo <- api client "repos.get" [repo_id] [] ;;
    lift (dict_lit [
      ("status", Ok (VStr "success"));
      ("repository", dict_lit [
        ("id", Ok repo ~> "id");
        ("path", Ok repo ~> "path");
        ("url", Ok repo ~> "url");
        ("provider", Ok repo ~> "provider");
        ("branch", Ok repo ~> "branch");
        ("head_commit_id", Ok repo ~> "head_commit_id")
      ])
    ])).

(** [create_repo], workspace.py line 273. *)
Definition create_repo (repo_config : val) : exec val :=
  guarded (
    client <- get_workspace_client ;;
    kw <- kwargs_of repo_config ;;
    repo <- api client "repos.create" [] kw ;;
    lift (dict_lit [
      ("status", Ok (VStr "success"));
      ("repository_id", Ok repo ~> "id");
      ("path", Ok repo ~> "path");
      ("url", Ok repo ~> "url");
      ("branch", Ok repo ~> "branch");
      ("message", fstr [Lit "Repository cloned successfully to "; Fmt (Ok repo ~> "path")])
    ])).

(** [update_repo], workspace.py line 299. *)
Definition update_repo (repo_id : val) (branch : val) (tag : val) : exec val :=
  guarded (
    client <- get_workspace_client ;;
    update_config <~ dict_lit [] ;;
    update_config <- (if truthy branch
       then set_item update_config "branch" (Ok branch)
       else ret update_config) ;;
    update_config <- (if truthy tag
       then set_item update_config "tag" (Ok tag)
       else ret update_config) ;;
    kw <- kwargs_of update_config ;;
    _ <- api client "repos.update" [repo_id] kw ;;
    lift (dict_lit [
      ("status", Ok (VStr "success"));
      ("repository_id", Ok repo_id);
      ("branch", Ok branch);
      ("tag", Ok tag);
      ("message", fstr [Lit "Repository "; Fmt (Ok repo_id); Lit " updated successfully"])
    ])).

(** [delete_repo], workspace.py line 332. *)
Definition delete_repo (repo_id : val) : exec val :=
  guarded (
    client <- get_workspace_client ;;
    _ <- api client "repos.delete" [repo_id] [] ;;
    lift (dict_lit [
      ("status", Ok (VStr "success"));
      ("repository_id", Ok repo_id);
      ("message", fstr [Lit "Repository "; Fmt (Ok repo_id); Lit " deleted successfully"])
    ])).

(** [get_repo_permissions], workspace.py line 354. *)
Definition get_repo_permissions (repo_id : val) : exec val :=
  guarded (
    client <- get_workspace_client ;;
    permissions <- api client "repo_permissions.get" [repo_id] [] ;;
    guard <~ Ok permissions ~> "access_control_list" ;;
    permission_list <~ (if truthy guard
       then collect (Ok permissions ~> "access_control_list") (fun acl =>
        dict_lit [
          ("user_name", Ok acl ~> "user_name");
          ("group_name", Ok acl ~> "group_name");
          ("service_principal_name", Ok acl ~> "service_principal_name");
          ("all_permissions", (list_comp (Ok acl ~> "all_permissions") (fun perm => call_of (Ok perm) "dict") <| Ok acl ~> "all_permissions" |> Ok VNone))
        ])
       else Ok (VList [])) ;;
    lift (dict_lit [
      ("status", Ok (VStr "success"));
      ("repository_id", Ok repo_id);
      ("object_id", Ok permissions ~> "object_id");
      ("object_type", Ok permissions ~> "object_type");
      ("permissions", Ok permission_list);
      ("count", len_of (Ok permission_list))
    ])).

(** [set_repo_permissions], workspace.py line 390. *)
Definition set_repo_permissions (repo_id : val) (access_control_list : val) : exec val :=
  guarded (
    client <- get_workspace_client ;;
    _ <- api client "repo_permissions.set" [repo_id] [("access_control_list", access_control_list)] ;;
    lift (dict_lit [
      ("status", Ok (VStr "success"));
      ("repository_id", Ok repo_id);
      ("permissions_count", len_of (Ok access_control_list));
      ("message", fstr [Lit "Permissions set successfully for repository "; Fmt (Ok repo_id)])
    ])).

(** [update_repo_permissions], workspace.py line 414. *)
Definition update_repo_permissions (repo_id : val) (access_control_list : val) : exec val :=
  guarded (
    client <- get_workspace_client ;;
    _ <- api client "repo_permissions.update" [repo_id] [("access_control_list", access_control_list)] ;;
    lift (dict_lit [
      ("status", Ok (VStr "success"));
      ("repository_id", Ok repo_id);
      ("permissions_count", len_of (Ok access_control_list));
      ("message", fstr [Lit "Permissions updated successfully for repository "; Fmt (Ok repo_id)])
    ])).

(** [get_workspace_permissions], workspace.py line 440. *)
Definition get_workspace_permissions (workspace_object_type : val) (workspace_object_id : val) : exec val :=
  guarded (
    client <- get_workspace_client ;;
    permissions <- api client "permissions.get" [workspace_object_type; workspace_object_id] [] ;;
    guard <~ Ok permissions ~> "access_control_list" ;;
    permission_list <~ (if truthy guard
       then collect (Ok permissions ~> "access_control_list") (fun acl =>
        dict_lit [
          ("user_name", Ok acl ~> "user_name");
          ("group_name", Ok acl ~> "group_name");
          ("service_principal_name", Ok acl ~> "service_principal_name");
          ("all_permissions", (list_comp (Ok acl ~> "all_permissions") (fun perm => call_of (Ok perm) "dict") <| Ok acl ~> "all_permissions" |> Ok VNone))
        ])
       else Ok (VList [])) ;;
    lift (dict_lit [
      ("status", Ok (VStr "success"));
      ("object_type", Ok workspace_object_type);
      ("object_id", Ok workspace_object_id);
      ("permissions", Ok permission_list);
      ("count", len_of (Ok permission_list))
    ])).

(** [set_workspace_permissions], workspace.py line 476. *)
Definition set_workspace_permissions (workspace_object_type : val) (workspace_object_id : val) (access_control_list : val) : exec val :=
  guarded (
    client <- get_workspace_client ;;
    _ <- api client "permissions.set" [workspace_object_type; workspace_object_id] [("access_control_list", access_control_list)] ;;
    lift (dict_lit [
      ("status", Ok (VStr "success"));
      ("object_type", Ok workspace_object_type);
      ("object_id", Ok workspace_object_id);
      ("permissions_count", len_of (Ok access_control_list));
      ("message", fstr [Lit "Permissions set successfully for "; Fmt (Ok workspace_object_type); Lit " "; Fmt (Ok workspace_object_id)])
    ])).

(** [update_workspace_permissions], workspace.py line 502. *)
Definition update_workspace_permissions (workspace_object_type : val) (workspace_object_id : val) (access_control_list : val) : exec val :=
  guarded (
    client <- get_workspace_client ;;
    _ <- api client "permissions.update" [workspace_object_type; workspace_object_id] [("access_control_list", access_control_list)] ;;
    lift (dict_lit [
      ("status", Ok (VStr "success"));
      ("object_type", Ok workspace_object_type);
      ("object_id", Ok workspace_object_id);
      ("permissions_count", len_of (Ok access_control_list));
      ("message", fstr [Lit "Permissions updated successfully for "; Fmt (Ok workspace_object_type); Lit " "; Fmt (Ok workspace_object_id)])
    ])).

(** [get_current_user], workspace.py line 530. *)
Definition get_current_user : exec val :=
  guarded (
    client <- get_workspace_client ;;
    user <- api client "current_user.me" [] [] ;;
    lift (dict_lit [
      ("status", Ok (VStr "success"));
      ("current_user", dict_lit [
        ("id", Ok user ~> "id");
        ("user_name", Ok user ~> "user_name");
        ("display_name", Ok user ~> "display_name");
        ("active", Ok user ~> "active");
        ("emails", (list_comp (Ok user ~> "emails") (fun email => call_of (Ok email) "dict") <| Ok user ~> "emails" |> Ok VNone));
        ("groups", (list_comp (Ok user ~> "groups") (fun group => call_of (Ok group) "dict") <| Ok user ~> "groups" |> Ok VNone));
        ("roles", (list_comp (Ok user ~> "roles") (fun role => call_of (Ok role) "dict") <| Ok user ~> "roles" |> Ok VNone))
      ])
    ])).

(** [get_workspace_settings], workspace.py line 558. *)
Definition get_workspace_settings : exec val :=
  guarded (
    client <- get_workspace_client ;;
    (* Get various workspace settings *)
    settings <~ dict_lit [] ;;
    (* Try to get token management settings *)
    settings <- try_except (
        token_settings <- api client "settings.get_token_management" [] [] ;;
        set_item settings "token_management"
          (call_of (Ok token_settings) "dict" <| Ok token_settings |> Ok VNone))
      (fun _ => set_item settings "token_management" (Ok VNone)) ;;
    (* Try to get IP access list settings *)
    settings <- try_except (
        ip_settings <- api client "settings.get_ip_access_list" [] [] ;;
        set_item settings "ip_access_list"
          (call_of (Ok ip_settings) "dict" <| Ok ip_settings |> Ok VNone))
      (fun _ => set_item settings "ip_access_list" (Ok VNone)) ;;
    lift (dict_lit [
      ("status", Ok (VStr "success"));
      ("workspace_settings", Ok settings)
    ])).

(** [update_token_management_settings], workspace.py line 592. *)
Definition update_token_management_settings (token_config : val) : exec val :=
  guarded (
    client <- get_workspace_client ;;
    kw <- kwargs_of token_config ;;
    _ <- api client "settings.update_token_management" [] kw ;;
    lift (dict_lit [
      ("status", Ok (VStr "success"));
      ("message", Ok (VStr "Token management settings updated successfully"))
    ])).

(** [update_ip_access_list_settings], workspace.py line 613. *)
Definition update_ip_access_list_settings (ip_config : val) : exec val :=
  guarded (
    client <- get_workspace_client ;;
    kw <- kwargs_of ip_config ;;
    _ <- api client "settings.update_ip_access_list" [] kw ;;
    lift (dict_lit [
      ("status", Ok (VStr "success"));
      ("message", Ok (VStr "IP access list settings updated successfully"))
    ])).

(** What the dispatcher does with a request: the tool's handler, applied to
    the arguments it was given. *)
Definition run (r : request) : exec val :=
  match r with
  | Invoke_list_clusters => list_clusters
  | Invoke_get_cluster cluster_id => get_cluster (VStr cluster_id)
  | Invoke_create_cluster cluster_config => create_cluster (VRef cluster_config)
  | Invoke_start_cluster cluster_id => start_cluster (VStr cluster_id)
  | Invoke_restart_cluster cluster_id => restart_cluster (VStr cluster_id)
  | Invoke_terminate_cluster cluster_id => terminate_cluster (VStr cluster_id)
  | Invoke_delete_cluster cluster_id => delete_cluster (VStr cluster_id)
  | Invoke_edit_cluster cluster_id cluster_config => edit_cluster (VStr cluster_id) (VRef cluster_config)
  | Invoke_get_cluster_events cluster_id start_time end_time order limit => get_cluster_events (VStr cluster_id) (opt VInt start_time) (opt VInt end_time) (VStr order) (VInt limit)
  | Invoke_list_instance_pools => list_instance_pools
  | Invoke_get_instance_pool instance_pool_id => get_instance_pool (VStr instance_pool_id)
  | Invoke_create_instance_pool pool_config => create_instance_pool (VRef pool_config)
  | Invoke_edit_instance_pool instance_pool_id pool_config => edit_instance_pool (VStr instance_pool_id) (VRef pool_config)
  | Invoke_delete_instance_pool instance_pool_id => delete_instance_pool (VStr instance_pool_id)
  | Invoke_list_cluster_libraries cluster_id => list_cluster_libraries (VStr cluster_id)
  | Invoke_install_cluster_libraries cluster_id libraries => install_cluster_libraries (VStr cluster_id) (VList libraries)
  | Invoke_uninstall_cluster_libraries cluster_id libraries => uninstall_cluster_libraries (VStr cluster_id) (VList libraries)
  | Invoke_list_all_cluster_libraries => list_all_cluster_libraries
  | Invoke_list_cluster_policies => list_cluster_policies
  | Invoke_get_cluster_policy policy_id => get_cluster_policy (VStr policy_id)
  | Invoke_create_cluster_policy policy_config => create_cluster_policy (VRef policy_config)
  | Invoke_edit_cluster_policy policy_id policy_config => edit_cluster_policy (VStr policy_id) (VRef policy_config)
  | Invoke_delete_cluster_policy policy_id => delete_cluster_policy (VStr policy_id)
  | Invoke_list_node_types => list_node_types
  | Invoke_list_spark_versions => list_spark_versions
  | Invoke_list_system_schemas => list_system_schemas
  | Invoke_query_audit_logs start_date end_date service_name action_name limit => query_audit_logs (VStr start_date) (VStr end_date) (opt VStr service_name) (opt VStr action_name) (VInt limit)
  | Invoke_query_table_lineage table_name upstream downstream => query_table_lineage (VStr table_name) (VBool upstream) (VBool downstream)
  | Invoke_query_column_lineage table_name column_name => query_column_lineage (VStr table_name) (opt VStr column_name)
  | Invoke_query_table_usage table_name days => query_table_usage (VStr table_name) (VInt days)
  | Invoke_query_workspace_objects object_type created_days => query_workspace_objects (opt VStr object_type) (VInt created_days)
  | Invoke_query_permissions_changes principal days => query_permissions_changes (opt VStr principal) (VInt days)
  | Invoke_query_compute_usage start_date end_date cluster_id => query_compute_usage (VStr start_date) (VStr end_date) (opt VStr cluster_id)
  | Invoke_query_storage_usage start_date end_date => query_storage_usage (VStr start_date) (VStr end_date)
  | Invoke_list_quality_monitors catalog_name => list_quality_monitors (opt VStr catalog_name)
  | Invoke_get_quality_monitor_status table_name => get_quality_monitor_status (VStr table_name)
  | Invoke_list_models => list_models
  | Invoke_get_model model_name => get_model (VStr model_name)
  | Invoke_create_model model_name description tags => create_model (VStr model_name) (opt VStr description) (opt VList tags)
  | Invoke_update_model model_name description => update_model (VStr model_name) (opt VStr description)
  | Invoke_delete_model model_name => delete_model (VStr model_name)
  | Invoke_list_model_versions model_name => list_model_versions (VStr model_name)
  | Invoke_get_model_version model_name version => get_model_version (VStr model_name) (VStr version)
  | Invoke_create_model_version model_name source run_id description tags => create_model_version (VStr model_name) (VStr source) (opt VStr run_id) (opt VStr description) (opt VList tags)
  | Invoke_update_model_version model_name version description stage => update_model_version (VStr model_name) (VStr version) (opt VStr description) (opt VStr stage)
  | Invoke_delete_model_version model_name version => delete_model_version (VStr model_name) (VStr version)
  | Invoke_transition_model_version_stage model_name version stage archive_existing_versions => transition_model_version_stage (VStr model_name) (VStr version) (VStr stage) (VBool archive_existing_versions)
  | Invoke_list_experiments => list_experiments
  | Invoke_get_experiment experiment_id => get_experiment (VStr experiment_id)
  | Invoke_create_experiment name artifact_location tags => create_experiment (VStr name) (opt VStr artifact_location) (opt VList tags)
  | Invoke_update_experiment experiment_id new_name => update_experiment (VStr experiment_id) (opt VStr new_name)
  | Invoke_delete_experiment experiment_id => delete_experiment (VStr experiment_id)
  | Invoke_restore_experiment experiment_id => restore_experiment (VStr experiment_id)
  | Invoke_search_runs experiment_ids filter_string run_view_type max_results => search_runs (VList experiment_ids) (opt VStr filter_string) (VStr run_view_type) (VInt max_results)
  | Invoke_get_run run_id => get_run (VStr run_id)
  | Invoke_delete_run run_id => delete_run (VStr run_id)
  | Invoke_restore_run run_id => restore_run (VStr run_id)
  | Invoke_list_secret_scopes => list_secret_scopes
  | Invoke_create_secret_scope scope_name backend_type => create_secret_scope (VStr scope_name) (VStr backend_type)
  | Invoke_delete_secret_scope scope_name => delete_secret_scope (VStr scope_name)
  | Invoke_list_secrets scope_name => list_secrets (VStr scope_name)
  | Invoke_put_secret scope_name key value => put_secret (VStr scope_name) (VStr key) (VStr value)
  | Invoke_delete_secret scope_name key => delete_secret (VStr scope_name) (VStr key)
  | Invoke_get_secret_acl scope_name principal => get_secret_acl (VStr scope_name) (VStr principal)
  | Invoke_list_secret_acls scope_name => list_secret_acls (VStr scope_name)
  | Invoke_put_secret_acl scope_name principal permission => put_secret_acl (VStr scope_name) (VStr principal) (VStr permission)
  | Invoke_delete_secret_acl scope_name principal => delete_secret_acl (VStr scope_name) (VStr principal)
  | Invoke_list_users => list_users
  | Invoke_get_user user_id => get_user (VStr user_id)
  | Invoke_create_user user_config => create_user (VRef user_config)
  | Invoke_update_user user_id user_config => update_user (VStr user_id) (VRef user_config)
  | Invoke_delete_user user_id => delete_user (VStr user_id)
  | Invoke_list_groups => list_groups
  | Invoke_get_group group_id => get_group (VStr group_id)
  | Invoke_create_group group_config => create_group (VRef group_config)
  | Invoke_update_group group_id group_config => update_group (VStr group_id) (VRef group_config)
  | Invoke_delete_group group_id => delete_group (VStr group_id)
  | Invoke_list_service_principals => list_service_principals
  | Invoke_get_service_principal sp_id => get_service_principal (VStr sp_id)
  | Invoke_create_service_principal sp_config => create_service_principal (VRef sp_config)
  | Invoke_update_service_principal sp_id sp_config => update_service_principal (VStr sp_id) (VRef sp_config)
  | Invoke_delete_service_principal sp_id => delete_service_principal (VStr sp_id)
  | Invoke_list_tokens => list_tokens
  | Invoke_create_token comment lifetime_seconds => create_token (opt VStr comment) (opt VInt lifetime_seconds)
  | Invoke_revoke_token token_id => revoke_token (VStr token_id)
  | Invoke_list_ip_access_lists => list_ip_access_lists
  | Invoke_get_ip_access_list list_id => get_ip_access_list (VStr list_id)
  | Invoke_create_ip_access_list ip_config => create_ip_access_list (VRef ip_config)
  | Invoke_update_ip_access_list list_id ip_config => update_ip_access_list (VStr list_id) (VRef ip_config)
  | Invoke_delete_ip_access_list list_id => delete_ip_access_list (VStr list_id)
  | Invoke_get_workspace_conf => get_workspace_conf
  | Invoke_set_workspace_conf config_key config_value => set_workspace_conf (VStr config_key) (VStr config_value)
  | Invoke_list_workspace_objects path => list_workspace_objects (VStr path)
  | Invoke_get_workspace_object path => get_workspace_object (VStr path)
  | Invoke_export_workspace_object path format => export_workspace_object (VStr path) (VStr format)
  | Invoke_import_workspace_object path content language format overwrite => import_workspace_object (VStr path) (VStr content) (VStr language) (VStr format) (VBool overwrite)
  | Invoke_delete_workspace_object path recursive => delete_workspace_object (VStr path) (VBool recursive)
  | Invoke_create_workspace_directory path => create_workspace_directory (VStr path)
  | Invoke_list_repos => list_repos
  | Invoke_get_repo repo_id => get_repo (VStr repo_id)
  | Invoke_create_repo repo_config => create_repo (VRef repo_config)
  | Invoke_update_repo repo_id branch tag => update_repo (VStr repo_id) (opt VStr branch) (opt VStr tag)
  | Invoke_delete_repo repo_id => delete_repo (VStr repo_id)
  | Invoke_get_repo_permissions repo_id => get_repo_permissions (VStr repo_id)
  | Invoke_set_repo_permissions repo_id access_control_list => set_repo_permissions (VStr repo_id) (VList access_control_list)
  | Invoke_update_repo_permissions repo_id access_control_list => update_repo_permissions (VStr repo_id) (VList access_control_list)
  | Invoke_get_workspace_permissions workspace_object_type workspace_object_id => get_workspace_permissions (VStr workspace_object_type) (VStr workspace_object_id)
  | Invoke_set_workspace_permissions workspace_object_type workspace_object_id access_control_list => set_workspace_permissions (VStr workspace_object_type) (VStr workspace_object_id) (VList access_control_list)
  | Invoke_update_workspace_permissions workspace_object_type workspace_object_id access_control_list => update_workspace_permissions (VStr workspace_object_type) (VStr workspace_object_id) (VList access_control_list)
  | Invoke_get_current_user => get_current_user
  | Invoke_get_workspace_settings => get_workspace_settings
  | Invoke_update_token_management_settings token_config => update_token_management_settings (VRef token_config)
  | Invoke_update_ip_access_list_settings ip_config => update_ip_access_list_settings (VRef ip_config)
  end.

End Handlers.

(** ** Tables read off the registrations *)

Definition name_of (r : request) : string :=
  match r with
  | Invoke_list_clusters => "list_clusters"
  | Invoke_get_cluster _ => "get_cluster"
  | Invoke_create_cluster _ => "create_cluster"
  | Invoke_start_cluster _ => "start_cluster"
  | Invoke_restart_cluster _ => "restart_cluster"
  | Invoke_terminate_cluster _ => "terminate_cluster"
  | Invoke_delete_cluster _ => "delete_cluster"
  | Invoke_edit_cluster _ _ => "edit_cluster"
  | Invoke_get_cluster_events _ _ _ _ _ => "get_cluster_events"
  | Invoke_list_instance_pools => "list_instance_pools"
  | Invoke_get_instance_pool _ => "get_instance_pool"
  | Invoke_create_instance_pool _ => "create_instance_pool"
  | Invoke_edit_instance_pool _ _ => "edit_instance_pool"
  | Invoke_delete_instance_pool _ => "delete_instance_pool"
  | Invoke_list_cluster_libraries _ => "list_cluster_libraries"
  | Invoke_install_cluster_libraries _ _ => "install_cluster_libraries"
  | Invoke_uninstall_cluster_libraries _ _ => "uninstall_cluster_libraries"
  | Invoke_list_all_cluster_libraries => "list_all_cluster_libraries"
  | Invoke_list_cluster_policies => "list_cluster_policies"
  | Invoke_get_cluster_policy _ => "get_cluster_policy"
  | Invoke_create_cluster_policy _ => "create_cluster_policy"
  | Invoke_edit_cluster_policy _ _ => "edit_cluster_policy"
  | Invoke_delete_cluster_policy _ => "delete_cluster_policy"
  | Invoke_list_node_types => "list_node_types"
  | Invoke_list_spark_versions => "list_spark_versions"
  | Invoke_list_system_schemas => "list_system_schemas"
  | Invoke_query_audit_logs _ _ _ _ _ => "query_audit_logs"
  | Invoke_query_table_lineage _ _ _ => "query_table_lineage"
  | Invoke_query_column_lineage _ _ => "query_column_lineage"
  | Invoke_query_table_usage _ _ => "query_table_usage"
  | Invoke_query_workspace_objects _ _ => "query_workspace_objects"
  | Invoke_query_permissions_changes _ _ => "query_permissions_changes"
  | Invoke_query_compute_usage _ _ _ => "query_compute_usage"
  | Invoke_query_storage_usage _ _ => "query_storage_usage"
  | Invoke_list_quality_monitors _ => "list_quality_monitors"
  | Invoke_get_quality_monitor_status _ => "get_quality_monitor_status"
  | Invoke_list_models => "list_models"
  | Invoke_get_model _ => "get_model"
  | Invoke_create_model _ _ _ => "create_model"
  | Invoke_update_model _ _ => "update_model"
  | Invoke_delete_model _ => "delete_model"
  | Invoke_list_model_versions _ => "list_model_versions"
  | Invoke_get_model_version _ _ => "get_model_version"
  | Invoke_create_model_version _ _ _ _ _ => "create_model_version"
  | Invoke_update_model_version _ _ _ _ => "update_model_version"
  | Invoke_delete_model_version _ _ => "delete_model_version"
  | Invoke_transition_model_version_stage _ _ _ _ => "transition_model_version_stage"
  | Invoke_list_experiments => "list_experiments"
  | Invoke_get_experiment _ => "get_experiment"
  | Invoke_create_experiment _ _ _ => "create_experiment"
  | Invoke_update_experiment _ _ => "update_experiment"
  | Invoke_delete_experiment _ => "delete_experiment"
  | Invoke_restore_experiment _ => "restore_experiment"
  | Invoke_search_runs _ _ _ _ => "search_runs"
  | Invoke_get_run _ => "get_run"
  | Invoke_delete_run _ => "delete_run"
  | Invoke_restore_run _ => "restore_run"
  | Invoke_list_secret_scopes => "list_secret_scopes"
  | Invoke_create_secret_scope _ _ => "create_secret_scope"
  | Invoke_delete_secret_scope _ => "delete_secret_scope"
  | Invoke_list_secrets _ => "list_secrets"
  | Invoke_put_secret _ _ _ => "put_secret"
  | Invoke_delete_secret _ _ => "delete_secret"
  | Invoke_get_secret_acl _ _ => "get_secret_acl"
  | Invoke_list_secret_acls _ => "list_secret_acls"
  | Invoke_put_secret_acl _ _ _ => "put_secret_acl"
  | Invoke_delete_secret_acl _ _ => "delete_secret_acl"
  | Invoke_list_users => "list_users"
  | Invoke_get_user _ => "get_user"
  | Invoke_create_user _ => "create_user"
  | Invoke_update_user _ _ => "update_user"
  | Invoke_delete_user _ => "delete_user"
  | Invoke_list_groups => "list_groups"
  | Invoke_get_group _ => "get_group"
  | Invoke_create_group _ => "create_group"
  | Invoke_update_group _ _ => "update_group"
  | Invoke_delete_group _ => "delete_group"
  | Invoke_list_service_principals => "list_service_principals"
  | Invoke_get_service_principal _ => "get_service_principal"
  | Invoke_create_service_principal _ => "create_service_principal"
  | Invoke_update_service_principal _ _ => "update_service_principal"
  | Invoke_delete_service_principal _ => "delete_service_principal"
  | Invoke_list_tokens => "list_tokens"
  | Invoke_create_token _ _ => "create_token"
  | Invoke_revoke_token _ => "revoke_token"
  | Invoke_list_ip_access_lists => "list_ip_access_lists"
  | Invoke_get_ip_access_list _ => "get_ip_access_list"
  | Invoke_create_ip_access_list _ => "create_ip_access_list"
  | Invoke_update_ip_access_list _ _ => "update_ip_access_list"
  | Invoke_delete_ip_access_list _ => "delete_ip_access_list"
  | Invoke_get_workspace_conf => "get_workspace_conf"
  | Invoke_set_workspace_conf _ _ => "set_workspace_conf"
  | Invoke_list_workspace_objects _ => "list_workspace_objects"
  | Invoke_get_workspace_object _ => "get_workspace_object"
  | Invoke_export_workspace_object _ _ => "export_workspace_object"
  | Invoke_import_workspace_object _ _ _ _ _ => "import_workspace_object"
  | Invoke_delete_workspace_object _ _ => "delete_workspace_object"
  | Invoke_create_workspace_directory _ => "create_workspace_directory"
  | Invoke_list_repos => "list_repos"
  | Invoke_get_repo _ => "get_repo"
  | Invoke_create_repo _ => "create_repo"
  | Invoke_update_repo _ _ _ => "update_repo"
  | Invoke_delete_repo _ => "delete_repo"
  | Invoke_get_repo_permissions _ => "get_repo_permissions"
  | Invoke_set_repo_permissions _ _ => "set_repo_permissions"
  | Invoke_update_repo_permissions _ _ => "update_repo_permissions"
  | Invoke_get_workspace_permissions _ _ => "get_workspace_permissions"
  | Invoke_set_workspace_permissions _ _ _ => "set_workspace_permissions"
  | Invoke_update_workspace_permissions _ _ _ => "update_workspace_permissions"
  | Invoke_get_current_user => "get_current_user"
  | Invoke_get_workspace_settings => "get_workspace_settings"
  | Invoke_update_token_management_settings _ => "update_token_management_settings"
  | Invoke_update_ip_access_list_settings _ => "update_ip_access_list_settings"
  end.

Definition module_of (r : request) : string :=
  match r with
  | Invoke_list_clusters => "compute"
  | Invoke_get_cluster _ => "compute"
  | Invoke_create_cluster _ => "compute"
  | Invoke_start_cluster _ => "compute"
  | Invoke_restart_cluster _ => "compute"
  | Invoke_terminate_cluster _ => "compute"
  | Invoke_delete_cluster _ => "compute"
  | Invoke_edit_cluster _ _ => "compute"
  | Invoke_get_cluster_events _ _ _ _ _ => "compute"
  | Invoke_list_instance_pools => "compute"
  | Invoke_get_instance_pool _ => "compute"
  | Invoke_create_instance_pool _ => "compute"
  | Invoke_edit_instance_pool _ _ => "compute"
  | Invoke_delete_instance_pool _ => "compute"
  | Invoke_list_cluster_libraries _ => "compute"
  | Invoke_install_cluster_libraries _ _ => "compute"
  | Invoke_uninstall_cluster_libraries _ _ => "compute"
  | Invoke_list_all_cluster_libraries => "compute"
  | Invoke_list_cluster_policies => "compute"
  | Invoke_get_cluster_policy _ => "compute"
  | Invoke_create_cluster_policy _ => "compute"
  | Invoke_edit_cluster_policy _ _ => "compute"
  | Invoke_delete_cluster_policy _ => "compute"
  | Invoke_list_node_types => "compute"
  | Invoke_list_spark_versions => "compute"
  | Invoke_list_system_schemas => "governance"
  | Invoke_query_audit_logs _ _ _ _ _ => "governance"
  | Invoke_query_table_lineage _ _ _ => "governance"
  | Invoke_query_column_lineage _ _ => "governance"
  | Invoke_query_table_usage _ _ => "governance"
  | Invoke_query_workspace_objects _ _ => "governance"
  | Invoke_query_permissions_changes _ _ => "governance"
  | Invoke_query_compute_usage _ _ _ => "governance"
  | Invoke_query_storage_usage _ _ => "governance"
  | Invoke_list_quality_monitors _ => "governance"
  | Invoke_get_quality_monitor_status _ => "governance"
  | Invoke_list_models => "mlflow"
  | Invoke_get_model _ => "mlflow"
  | Invoke_create_model _ _ _ => "mlflow"
  | Invoke_update_model _ _ => "mlflow"
  | Invoke_delete_model _ => "mlflow"
  | Invoke_list_model_versions _ => "mlflow"
  | Invoke_get_model_version _ _ => "mlflow"
  | Invoke_create_model_version _ _ _ _ _ => "mlflow"
  | Invoke_update_model_version _ _ _ _ => "mlflow"
  | Invoke_delete_model_version _ _ => "mlflow"
  | Invoke_transition_model_version_stage _ _ _ _ => "mlflow"
  | Invoke_list_experiments => "mlflow"
  | Invoke_get_experiment _ => "mlflow"
  | Invoke_create_experiment _ _ _ => "mlflow"
  | Invoke_update_experiment _ _ => "mlflow"
  | Invoke_delete_experiment _ => "mlflow"
  | Invoke_restore_experiment _ => "mlflow"
  | Invoke_search_runs _ _ _ _ => "mlflow"
  | Invoke_get_run _ => "mlflow"
  | Invoke_delete_run _ => "mlflow"
  | Invoke_restore_run _ => "mlflow"
  | Invoke_list_secret_scopes => "security"
  | Invoke_create_secret_scope _ _ => "security"
  | Invoke_delete_secret_scope _ => "security"
  | Invoke_list_secrets _ => "security"
  | Invoke_put_secret _ _ _ => "security"
  | Invoke_delete_secret _ _ => "security"
  | Invoke_get_secret_acl _ _ => "security"
  | Invoke_list_secret_acls _ => "security"
  | Invoke_put_secret_acl _ _ _ => "security"
  | Invoke_delete_secret_acl _ _ => "security"
  | Invoke_list_users => "security"
  | Invoke_get_user _ => "security"
  | Invoke_create_user _ => "security"
  | Invoke_update_user _ _ => "security"
  | Invoke_delete_user _ => "security"
  | Invoke_list_groups => "security"
  | Invoke_get_group _ => "security"
  | Invoke_create_group _ => "security"
  | Invoke_update_group _ _ => "security"
  | Invoke_delete_group _ => "security"
  | Invoke_list_service_principals => "security"
  | Invoke_get_service_principal _ => "security"
  | Invoke_create_service_principal _ => "security"
  | Invoke_update_service_principal _ _ => "security"
  | Invoke_delete_service_principal _ => "security"
  | Invoke_list_tokens => "security"
  | Invoke_create_token _ _ => "security"
  | Invoke_revoke_token _ => "security"
  | Invoke_list_ip_access_lists => "security"
  | Invoke_get_ip_access_list _ => "security"
  | Invoke_create_ip_access_list _ => "security"
  | Invoke_update_ip_access_list _ _ => "security"
  | Invoke_delete_ip_access_list _ => "security"
  | Invoke_get_workspace_conf => "security"
  | Invoke_set_workspace_conf _ _ => "security"
  | Invoke_list_workspace_objects _ => "workspace"
  | Invoke_get_workspace_object _ => "workspace"
  | Invoke_export_workspace_object _ _ => "workspace"
  | Invoke_import_workspace_object _ _ _ _ _ => "workspace"
  | Invoke_delete_workspace_object _ _ => "workspace"
  | Invoke_create_workspace_directory _ => "workspace"
  | Invoke_list_repos => "workspace"
  | Invoke_get_repo _ => "workspace"
  | Invoke_create_repo _ => "workspace"
  | Invoke_update_repo _ _ _ => "workspace"
  | Invoke_delete_repo _ => "workspace"
  | Invoke_get_repo_permissions _ => "workspace"
  | Invoke_set_repo_permissions _ _ => "workspace"
  | Invoke_update_repo_permissions _ _ => "workspace"
  | Invoke_get_workspace_permissions _ _ => "workspace"
  | Invoke_set_workspace_permissions _ _ _ => "workspace"
  | Invoke_update_workspace_permissions _ _ _ => "workspace"
  | Invoke_get_current_user => "workspace"
  | Invoke_get_workspace_settings => "workspace"
  | Invoke_update_token_management_settings _ => "workspace"
  | Invoke_update_ip_access_list_settings _ => "workspace"
  end.

Definition output_keys (r : request) : list string :=
  match r with
  | Invoke_list_clusters => ["status"; "clusters"; "count"]
  | Invoke_get_cluster _ => ["status"; "cluster"]
  | Invoke_create_cluster _ => ["status"; "cluster_id"; "message"]
  | Invoke_start_cluster _ => ["status"; "message"]
  | Invoke_restart_cluster _ => ["status"; "message"]
  | Invoke_terminate_cluster _ => ["status"; "message"]
  | Invoke_delete_cluster _ => ["status"; "message"]
  | Invoke_edit_cluster _ _ => ["status"; "message"]
  | Invoke_get_cluster_events _ _ _ _ _ => ["status"; "events"; "count"; "next_page"; "total_count"]
  | Invoke_list_instance_pools => ["status"; "instance_pools"; "count"]
  | Invoke_get_instance_pool _ => ["status"; "instance_pool"]
  | Invoke_create_instance_pool _ => ["status"; "instance_pool_id"; "message"]
  | Invoke_edit_instance_pool _ _ => ["status"; "message"]
  | Invoke_delete_instance_pool _ => ["status"; "message"]
  | Invoke_list_cluster_libraries _ => ["status"; "cluster_id"; "libraries"; "count"]
  | Invoke_install_cluster_libraries _ _ => ["status"; "message"; "libraries_count"]
  | Invoke_uninstall_cluster_libraries _ _ => ["status"; "message"; "libraries_count"]
  | Invoke_list_all_cluster_libraries => ["status"; "cluster_libraries"; "clusters_count"]
  | Invoke_list_cluster_policies => ["status"; "policies"; "count"]
  | Invoke_get_cluster_policy _ => ["status"; "policy"]
  | Invoke_create_cluster_policy _ => ["status"; "policy_id"; "message"]
  | Invoke_edit_cluster_policy _ _ => ["status"; "message"]
  | Invoke_delete_cluster_policy _ => ["status"; "message"]
  | Invoke_list_node_types => ["status"; "node_types"; "count"]
  | Invoke_list_spark_versions => ["status"; "spark_versions"; "count"]
  | Invoke_list_system_schemas => ["status"; "system_schemas"; "count"; "message"]
  | Invoke_query_audit_logs _ _ _ _ _ => ["status"; "query"; "start_date"; "end_date"; "service_name"; "action_name"; "statement_id"; "message"]
  | Invoke_query_table_lineage _ _ _ => ["status"; "table_name"; "query"; "upstream"; "downstream"; "statement_id"; "message"]
  | Invoke_query_column_lineage _ _ => ["status"; "table_name"; "column_name"; "query"; "statement_id"; "message"]
  | Invoke_query_table_usage _ _ => ["status"; "table_name"; "days"; "query"; "statement_id"; "message"]
  | Invoke_query_workspace_objects _ _ => ["status"; "object_type"; "created_days"; "query"; "statement_id"; "message"]
  | Invoke_query_permissions_changes _ _ => ["status"; "principal"; "days"; "query"; "statement_id"; "message"]
  | Invoke_query_compute_usage _ _ _ => ["status"; "start_date"; "end_date"; "cluster_id"; "query"; "statement_id"; "message"]
  | Invoke_query_storage_usage _ _ => ["status"; "start_date"; "end_date"; "query"; "statement_id"; "message"]
  | Invoke_list_quality_monitors _ => ["status"; "catalog_name"; "monitors"; "count"]
  | Invoke_get_quality_monitor_status _ => ["status"; "monitor"]
  | Invoke_list_models => ["status"; "models"; "count"]
  | Invoke_get_model _ => ["status"; "model"]
  | Invoke_create_model _ _ _ => ["status"; "model_name"; "creation_timestamp"; "message"]
  | Invoke_update_model _ _ => ["status"; "model_name"; "message"]
  | Invoke_delete_model _ => ["status"; "model_name"; "message"]
  | Invoke_list_model_versions _ => ["status"; "model_name"; "versions"; "count"]
  | Invoke_get_model_version _ _ => ["status"; "model_version"]
  | Invoke_create_model_version _ _ _ _ _ => ["status"; "model_name"; "version"; "source"; "message"]
  | Invoke_update_model_version _ _ _ _ => ["status"; "model_name"; "version"; "stage"; "message"]
  | Invoke_delete_model_version _ _ => ["status"; "model_name"; "version"; "message"]
  | Invoke_transition_model_version_stage _ _ _ _ => ["status"; "model_name"; "version"; "stage"; "current_stage"; "message"]
  | Invoke_list_experiments => ["status"; "experiments"; "count"]
  | Invoke_get_experiment _ => ["status"; "experiment"]
  | Invoke_create_experiment _ _ _ => ["status"; "experiment_id"; "name"; "message"]
  | Invoke_update_experiment _ _ => ["status"; "experiment_id"; "new_name"; "message"]
  | Invoke_delete_experiment _ => ["status"; "experiment_id"; "message"]
  | Invoke_restore_experiment _ => ["status"; "experiment_id"; "message"]
  | Invoke_search_runs _ _ _ _ => ["status"; "experiment_ids"; "runs"; "count"; "next_page_token"]
  | Invoke_get_run _ => ["status"; "run"]
  | Invoke_delete_run _ => ["status"; "run_id"; "message"]
  | Invoke_restore_run _ => ["status"; "run_id"; "message"]
  | Invoke_list_secret_scopes => ["status"; "scopes"; "count"]
  | Invoke_create_secret_scope _ _ => ["status"; "scope_name"; "backend_type"; "message"]
  | Invoke_delete_secret_scope _ => ["status"; "scope_name"; "message"]
  | Invoke_list_secrets _ => ["status"; "scope_name"; "secrets"; "count"]
  | Invoke_put_secret _ _ _ => ["status"; "scope_name"; "key"; "message"]
  | Invoke_delete_secret _ _ => ["status"; "scope_name"; "key"; "message"]
  | Invoke_get_secret_acl _ _ => ["status"; "scope_name"; "principal"; "permission"]
  | Invoke_list_secret_acls _ => ["status"; "scope_name"; "acls"; "count"]
  | Invoke_put_secret_acl _ _ _ => ["status"; "scope_name"; "principal"; "permission"; "message"]
  | Invoke_delete_secret_acl _ _ => ["status"; "scope_name"; "principal"; "message"]
  | Invoke_list_users => ["status"; "users"; "count"]
  | Invoke_get_user _ => ["status"; "user"]
  | Invoke_create_user _ => ["status"; "user_id"; "user_name"; "message"]
  | Invoke_update_user _ _ => ["status"; "user_id"; "message"]
  | Invoke_delete_user _ => ["status"; "user_id"; "message"]
  | Invoke_list_groups => ["status"; "groups"; "count"]
  | Invoke_get_group _ => ["status"; "group"]
  | Invoke_create_group _ => ["status"; "group_id"; "display_name"; "message"]
  | Invoke_update_group _ _ => ["status"; "group_id"; "message"]
  | Invoke_delete_group _ => ["status"; "group_id"; "message"]
  | Invoke_list_service_principals => ["status"; "service_principals"; "count"]
  | Invoke_get_service_principal _ => ["status"; "service_principal"]
  | Invoke_create_service_principal _ => ["status"; "service_principal_id"; "application_id"; "display_name"; "message"]
  | Invoke_update_service_principal _ _ => ["status"; "service_principal_id"; "message"]
  | Invoke_delete_service_principal _ => ["status"; "service_principal_id"; "message"]
  | Invoke_list_tokens => ["status"; "tokens"; "count"]
  | Invoke_create_token _ _ => ["status"; "token_id"; "token_value"; "comment"; "lifetime_seconds"; "message"; "warning"]
  | Invoke_revoke_token _ => ["status"; "token_id"; "message"]
  | Invoke_list_ip_access_lists => ["status"; "ip_access_lists"; "count"]
  | Invoke_get_ip_access_list _ => ["status"; "ip_access_list"]
  | Invoke_create_ip_access_list _ => ["status"; "list_id"; "label"; "message"]
  | Invoke_update_ip_access_list _ _ => ["status"; "list_id"; "message"]
  | Invoke_delete_ip_access_list _ => ["status"; "list_id"; "message"]
  | Invoke_get_workspace_conf => ["status"; "workspace_configuration"]
  | Invoke_set_workspace_conf _ _ => ["status"; "config_key"; "config_value"; "message"]
  | Invoke_list_workspace_objects _ => ["status"; "path"; "objects"; "count"]
  | Invoke_get_workspace_object _ => ["status"; "object"]
  | Invoke_export_workspace_object _ _ => ["status"; "path"; "format"; "content"; "content_type"; "size"]
  | Invoke_import_workspace_object _ _ _ _ _ => ["status"; "path"; "language"; "format"; "overwrite"; "content_size"; "message"]
  | Invoke_delete_workspace_object _ _ => ["status"; "path"; "recursive"; "message"]
  | Invoke_create_workspace_directory _ => ["status"; "path"; "message"]
  | Invoke_list_repos => ["status"; "repositories"; "count"]
  | Invoke_get_repo _ => ["status"; "repository"]
  | Invoke_create_repo _ => ["status"; "repository_id"; "path"; "url"; "branch"; "message"]
  | Invoke_update_repo _ _ _ => ["status"; "repository_id"; "branch"; "tag"; "message"]
  | Invoke_delete_repo _ => ["status"; "repository_id"; "message"]
  | Invoke_get_repo_permissions _ => ["status"; "repository_id"; "object_id"; "object_type"; "permissions"; "count"]
  | Invoke_set_repo_permissions _ _ => ["status"; "repository_id"; "permissions_count"; "message"]
  | Invoke_update_repo_permissions _ _ => ["status"; "repository_id"; "permissions_count"; "message"]
  | Invoke_get_workspace_permissions _ _ => ["status"; "object_type"; "object_id"; "permissions"; "count"]
  | Invoke_set_workspace_permissions _ _ _ => ["status"; "object_type"; "object_id"; "permissions_count"; "message"]
  | Invoke_update_workspace_permissions _ _ _ => ["status"; "object_type"; "object_id"; "permissions_count"; "message"]
  | Invoke_get_current_user => ["status"; "current_user"]
  | Invoke_get_workspace_settings => ["status"; "workspace_settings"]
  | Invoke_update_token_management_settings _ => ["status"; "message"]
  | Invoke_update_ip_access_list_settings _ => ["status"; "message"]
  end.

(** For a handler that returns a sequence: the key of the envelope that
    holds it. *)
Definition sequence_key (r : request) : option string :=
  match r with
  | Invoke_list_clusters => Some "clusters"
  | Invoke_get_cluster_events _ _ _ _ _ => Some "events"
  | Invoke_list_instance_pools => Some "instance_pools"
  | Invoke_list_cluster_libraries _ => Some "libraries"
  | Invoke_list_all_cluster_libraries => Some "cluster_libraries"
  | Invoke_list_cluster_policies => Some "policies"
  | Invoke_list_node_types => Some "node_types"
  | Invoke_list_spark_versions => Some "spark_versions"
  | Invoke_list_system_schemas => Some "system_schemas"
  | Invoke_list_quality_monitors _ => Some "monitors"
  | Invoke_list_models => Some "models"
  | Invoke_list_model_versions _ => Some "versions"
  | Invoke_list_experiments => Some "experiments"
  | Invoke_search_runs _ _ _ _ => Some "runs"
  | Invoke_list_secret_scopes => Some "scopes"
  | Invoke_list_secrets _ => Some "secrets"
  | Invoke_list_secret_acls _ => Some "acls"
  | Invoke_list_users => Some "users"
  | Invoke_list_groups => Some "groups"
  | Invoke_list_service_principals => Some "service_principals"
  | Invoke_list_tokens => Some "tokens"
  | Invoke_list_ip_access_lists => Some "ip_access_lists"
  | Invoke_list_workspace_objects _ => Some "objects"
  | Invoke_list_repos => Some "repositories"
  | Invoke_get_repo_permissions _ => Some "permissions"
  | Invoke_get_workspace_permissions _ _ => Some "permissions"
  | _ => None
  end.

(** The key under which a handler reports the length of that sequence. *)
Definition count_key (r : request) : string :=
  match r with
  | Invoke_list_all_cluster_libraries => "clusters_count"
  | _ => "count"
  end.

(** The keyword under which the handler would forward [name] to the SDK,
    when the request leaves the parameter out. *)
Definition unset {A : Type} (keyword : string) (o : option A) : list string :=
  match o with
  | Some _ => []
  | None => [keyword]
  end.

(** The parameters declared with default [None] that a request leaves
    unset, each by the keyword its handler forwards it under (its own name,
    but for [filter_string], forwarded as [filter]). *)
Definition unset_optionals (r : request) : list string :=
  match r with
  | Invoke_get_cluster_events _ start_time end_time _ _ =>
      unset "start_time" start_time ++ unset "end_time" end_time
  | Invoke_query_audit_logs _ _ service_name action_name _ =>
      unset "service_name" service_name ++ unset "action_name" action_name
  | Invoke_query_column_lineage _ column_name => unset "column_name" column_name
  | Invoke_query_workspace_objects object_type _ => unset "object_type" object_type
  | Invoke_query_permissions_changes principal _ => unset "principal" principal
  | Invoke_query_compute_usage _ _ cluster_id => unset "cluster_id" cluster_id
  | Invoke_list_quality_monitors catalog_name => unset "catalog_name" catalog_name
  | Invoke_create_model _ description tags =>
      unset "description" description ++ unset "tags" tags
  | Invoke_update_model _ description => unset "description" description
  | Invoke_create_model_version _ _ run_id description tags =>
      unset "run_id" run_id ++ unset "description" description ++ unset "tags" tags
  | Invoke_update_model_version _ _ description stage =>
      unset "description" description ++ unset "stage" stage
  | Invoke_create_experiment _ artifact_location tags =>
      unset "artifact_location" artifact_location ++ unset "tags" tags
  | Invoke_update_experiment _ new_name => unset "new_name" new_name
  | Invoke_search_runs _ filter_string _ _ => unset "filter" filter_string
  | Invoke_create_token comment lifetime_seconds =>
      unset "comment" comment ++ unset "lifetime_seconds" lifetime_seconds
  | Invoke_update_repo _ branch tag => unset "branch" branch ++ unset "tag" tag
  | _ => []
  end.

(** The calls a run adds to the record. *)
Definition trace (E : env) (r : request) (st : state) : list event :=
  skipn (List.length (calls st)) (calls (snd (run E r st))).

(** The exceptions raised during a run, caught or not. *)
Definition raised_by (E : env) (r : request) (st : state) : list exc :=
  skipn (List.length (raised st)) (raised (snd (run E r st))).

(** What a run returns. *)
Definition result (E : env) (r : request) (st : state) : outcome val :=
  fst (run E r st).

(** A state before any request. *)
Definition fresh : state := mkState [] (fun _ => []) [].

(** * Specification

    What the claims about the handlers talk about: the shape of an envelope,
    the exceptions a run raises, the calls it makes, and the worlds used as
    examples. *)

(** ** Envelopes *)

(** A decidable check that the keys of a display are pairwise distinct. *)
Fixpoint distinct (l : list string) : bool :=
  match l with
  | [] => true
  | k :: rest => negb (existsb (String.eqb k) rest) && distinct rest
  end.

(** A success envelope of the tool that [r] asks for: the status, the keys
    of the tool's [return] display, and for a tool that returns a sequence,
    its length under the count key. *)
Definition success_shape (r : request) (d : dict) : Prop :=
  lookup "status" d = Some (VStr "success") /\
  keys d = output_keys r /\
  match sequence_key r with
  | Some k =>
      exists l, lookup k d = Some (VList l) /\
                lookup (count_key r) d = Some (VInt (Z.of_nat (List.length l)))
  | None => True
  end.

(** The one envelope with status "error" that a handler builds outside its
    [except] clause: the lineage query asked for no direction. *)
Definition refused : val :=
  VDict [("status", VStr "error");
         ("message", VStr "Must specify upstream or downstream lineage")].

Definition refusal (r : request) (d : dict) : Prop :=
  match r with
  | Invoke_query_table_lineage _ false false => VDict d = refused
  | _ => False
  end.

(** What the [try] block of the handler of [r] returns, when it returns. *)
Definition body_shape (r : request) (v : val) : Prop :=
  exists d, v = VDict d /\ (success_shape r d \/ refusal r d).





(** ** Statements: what they return, which exceptions they raise *)

Definition yields {A : Type} (P : A -> Prop) (m : exec A) : Prop :=
  forall st a st', m st = (Ok a, st') -> P a.

(** A statement that catches nothing: it raises at most once, and then it
    ends with that exception. *)
Definition strict {A : Type} (m : exec A) : Prop :=
  forall st,
    match m st with
    | (Ok _, st') => raised st' = raised st
    | (Raise e, st') => raised st' = raised st ++ [e]
    end.

(** Any statement: an exception it ends with is the last one raised. *)
Definition traced {A : Type} (m : exec A) : Prop :=
  forall st,
    match m st with
    | (Ok _, st') => exists new, raised st' = raised st ++ new
    | (Raise e, st') => exists earlier, raised st' = raised st ++ earlier ++ [e]
    end.

(** The handlers whose [try] block holds a [try] of its own. *)
Definition inner_try (r : request) : bool :=
  match r with
  | Invoke_list_system_schemas
  | Invoke_export_workspace_object _ _
  | Invoke_get_workspace_settings => true
  | _ => false
  end.

(** ** Concrete worlds *)

(** An SDK whose client is built by [client] and whose API methods answer
    by [answer]. *)
Definition sdk (client : outcome val) (answer : call -> outcome val) : env :=
  mkEnv client answer (fun _ => "<object>") (fun _ => true).

Definition a_client : val := VObj "WorkspaceClient" [].

(** No credentials: [WorkspaceClient()] raises. *)
Definition env_no_credentials : env :=
  sdk (Raise (mkExc "ValueError" "default auth: cannot configure default credentials"))
      (fun _ => Ok VNone).


(** Every API method is refused. *)
Definition env_forbidden : env :=
  sdk (Ok a_client)
      (fun _ => Raise (mkExc "PermissionDenied"
                         "User does not have USE CATALOG on Catalog 'system'.")).

(** Every API method answers with an empty list. *)
Definition env_empty : env := sdk (Ok a_client) (fun _ => Ok (VList [])).


(** A scope with two secrets. *)
Definition env_two_secrets : env :=
  sdk (Ok a_client)
      (fun _ => Ok (VList [
         VObj "SecretMetadata"
           [("key", VStr "db-password"); ("last_updated_timestamp", VInt 1718000000000)];
         VObj "SecretMetadata"
           [("key", VStr "api-token"); ("last_updated_timestamp", VNone)]])).

(** A caller that owns one configuration, at location 0. *)
Definition one_config : state :=
  mkState [] (fun _ => [("num_workers", VInt 4); ("spark_version", VStr "15.4.x-scala2.12")]) [].

(** ** The claims as the specification states them *)




(** A parameter left unset is no keyword of any call. *)
Definition omission_contract (E : env) (r : request) (st : state) : Prop :=
  forall k c,
    In k (unset_optionals r) ->
    In (EApi c) (trace E r st) ->
    lookup k (kwargs c) = None.

(** The key 'count' holds the length of the returned sequence. *)
Definition count_contract (E : env) (r : request) (st : state) : Prop :=
  forall k d,
    sequence_key r = Some k ->
    result E r st = Ok (VDict d) ->
    lookup "status" d = Some (VStr "success") ->
    exists l, lookup k d = Some (VList l) /\
              lookup "count" d = Some (VInt (Z.of_nat (List.length l))).

(** A lineage query without direction is refused, and no API method is
    called. *)
Definition lineage_contract (E : env) (table_name : string) (st : state) : Prop :=
  result E (Invoke_query_table_lineage table_name false false) st = Ok refused /\
  forall c, ~ In (EApi c) (trace E (Invoke_query_table_lineage table_name false false) st).

(** ** Submitted statements *)

(** The tools [governance.py] registers. *)
Definition governance_tools : list string :=
  ["list_system_schemas"; "query_audit_logs"; "query_table_lineage";
   "query_column_lineage"; "query_table_usage"; "query_workspace_objects";
   "query_permissions_changes"; "query_compute_usage"; "query_storage_usage";
   "list_quality_monitors"; "get_quality_monitor_status"].

(** The governance tools that build a statement from their arguments. *)
Definition query_tools : list string :=
  ["query_audit_logs"; "query_table_lineage"; "query_column_lineage";
   "query_table_usage"; "query_workspace_objects"; "query_permissions_changes";
   "query_compute_usage"; "query_storage_usage"].

(** The call that submits [statement] for execution. *)
Definition execute_statement (client : val) (statement : string) : event :=
  EApi (mkCall client "statement_execution.execute_statement" []
          [("statement", VStr statement); ("warehouse_id", VNone)]).

(** The statement an event submits for execution, if it submits one. *)
Definition statement_of (ev : event) : list string :=
  match ev with
  | EApi c =>
      if String.eqb (method c) "statement_execution.execute_statement"
      then match lookup "statement" (kwargs c) with
           | Some (VStr q) => [q]
           | _ => []
           end
      else []
  | EClient => []
  end.

(** The statements a run submits. *)
Definition statements (E : env) (r : request) (st : state) : list string :=
  flat_map statement_of (trace E r st).

(** The strings the caller supplies to a governance tool. *)
Definition text_arguments (r : request) : list string :=
  let given (o : option string) := match o with Some s => [s] | None => [] end in
  match r with
  | Invoke_query_audit_logs start_date end_date service_name action_name _ =>
      [start_date; end_date] ++ given service_name ++ given action_name
  | Invoke_query_table_lineage table_name _ _ => [table_name]
  | Invoke_query_column_lineage table_name column_name => table_name :: given column_name
  | Invoke_query_table_usage table_name _ => [table_name]
  | Invoke_query_workspace_objects object_type _ => given object_type
  | Invoke_query_permissions_changes principal _ => given principal
  | Invoke_query_compute_usage start_date end_date cluster_id =>
      [start_date; end_date] ++ given cluster_id
  | Invoke_query_storage_usage start_date end_date => [start_date; end_date]
  | Invoke_list_quality_monitors catalog_name => given catalog_name
  | Invoke_get_quality_monitor_status table_name => [table_name]
  | _ => []
  end.

(** [s] stands in [t] as it is. *)
Definition verbatim (s t : string) : Prop :=
  exists before after, t = (before ++ s ++ after)%string.

(** A tool builds its statement by interpolation: whatever text the caller
    supplies, quotes included, stands unchanged in a statement it submits. *)
Definition interpolates (tool : string) : Prop :=
  forall s : string,
    exists r, name_of r = tool /\ In s (text_arguments r) /\
      forall E client st, workspace_client E = Ok client ->
        exists q, In q (statements E r st) /\ verbatim s q.

(** Exactly two governance tools interpolate. *)
Definition two_tools_interpolate : Prop :=
  exists t1 t2, t1 <> t2 /\
    forall t, In t governance_tools -> (interpolates t <-> (t = t1 \/ t = t2)).

(** The statement [query_audit_logs] builds around its WHERE clause. *)
Definition audit_statement (where_clause : string) (limit : Z) : string :=
  "
            SELECT 
                event_time,
                event_date,
                workspace_id,
                account_id,
                user_identity,
                service_name,
                action_name,
                request_id,
                response,
                source_ip_address,
                user_agent
            FROM system.access.audit
            WHERE " ++ where_clause ++ "
            ORDER BY event_time DESC
            LIMIT " ++ decimal limit ++ "
            ".

(** The two date conditions, joined by AND. *)
Definition date_range (start_date end_date : string) : string :=
  "event_date >= '" ++ start_date ++ "' AND event_date <= '" ++ end_date ++ "'".

(** ** Configurations completed in place *)

(** The handlers that complete the caller's configuration with an
    identifier: the key they store, the identifier, where the
    configuration lives, and the API method that receives it. *)
Definition edits (r : request) : option (string * string * nat * string) :=
  match r with
  | Invoke_edit_cluster cluster_id cluster_config =>
      Some ("cluster_id", cluster_id, cluster_config, "clusters.edit")
  | Invoke_edit_instance_pool instance_pool_id pool_config =>
      Some ("instance_pool_id", instance_pool_id, pool_config, "instance_pools.edit")
  | Invoke_edit_cluster_policy policy_id policy_config =>
      Some ("policy_id", policy_id, policy_config, "cluster_policies.edit")
  | Invoke_update_ip_access_list list_id ip_config =>
      Some ("list_id", list_id, ip_config, "ip_access_lists.replace")
  | _ => None
  end.

(** * Further specification

    What the handlers do on the outside as a whole - the client they build,
    the calls they make, the dicts of the caller - and the places where a
    handler decides something itself. *)

(** ** Calls *)

(** An API call that the SDK answers. *)
Definition answered (E : env) (c : call) : Prop := exists v, respond E c = Ok v.

(** The handlers that do not make exactly one API call once they hold a
    client: [update_model_version] makes a second call for the stage,
    [get_workspace_settings] reads two settings, and the lineage query
    asked for no direction makes none. *)
Definition composite (r : request) : bool :=
  match r with
  | Invoke_update_model_version _ _ _ _
  | Invoke_get_workspace_settings
  | Invoke_query_table_lineage _ false false => true
  | _ => false
  end.

(** The handlers that catch the exception of an API call in a [try] of
    their own and go on to a success envelope. *)
Definition hides_failure (r : request) : bool :=
  match r with
  | Invoke_list_system_schemas
  | Invoke_get_workspace_settings => true
  | _ => false
  end.

(** ** Optional parameters given an empty value

    The handlers test an optional parameter with [if x:], so an empty
    string, a zero and an empty list count as left out. *)

Definition given_text (o : option string) : option string :=
  match o with
  | Some "" => None
  | _ => o
  end.




(** ** Configurations forwarded as keyword arguments *)

(** The handlers that forward a dict of the caller as the keyword arguments
    of their call without writing to it: where the dict lives, the API
    method, and the positional arguments that go before it. *)
Definition forwards (r : request) : option (nat * string * list val) :=
  match r with
  | Invoke_create_cluster cluster_config => Some (cluster_config, "clusters.create", [])
  | Invoke_create_instance_pool pool_config => Some (pool_config, "instance_pools.create", [])
  | Invoke_create_cluster_policy policy_config =>
      Some (policy_config, "cluster_policies.create", [])
  | Invoke_create_user user_config => Some (user_config, "users.create", [])
  | Invoke_update_user user_id user_config => Some (user_config, "users.patch", [VStr user_id])
  | Invoke_create_group group_config => Some (group_config, "groups.create", [])
  | Invoke_update_group group_id group_config =>
      Some (group_config, "groups.patch", [VStr group_id])
  | Invoke_create_service_principal sp_config =>
      Some (sp_config, "service_principals.create", [])
  | Invoke_update_service_principal sp_id sp_config =>
      Some (sp_config, "service_principals.patch", [VStr sp_id])
  | Invoke_create_ip_access_list ip_config => Some (ip_config, "ip_access_lists.create", [])
  | Invoke_create_repo repo_config => Some (repo_config, "repos.create", [])
  | Invoke_update_token_management_settings token_config =>
      Some (token_config, "settings.update_token_management", [])
  | Invoke_update_ip_access_list_settings ip_config =>
      Some (ip_config, "settings.update_ip_access_list", [])
  | _ => None
  end.

(** ** Listings *)

(** The handlers that list what one API method yields, a record per item:
    the method and its arguments.  [list_quality_monitors] skips items and
    [list_system_schemas] may answer with its fixed list; they are not
    among them. *)
Definition listing (r : request) : option (string * list val * list (string * val)) :=
  match r with
  | Invoke_list_clusters => Some ("clusters.list", [], [])
  | Invoke_list_instance_pools => Some ("instance_pools.list", [], [])
  | Invoke_list_all_cluster_libraries => Some ("libraries.all_cluster_statuses", [], [])
  | Invoke_list_cluster_policies => Some ("cluster_policies.list", [], [])
  | Invoke_list_models => Some ("model_registry.list_models", [], [])
  | Invoke_list_model_versions model_name =>
      Some ("model_registry.list_model_versions", [VStr model_name], [])
  | Invoke_list_experiments => Some ("experiments.list_experiments", [], [])
  | Invoke_list_secret_scopes => Some ("secrets.list_scopes", [], [])
  | Invoke_list_secrets scope_name =>
      Some ("secrets.list_secrets", [], [("scope", VStr scope_name)])
  | Invoke_list_secret_acls scope_name =>
      Some ("secrets.list_acls", [], [("scope", VStr scope_name)])
  | Invoke_list_users => Some ("users.list", [], [])
  | Invoke_list_groups => Some ("groups.list", [], [])
  | Invoke_list_service_principals => Some ("service_principals.list", [], [])
  | Invoke_list_tokens => Some ("tokens.list", [], [])
  | Invoke_list_ip_access_lists => Some ("ip_access_lists.list", [], [])
  | Invoke_list_workspace_objects path => Some ("workspace.list", [VStr path], [])
  | Invoke_list_repos => Some ("repos.list", [], [])
  | _ => None
  end.

(** The handlers that read a sequence off an attribute of the response and
    test it first ([if response.items:]): the attribute. *)
Definition optional_sequence (r : request) : option string :=
  match r with
  | Invoke_get_cluster_events _ _ _ _ _ => Some "events"
  | Invoke_list_cluster_libraries _ => Some "library_statuses"
  | Invoke_list_node_types => Some "node_types"
  | Invoke_list_spark_versions => Some "versions"
  | Invoke_search_runs _ _ _ _ => Some "runs"
  | Invoke_get_repo_permissions _ => Some "access_control_list"
  | Invoke_get_workspace_permissions _ _ => Some "access_control_list"
  | _ => None
  end.

(** The clusters API answers without events. *)
Definition env_no_events : env :=
  sdk (Ok a_client)
      (fun _ => Ok (VObj "GetEventsResponse"
                      [("events", VNone); ("next_page", VNone); ("total_count", VInt 0)])).

(** A listing one of whose items is None. *)
Definition env_scope_and_none : env :=
  sdk (Ok a_client)
      (fun _ => Ok (VList [VObj "SecretScope" [("name", VStr "prod"); ("backend_type", VNone)];
                           VNone])).

(** ** Records *)


(** ** The records of [list_all_cluster_libraries] *)

(** The record [item] shows the libraries of the cluster [status]: its
    identifier, and a list with an entry for each library status, empty
    when the cluster has none. *)
Definition shows_libraries (status item : val) : Prop :=
  exists id libraries,
    getattr status "cluster_id" = Ok id /\
    item = VDict [("cluster_id", id); ("library_statuses", VList libraries)] /\
    forall x, getattr status "library_statuses" = Ok x ->
      (truthy x = false -> libraries = []) /\
      (forall l, truthy x = true -> iterate x = Ok l ->
         List.length libraries = List.length l).

(** Two clusters: one with a library, one without library statuses. *)
Definition env_two_clusters : env :=
  sdk (Ok a_client)
      (fun _ => Ok (VList [
         VObj "ClusterLibraryStatuses"
           [("cluster_id", VStr "0923-164208-meows279");
            ("library_statuses",
             VList [VObj "LibraryFullStatus"
                      [("library", VNone); ("status", VNone); ("messages", VNone);
                       ("is_library_for_all_clusters", VBool false)]])];
         VObj "ClusterLibraryStatuses"
           [("cluster_id", VStr "1104-091500-purrs481"); ("library_statuses", VNone)]])).

(** ** Handlers that decide something themselves *)



(** The two settings [get_workspace_settings] reads. *)
Definition token_management_call (client : val) : call :=
  mkCall client "settings.get_token_management" [] [].

Definition ip_access_list_call (client : val) : call :=
  mkCall client "settings.get_ip_access_list" [] [].

(** Whether a call is answered with a value that is true. *)
Definition truthy_answer (E : env) (c : call) : bool :=
  match respond E c with
  | Ok v => truthy v
  | Raise _ => false
  end.

(** The two calls of [update_model_version]: the update, with the
    description when one is given, and the stage transition. *)
Definition version_update_call (client : val) (model_name version : string)
  (description : option string) : call :=
  mkCall client "model_registry.update_model_version" []
    ([("name", VStr model_name); ("version", VStr version)] ++
     match given_text description with
     | Some text => [("description", VStr text)]
     | None => []
     end).

Definition stage_transition_call (client : val) (model_name version stage : string) : call :=
  mkCall client "model_registry.transition_model_version_stage" []
    [("name", VStr model_name); ("version", VStr version); ("stage", VStr stage)].


(** The update of a model version goes through, the stage transition is
    refused. *)
Definition env_stage_refused : env :=
  sdk (Ok a_client)
      (fun c =>
         if String.eqb (method c) "model_registry.transition_model_version_stage"
         then Raise (mkExc "InvalidParameterValue" "Invalid stage: Prod")
         else Ok VNone).

(** ** The two answers of [list_system_schemas] *)



(** ** The catalog filter of [list_quality_monitors] *)

(** Whether [list_quality_monitors] keeps a monitor: no catalog is asked
    for, or the table name of the monitor starts with the catalog and a
    dot. *)
Definition in_catalog (catalog_name : option string) (monitor : val) : bool :=
  match given_text catalog_name with
  | None => true
  | Some catalog =>
      match getattr monitor "table_name" with
      | Ok (VStr table) => String.prefix (catalog ++ ".") table
      | _ => false
      end
  end.

(** The record [item] reports the monitor: it is a dict that holds the
    table name of the monitor. *)
Definition reports (monitor item : val) : Prop :=
  exists fields table,
    item = VDict fields /\
    getattr monitor "table_name" = Ok table /\
    lookup "table_name" fields = Some table.

(** Three monitors, in two catalogs. *)
Definition env_monitors : env :=
  let monitor (table : string) :=
    VObj "MonitorInfo"
      [("table_name", VStr table); ("monitor_version", VStr "1"); ("status", VStr "ACTIVE");
       ("profile_type", VNone); ("output_schema_name", VNone); ("created_by", VNone);
       ("created_time", VNone); ("updated_by", VNone); ("updated_time", VNone)] in
  sdk (Ok a_client)
      (fun _ => Ok (VList [monitor "main.sales.orders"; monitor "main_dev.tmp.scratch";
                           monitor "main.hr.people"])).

(** ** Statements of the governance queries *)

(** The statement [query_table_lineage] builds around its WHERE clause. *)
Definition lineage_statement (where_clause : string) : string :=
  "
            SELECT 
                source_table_full_name,
                target_table_full_name,
                source_table_catalog,
                source_table_schema,
                source_table_name,
                target_table_catalog,
                target_table_schema,
                target_table_name,
                created_at,
                created_by
            FROM system.access.table_lineage
            WHERE " ++ where_clause ++ "
            ORDER BY created_at DESC
            ".

(** The conditions of [query_table_lineage]: upstream lineage asks for the
    rows whose target is the table, downstream lineage for the rows whose
    source it is. *)
Definition lineage_conditions (table_name : string) (upstream downstream : bool)
  : list string :=
  (if upstream then [("target_table_full_name = '" ++ table_name ++ "'")%string] else []) ++
  (if downstream then [("source_table_full_name = '" ++ table_name ++ "'")%string] else []).

(** The conditions of [query_audit_logs]: the two dates, then a condition
    for each filter that is given and not empty. *)
Definition audit_conditions (start_date end_date : string)
  (service_name action_name : option string) : list string :=
  [("event_date >= '" ++ start_date ++ "'")%string;
   ("event_date <= '" ++ end_date ++ "'")%string] ++
  match given_text service_name with
  | Some service => [("service_name = '" ++ service ++ "'")%string]
  | None => []
  end ++
  match given_text action_name with
  | Some action => [("action_name = '" ++ action ++ "'")%string]
  | None => []
  end.

(** The warehouse accepts every statement. *)
Definition env_warehouse : env :=
  sdk (Ok a_client)
      (fun _ => Ok (VObj "StatementResponse" [("statement_id", VStr "01ef-7c1d")])).

(** ** Member lists of a record *)

(** The handlers that return one record with lists of members, each made
    by [[m.dict() for m in obj.members] if obj.members else None]: the key
    of the envelope that holds the record, and the attributes so listed. *)
Definition member_lists (r : request) : option (string * list string) :=
  match r with
  | Invoke_get_cluster _ => Some ("cluster", ["init_scripts"])
  | Invoke_get_instance_pool _ => Some ("instance_pool", ["preloaded_docker_images"])
  | Invoke_get_model _ => Some ("model", ["latest_versions"; "tags"])
  | Invoke_get_model_version _ _ => Some ("model_version", ["tags"])
  | Invoke_get_experiment _ => Some ("experiment", ["tags"])
  | Invoke_get_user _ => Some ("user", ["emails"; "groups"; "roles"])
  | Invoke_get_group _ => Some ("group", ["members"; "groups"; "roles"])
  | Invoke_get_service_principal _ => Some ("service_principal", ["groups"; "roles"])
  | Invoke_get_current_user => Some ("current_user", ["emails"; "groups"; "roles"])
  | _ => None
  end.

(** A user without emails, in one group. *)
Definition env_one_user : env :=
  sdk (Ok a_client)
      (fun _ => Ok (VObj "User"
         [("id", VStr "4711"); ("user_name", VStr "ada@example.com");
          ("display_name", VStr "Ada"); ("active", VBool true);
          ("emails", VList []);
          ("groups", VList [VObj "ComplexValue"
                              [("dict", VMethod None (VDict [("display", VStr "admins")]))]]);
          ("roles", VNone); ("schemas", VNone)])).


(** * Theory *)

(** ** Dicts and displays *)

Lemma lookup_dict_set_same (d : dict) (k : string) (v : val) :
  lookup k (dict_set d k v) = Some v.
Proof.
  induction d as [| [k' v'] rest IH]; simpl.
  - now rewrite String.eqb_refl.
  - destruct (String.eqb k k') eqn:Hk; simpl; rewrite Hk; [reflexivity | exact IH].
Qed.

Lemma lookup_dict_set_other (d : dict) (k k' : string) (v : val) :
  k' <> k -> lookup k' (dict_set d k v) = lookup k' d.
Proof.
  intros Hne.
  induction d as [| [k0 v0] rest IH]; simpl.
  - destruct (String.eqb_spec k' k); [contradiction | reflexivity].
  - destruct (String.eqb_spec k k0) as [-> | Hk]; simpl.
    + destruct (String.eqb_spec k' k0); [contradiction | reflexivity].
    + destruct (String.eqb_spec k' k0); [reflexivity | exact IH].
Qed.

Lemma dict_set_fresh (d : dict) (k : string) (v : val) :
  ~ In k (keys d) -> dict_set d k v = d ++ [(k, v)].
Proof.
  induction d as [| [k' v'] rest IH]; simpl; intros Hk.
  - reflexivity.
  - destruct (String.eqb_spec k k') as [-> | Hne].
    + exfalso. apply Hk. now left.
    + f_equal. apply IH. intros Hin. apply Hk. now right.
Qed.

Lemma fold_dict_set_nodup (kvs acc : list (string * val)) :
  NoDup (keys (acc ++ kvs)) ->
  fold_left (fun d kv => dict_set d (fst kv) (snd kv)) kvs acc = acc ++ kvs.
Proof.
  revert acc.
  induction kvs as [| [k v] rest IH]; intros acc Hnd; simpl.
  - now rewrite app_nil_r.
  - assert (Hfresh : ~ In k (keys acc)).
    { unfold keys in *. rewrite map_app in Hnd. simpl in Hnd.
      apply NoDup_remove_2 in Hnd. intros Hin. apply Hnd.
      apply in_or_app. now left. }
    rewrite (dict_set_fresh acc k v Hfresh).
    rewrite IH; rewrite <- app_assoc; simpl; [reflexivity | exact Hnd].
Qed.

Lemma dict_of_items_nodup (kvs : list (string * val)) :
  NoDup (keys kvs) -> dict_of_items kvs = kvs.
Proof.
  intros Hnd. unfold dict_of_items. now rewrite fold_dict_set_nodup.
Qed.

Lemma lookup_in_nodup (d : dict) (k : string) (x : val) :
  NoDup (keys d) -> In (k, x) d -> lookup k d = Some x.
Proof.
  induction d as [| [k' v'] rest IH]; simpl; intros Hnd Hin; [contradiction |].
  inversion Hnd as [| ? ? Hfresh Hrest]; subst.
  destruct Hin as [Heq | Hin].
  - inversion Heq; subst. now rewrite String.eqb_refl.
  - destruct (String.eqb_spec k k') as [-> | Hne].
    + exfalso. apply Hfresh. unfold keys. change k' with (fst (k', x)).
      now apply in_map.
    + now apply IH.
Qed.

Lemma distinct_NoDup (l : list string) : distinct l = true -> NoDup l.
Proof.
  induction l as [| k rest IH]; simpl; intros H; constructor.
  - apply andb_true_iff in H. destruct H as [H _].
    apply negb_true_iff in H. intros Hin.
    assert (existsb (String.eqb k) rest = true) as Hex.
    { apply existsb_exists. exists k. split; [exact Hin | apply String.eqb_refl]. }
    congruence.
  - apply IH. apply andb_true_iff in H. tauto.
Qed.

Lemma eval_items_keys (fs : list (string * outcome val)) (kvs : list (string * val)) :
  eval_items fs = Ok kvs -> keys kvs = map fst fs.
Proof.
  revert kvs.
  induction fs as [| [k e] rest IH]; simpl; intros kvs H.
  - inversion H. reflexivity.
  - destruct e as [v | ex]; simpl in H; [| discriminate].
    destruct (eval_items rest) as [kvs' | ex]; simpl in H; [| discriminate].
    inversion H; subst. simpl. f_equal. now apply IH.
Qed.

(** The entries of a display, one by one. *)
Lemma eval_items_entry (fs : list (string * outcome val)) (kvs : list (string * val))
  (k : string) (e : outcome val) :
  eval_items fs = Ok kvs -> In (k, e) fs -> exists x, e = Ok x /\ In (k, x) kvs.
Proof.
  revert kvs.
  induction fs as [| [k' e'] rest IH]; simpl; intros kvs H Hin; [contradiction |].
  destruct e' as [v | ex]; simpl in H; [| discriminate].
  destruct (eval_items rest) as [kvs' | ex]; simpl in H; [| discriminate].
  injection H as <-.
  destruct Hin as [Heq | Hin].
  - injection Heq as <- <-. exists v. split; [reflexivity | now left].
  - destruct (IH kvs' eq_refl Hin) as (x & Hx & Hin').
    exists x. split; [exact Hx | now right].
Qed.

Lemma dict_lit_entry (fs : list (string * outcome val)) (d : dict) (k : string)
  (e : outcome val) :
  distinct (map fst fs) = true ->
  dict_lit fs = Ok (VDict d) ->
  In (k, e) fs ->
  exists x, e = Ok x /\ lookup k d = Some x.
Proof.
  intros Hd H Hin. unfold dict_lit in H.
  destruct (eval_items fs) as [kvs | ex] eqn:Hev; simpl in H; [| discriminate].
  injection H as <-.
  pose proof (eval_items_keys _ _ Hev) as Hk.
  assert (NoDup (keys kvs)) as Hnd by (rewrite Hk; now apply distinct_NoDup).
  rewrite (dict_of_items_nodup _ Hnd).
  destruct (eval_items_entry _ _ _ _ Hev Hin) as (x & Hx & Hin').
  exists x. split; [exact Hx | now apply lookup_in_nodup].
Qed.

(** What a display with distinct keys evaluates to: its keys in order, and
    under each key whose expression is a value, that value. *)
Lemma dict_lit_fields (fs : list (string * outcome val)) (v : val) :
  distinct (map fst fs) = true ->
  dict_lit fs = Ok v ->
  exists d, v = VDict d /\ keys d = map fst fs /\
    forall k x, In (k, Ok x) fs -> lookup k d = Some x.
Proof.
  intros Hd H.
  assert (exists d, v = VDict d) as [d ->].
  { unfold dict_lit in H. destruct (eval_items fs); simpl in H; [| discriminate].
    injection H as <-. now eexists. }
  exists d. split; [reflexivity |]. split.
  - unfold dict_lit in H.
    destruct (eval_items fs) as [kvs | ex] eqn:Hev; simpl in H; [| discriminate].
    injection H as <-.
    pose proof (eval_items_keys _ _ Hev) as Hk.
    rewrite dict_of_items_nodup; [exact Hk |].
    rewrite Hk. now apply distinct_NoDup.
  - intros k x Hin.
    destruct (dict_lit_entry fs d k (Ok x) Hd H Hin) as (y & Hy & Hlook).
    now injection Hy as ->.
Qed.


Lemma for_each_Forall2 (l : list val) (f : val -> outcome val) (ys : list val) :
  for_each l f = Ok ys -> Forall2 (fun x y => f x = Ok y) l ys.
Proof.
  revert ys.
  induction l as [| x rest IH]; simpl; intros ys H.
  - injection H as <-. constructor.
  - destruct (f x) as [y | ex] eqn:Hy; simpl in H; [| discriminate].
    destruct (for_each rest f) as [ys' | ex]; simpl in H; [| discriminate].
    injection H as <-. constructor; [exact Hy | now apply IH].
Qed.

Lemma list_of_is_list (o : outcome val) (v : val) :
  list_of o = Ok v -> exists l, v = VList l.
Proof.
  unfold list_of, py_list. destruct o as [x | ex]; simpl; [| discriminate].
  destruct (iterate x) as [l | ex]; simpl; [| discriminate].
  intros H. inversion H. now exists l.
Qed.

Lemma collect_is_list (o : outcome val) (f : val -> outcome val) (v : val) :
  collect o f = Ok v -> exists l, v = VList l.
Proof.
  unfold collect. destruct o as [x | ex]; simpl; [| discriminate].
  destruct (iterate x) as [l | ex]; simpl; [| discriminate].
  destruct (for_each l f) as [ys | ex]; simpl; [| discriminate].
  intros H. inversion H. now exists ys.
Qed.

Lemma collect_some_is_list (o : outcome val) (f : val -> outcome (option val)) (v : val) :
  collect_some o f = Ok v -> exists l, v = VList l.
Proof.
  unfold collect_some. destruct o as [x | ex]; simpl; [| discriminate].
  destruct (iterate x) as [l | ex]; simpl; [| discriminate].
  destruct (for_each_some l f) as [ys | ex]; simpl; [| discriminate].
  intros H. inversion H. now exists ys.
Qed.

Lemma guarded_collect_is_list (c : bool) (o : outcome val) (f : val -> outcome val) (v : val) :
  (if c then collect o f else Ok (VList [])) = Ok v -> exists l, v = VList l.
Proof.
  destruct c; [apply collect_is_list |].
  intros H. inversion H. now exists [].
Qed.

Lemma skipn_length_app {A : Type} (l new : list A) :
  skipn (List.length l) (l ++ new) = new.
Proof. induction l as [| x l IH]; simpl; [reflexivity | exact IH]. Qed.

Lemma append_assoc (a b c : string) : ((a ++ b) ++ c)%string = (a ++ (b ++ c))%string.
Proof. induction a as [| x a IH]; simpl; [reflexivity | now rewrite IH]. Qed.

(** ** What a statement returns *)

Lemma yields_bind {A B : Type} (P : B -> Prop) (m : exec A) (k : A -> exec B) :
  (forall a, yields P (k a)) -> yields P (bind m k).
Proof.
  intros H st b st' Heq. unfold bind in Heq.
  destruct (m st) as [[a | e] st1]; [| discriminate].
  exact (H a st1 b st' Heq).
Qed.

Lemma yields_bind_lift {A B : Type} (P : B -> Prop) (o : outcome A) (k : A -> exec B) :
  (forall a, o = Ok a -> yields P (k a)) -> yields P (bind (lift o) k).
Proof.
  intros H st b st' Heq. unfold bind, lift in Heq.
  destruct o as [a | e]; simpl in Heq; [| discriminate].
  exact (H a eq_refl st b st' Heq).
Qed.

Lemma yields_lift {A : Type} (P : A -> Prop) (o : outcome A) :
  (forall a, o = Ok a -> P a) -> yields P (lift o).
Proof.
  intros H st a st' Heq. unfold lift in Heq.
  destruct o as [a0 | e]; simpl in Heq; [| discriminate].
  inversion Heq; subst. now apply H.
Qed.

Lemma yields_try_except {A : Type} (P : A -> Prop) (m : exec A) (h : exc -> exec A) :
  yields P m -> (forall e, yields P (h e)) -> yields P (try_except m h).
Proof.
  intros Hm Hh st a st' Heq. unfold try_except in Heq.
  destruct (m st) as [[a0 | e] st1] eqn:Hrun.
  - inversion Heq; subst. exact (Hm st a st' Hrun).
  - exact (Hh e st1 a st' Heq).
Qed.

(** Finds the entry of a display that a goal [In (k, e) fields] asks for. *)
Ltac find_field := repeat first [ left; reflexivity | right ].

(** Learns that a value bound to the result of [list(...)] or of a loop is
    a list. *)
Ltac list_shape H :=
  first
    [ apply list_of_is_list in H
    | apply collect_is_list in H
    | apply collect_some_is_list in H
    | apply guarded_collect_is_list in H ];
  let l := fresh "l" in
  destruct H as [l H]; subst.

(** The last statement of a handler: [return {'status': 'success', ...}]. *)
Ltac returned_display :=
  apply yields_lift;
  let v := fresh "v" in
  let Hv := fresh "Hv" in
  intros v Hv;
  apply dict_lit_fields in Hv; [| reflexivity];
  let d := fresh "d" in
  let Hk := fresh "Hk" in
  let Hf := fresh "Hf" in
  destruct Hv as (d & -> & Hk & Hf);
  exists d; split; [reflexivity |]; left;
  split; [apply Hf; find_field |];
  split; [rewrite Hk; reflexivity |];
  first [ exact I | eexists; split; apply Hf; find_field ].

Ltac shape_step :=
  lazymatch goal with
  | |- yields _ (bind (lift _) _) =>
      let a := fresh "a" in
      let H := fresh "H" in
      apply yields_bind_lift; intros a H; cbv beta; try list_shape H
  | |- yields _ (bind _ _) => let a := fresh "a" in apply yields_bind; intros a; cbv beta
  | |- yields _ (try_except _ _) => apply yields_try_except; [| intros ?]
  | |- yields _ (if ?c then _ else _) => destruct c
  | |- yields _ (lift (dict_lit _)) => returned_display
  end.

(** As [shape_step], for a handler whose expressions compute once its
    arguments are known. *)
Ltac computed_step :=
  lazymatch goal with
  | |- yields _ (bind (lift _) _) =>
      let a := fresh "a" in
      let H := fresh "H" in
      apply yields_bind_lift; intros a H; cbn in H; injection H as <-; cbn [truthy negb]
  | |- yields _ (bind _ _) => let a := fresh "a" in apply yields_bind; intros a; cbv beta
  | |- yields _ (lift (dict_lit _)) =>
      first
        [ returned_display
        | let Hv := fresh "Hv" in
          apply yields_lift; intros ? Hv; vm_compute in Hv; injection Hv as <-;
          eexists; split; [reflexivity |]; right; reflexivity ]
  end.

(** ** Which exceptions a statement raises *)

Lemma strict_traced {A : Type} (m : exec A) : strict m -> traced m.
Proof.
  intros H st. specialize (H st).
  destruct (m st) as [[a | e] st1].
  - exists []. now rewrite app_nil_r.
  - exists []. exact H.
Qed.

Lemma strict_ret {A : Type} (a : A) : strict (ret a).
Proof. intros st. reflexivity. Qed.

Lemma strict_throw {A : Type} (e : exc) : strict (@throw A e).
Proof. intros st. reflexivity. Qed.

Lemma strict_lift {A : Type} (o : outcome A) : strict (lift o).
Proof. destruct o; [apply strict_ret | apply strict_throw]. Qed.

Lemma strict_bind {A B : Type} (m : exec A) (k : A -> exec B) :
  strict m -> (forall a, strict (k a)) -> strict (bind m k).
Proof.
  intros Hm Hk st. unfold bind. specialize (Hm st).
  destruct (m st) as [[a | e] st1]; [| exact Hm].
  specialize (Hk a st1). destruct (k a st1) as [[b | e] st2]; congruence.
Qed.

Lemma strict_if {A : Type} (c : bool) (m1 m2 : exec A) :
  strict m1 -> strict m2 -> strict (if c then m1 else m2).
Proof. now destruct c. Qed.

Lemma strict_client (E : env) : strict (get_workspace_client E).
Proof. intros st. unfold get_workspace_client. now destruct (workspace_client E). Qed.

Lemma strict_api (E : env) (client : val) (path : string) (a : list val)
  (kw : list (string * val)) : strict (api E client path a kw).
Proof. intros st. unfold api. now destruct (respond E _). Qed.

Lemma strict_kwargs_of (d : val) : strict (kwargs_of d).
Proof. intros st. unfold kwargs_of. now destruct d. Qed.

Lemma strict_set_item (d : val) (k : string) (e : outcome val) : strict (set_item d k e).
Proof.
  unfold set_item. apply strict_bind; [apply strict_lift |].
  intros v st. now destruct d.
Qed.

Lemma traced_bind {A B : Type} (m : exec A) (k : A -> exec B) :
  traced m -> (forall a, traced (k a)) -> traced (bind m k).
Proof.
  intros Hm Hk st. unfold bind. specialize (Hm st).
  destruct (m st) as [[a | e] st1]; [| exact Hm].
  destruct Hm as [new1 H1]. specialize (Hk a st1).
  destruct (k a st1) as [[b | e] st2].
  - destruct Hk as [new2 H2]. exists (new1 ++ new2). now rewrite H2, H1, app_assoc.
  - destruct Hk as [earlier H2]. exists (new1 ++ earlier).
    now rewrite H2, H1, <- !app_assoc.
Qed.

Lemma traced_try_except {A : Type} (m : exec A) (h : exc -> exec A) :
  traced m -> (forall e, traced (h e)) -> traced (try_except m h).
Proof.
  intros Hm Hh st. unfold try_except. specialize (Hm st).
  destruct (m st) as [[a | e] st1]; [exact Hm |].
  destruct Hm as [earlier H1]. specialize (Hh e st1).
  destruct (h e st1) as [[b | e'] st2].
  - destruct Hh as [new2 H2]. exists ((earlier ++ [e]) ++ new2).
    now rewrite H2, H1, <- !app_assoc.
  - destruct Hh as [earlier2 H2]. exists ((earlier ++ [e]) ++ earlier2).
    now rewrite H2, H1, <- !app_assoc.
Qed.

Lemma traced_try_except_only {A : Type} (cls : string) (m h : exec A) :
  traced m -> traced h -> traced (try_except_only cls m h).
Proof.
  intros Hm Hh st. unfold try_except_only. specialize (Hm st).
  destruct (m st) as [[a | e] st1]; [exact Hm |].
  destruct (String.eqb (exc_class e) cls); [| exact Hm].
  destruct Hm as [earlier H1]. specialize (Hh st1).
  destruct (h st1) as [[b | e'] st2].
  - destruct Hh as [new2 H2]. exists ((earlier ++ [e]) ++ new2).
    now rewrite H2, H1, <- !app_assoc.
  - destruct Hh as [earlier2 H2]. exists ((earlier ++ [e]) ++ earlier2).
    now rewrite H2, H1, <- !app_assoc.
Qed.

Lemma traced_if {A : Type} (c : bool) (m1 m2 : exec A) :
  traced m1 -> traced m2 -> traced (if c then m1 else m2).
Proof. now destruct c. Qed.

Ltac strict_step :=
  lazymatch goal with
  | |- strict (bind _ _) => apply strict_bind; [| intros ?; cbv beta]
  | |- strict (lift _) => apply strict_lift
  | |- strict (ret _) => apply strict_ret
  | |- strict (get_workspace_client _) => apply strict_client
  | |- strict (api _ _ _ _ _) => apply strict_api
  | |- strict (kwargs_of _) => apply strict_kwargs_of
  | |- strict (set_item _ _ _) => apply strict_set_item
  | |- strict (if _ then _ else _) => apply strict_if
  end.

Ltac traced_step :=
  lazymatch goal with
  | |- traced (try_except _ _) => apply traced_try_except; [| intros ?]
  | |- traced (try_except_only _ _ _) => apply traced_try_except_only
  | |- traced (bind _ _) => apply traced_bind; [| intros ?; cbv beta]
  | |- traced (if _ then _ else _) => apply traced_if
  | |- traced _ => apply strict_traced; repeat strict_step
  end.

(** ** Every handler, at once *)

(** The [try] block of every handler: what it returns and what it raises. *)
Lemma run_body (E : env) (r : request) :
  exists body,
    run E r = guarded body /\
    yields (body_shape r) body /\
    traced body /\
    (inner_try r = false -> strict body).
Proof.
  destruct r; cbn [run inner_try]; eexists; (split; [reflexivity |]).
  all: split;
    [ first [ repeat shape_step; fail
            | destruct upstream, downstream; repeat computed_step ] |].
  all: first
    [ assert (forall A (m : exec A), strict m -> traced m /\ (false = false -> strict m))
        as Hs by (intros A m Hm; split; [now apply strict_traced | now intros _]);
      apply Hs; repeat strict_step; fail
    | split; [repeat traced_step | discriminate] ].
Qed.

(** How a run of any handler ends: its [try] block returned, or it raised
    and the [except] clause built the envelope from the exception. *)
Lemma run_cases (E : env) (r : request) (st : state) :
  (exists d, result E r st = Ok (VDict d) /\
             (success_shape r d \/ refusal r d) /\
             (inner_try r = false -> raised_by E r st = []))
  \/
  (exists e earlier, result E r st = Ok (error_envelope e) /\
                     raised_by E r st = earlier ++ [e] /\
                     (inner_try r = false -> earlier = [])).
Proof.
  destruct (run_body E r) as (body & Hrun & Hshape & Htraced & Hstrict).
  unfold result, raised_by. rewrite Hrun. unfold guarded, try_except.
  specialize (Hshape st). specialize (Htraced st).
  destruct (body st) as [[v | e] st1] eqn:Hbody; simpl.
  - left. destruct (Hshape v st1 eq_refl) as (d & -> & Hd).
    exists d. repeat split; [exact Hd |].
    intros Hin. specialize (Hstrict Hin st). rewrite Hbody in Hstrict.
    rewrite Hstrict. rewrite <- (app_nil_r (raised st)) at 2.
    apply skipn_length_app.
  - right. destruct Htraced as [earlier Hr].
    exists e, earlier. repeat split.
    + rewrite Hr. apply skipn_length_app.
    + intros Hin. specialize (Hstrict Hin st). rewrite Hbody in Hstrict.
      rewrite Hstrict in Hr. apply app_inv_head in Hr.
      destruct earlier as [| x xs]; [reflexivity |].
      destruct xs; discriminate.
Qed.

Lemma refusal_status (r : request) (d : dict) :
  refusal r d -> lookup "status" d = Some (VStr "error").
Proof.
  destruct r; simpl; try contradiction.
  destruct upstream, downstream; try contradiction.
  intros H. injection H as ->. reflexivity.
Qed.

(** The names in [governance_tools] are the tools of the governance module. *)
Lemma governance_tools_registered (r : request) :
  module_of r = "governance" <-> In (name_of r) governance_tools.
Proof.
  destruct r; simpl; split; intros H; try reflexivity; try discriminate H;
    try tauto; repeat (destruct H as [H | H]; [discriminate H |]); contradiction.
Qed.

(** ** Running one handler step by step *)

Lemma trace_from (E : env) (r : request) (st : state) (new : list event) :
  calls (snd (run E r st)) = calls st ++ new -> trace E r st = new.
Proof. intros H. unfold trace. rewrite H. apply skipn_length_app. Qed.

Ltac head_of t :=
  lazymatch t with
  | ?f _ => head_of f
  | _ => t
  end.

(** Opens a handler down to the calls it makes on the outside. *)
Ltac open_run :=
  unfold result, trace, raised_by in *; cbn [run];
  match goal with
  | |- context [?h ?st] =>
      lazymatch type of (h st) with (outcome val * state)%type => idtac end;
      let f := head_of h in unfold f
  end;
  unfold guarded, try_except, bind, get_workspace_client.

(** Runs a handler to its end along every path, splitting on what the
    outside answers and on the tests the handler makes. *)
Ltac run_paths :=
  open_run; unfold api, kwargs_of, set_item, bind, lift; cbn;
  repeat
    (match goal with
     | |- context [if ?b then _ else _] => destruct b eqn:?
     | |- context [match workspace_client ?E with _ => _ end] =>
         destruct (workspace_client E) eqn:?
     | |- context [match respond ?E ?c with _ => _ end] => destruct (respond E c) eqn:?
     | |- context [match ?o with Ok _ => _ | Raise _ => _ end] => destruct o eqn:?
     end; cbn).

(** Reads the calls off a finished run: one goal per API call made. *)
Ltac read_trace :=
  rewrite <- ?app_assoc; rewrite skipn_length_app;
  let Hin := fresh "Hin" in
  intros Hin; simpl in Hin;
  repeat (destruct Hin as [Hin | Hin];
          [first [discriminate Hin | injection Hin as <-] |]);
  try contradiction.

(** What a query handler does on the outside, whatever the warehouse
    answers: it builds the client and submits one statement. *)
Ltac one_statement Hclient :=
  apply trace_from; open_run; rewrite Hclient; unfold api; cbn;
  match goal with |- context [respond ?E ?c] => destruct (respond E c) end; cbn;
  [ match goal with
    | |- context [getattr ?a ?f] => destruct (getattr a f)
    end; cbn |];
  rewrite <- !app_assoc; reflexivity.

(** ** Envelopes (C1, C2, C3, C5) *)











(** C5 as stated fails: [list_all_cluster_libraries] returns a sequence and
    its envelope has no key 'count'. *)
Lemma count_contract_fails :
  ~ count_contract env_empty Invoke_list_all_cluster_libraries fresh.
Proof.
  intros H.
  destruct (H "cluster_libraries" _ eq_refl eq_refl eq_refl) as (l & _ & Hcount).
  discriminate Hcount.
Qed.

(** C5, amended.  For every handler that returns a sequence and every
    sequence, the empty one included, the count of the success envelope -
    under 'count', and under 'clusters_count' for
    [list_all_cluster_libraries] - is the length of the sequence in that
    envelope. *)
Theorem count_is_length_of_sequence (E : env) (r : request) (st : state)
  (k : string) (d : dict) :
  sequence_key r = Some k ->
  result E r st = Ok (VDict d) ->
  lookup "status" d = Some (VStr "success") ->
  exists l, lookup k d = Some (VList l) /\
            lookup (count_key r) d = Some (VInt (Z.of_nat (List.length l))).
Proof.
  intros Hk Hres Hstatus.
  destruct (run_cases E r st) as [(d' & Hres' & Hd & _) | (e & earlier & Hres' & _)];
    rewrite Hres in Hres'; injection Hres' as ->.
  - destruct Hd as [(_ & _ & Hseq) | Hr].
    + now rewrite Hk in Hseq.
    + rewrite (refusal_status r _ Hr) in Hstatus. discriminate.
  - discriminate Hstatus.
Qed.

Lemma count_is_length_of_sequence_witness :
  exists d l, result env_two_secrets (Invoke_list_secrets "prod") fresh = Ok (VDict d) /\
              lookup "secrets" d = Some (VList l) /\
              lookup "count" d = Some (VInt (Z.of_nat (List.length l))) /\
              List.length l = 2%nat.
Proof.
  assert (exists d, result env_two_secrets (Invoke_list_secrets "prod") fresh = Ok (VDict d) /\
                    lookup "status" d = Some (VStr "success") /\
                    lookup "count" d = Some (VInt 2))
    as (d & Hres & Hstatus & Htwo)
    by (eexists; repeat split; reflexivity).
  destruct (count_is_length_of_sequence env_two_secrets (Invoke_list_secrets "prod") fresh
              "secrets" d eq_refl Hres Hstatus) as (l & Hl & Hcount).
  exists d, l. repeat split; [exact Hres | exact Hl | exact Hcount |].
  simpl in Hcount. rewrite Htwo in Hcount. injection Hcount as Hcount. lia.
Defined.

(** ** Forwarded arguments (C4, C9) *)

(** C4 as stated fails: [get_cluster_events] called without [start_time]
    forwards [start_time=None]. *)
Lemma omission_contract_fails :
  ~ omission_contract env_empty
      (Invoke_get_cluster_events "0923-164208-meows279" None None "DESC" 50) fresh.
Proof.
  intros H.
  specialize (H "start_time"
    (mkCall a_client "clusters.get_events" []
       [("cluster_id", VStr "0923-164208-meows279"); ("start_time", VNone);
        ("end_time", VNone); ("order", VStr "DESC"); ("limit", VInt 50)])).
  discriminate H; [now left | vm_compute; tauto].
Qed.

(** C4, amended.  For every handler with optional parameters other than
    [get_cluster_events], a parameter that the request leaves unset is no
    keyword of any call the handler makes, and no positional argument of
    such a call is None; [get_cluster_events] forwards [start_time] and
    [end_time] as they are given, None included. *)
Theorem unset_optionals_are_omitted (E : env) (r : request) (st : state) :
  (name_of r <> "get_cluster_events" ->
   forall k c,
     In k (unset_optionals r) ->
     In (EApi c) (trace E r st) ->
     lookup k (kwargs c) = None /\ ~ In VNone (args c))
  /\
  (forall cluster_id start_time end_time order limit c,
     r = Invoke_get_cluster_events cluster_id start_time end_time order limit ->
     In (EApi c) (trace E r st) ->
     kwargs c = [("cluster_id", VStr cluster_id); ("start_time", opt VInt start_time);
                 ("end_time", opt VInt end_time); ("order", VStr order);
                 ("limit", VInt limit)]).
Proof.
  split.
  - intros Hname k c Hk.
    destruct r; simpl in Hk; try contradiction.
    all: repeat match type of Hk with
                | context [unset _ ?o] => destruct o; simpl in Hk
                end;
         try contradiction.
    all: repeat (destruct Hk as [<- | Hk]); try contradiction.
    all: clear Hname.
    all: run_paths; read_trace; (split; [reflexivity | simpl; intuition discriminate]).
  - intros cluster_id start_time end_time order limit c ->.
    run_paths; read_trace; reflexivity.
Qed.

Lemma unset_optionals_are_omitted_witness :
  In (EApi (mkCall a_client "model_registry.create_model" [] [("name", VStr "churn")]))
     (trace env_empty (Invoke_create_model "churn" None None) fresh) /\
  lookup "description"
    (kwargs (mkCall a_client "model_registry.create_model" [] [("name", VStr "churn")]))
    = None.
Proof.
  assert (Hin : In (EApi (mkCall a_client "model_registry.create_model" []
                            [("name", VStr "churn")]))
                   (trace env_empty (Invoke_create_model "churn" None None) fresh))
    by (vm_compute; tauto).
  split; [exact Hin |].
  apply (proj1 (unset_optionals_are_omitted env_empty
                  (Invoke_create_model "churn" None None) fresh)
               ltac:(discriminate) "description" _ ltac:(now left) Hin).
Defined.

(** C9.  [edit_cluster], [edit_instance_pool], [edit_cluster_policy] and
    [update_ip_access_list], once they hold a client: the caller's
    configuration is changed in place - it now has the identifier under the
    identifier key - every other key of it is as it was, no other dict of
    the caller is touched, and the call that follows receives the changed
    configuration as its keyword arguments. *)
Theorem edit_completes_config_in_place (E : env) (r : request) (st : state)
  (key id : string) (config : nat) (path : string) (client : val) :
  edits r = Some (key, id, config, path) ->
  workspace_client E = Ok client ->
  let st' := snd (run E r st) in
  heap st' config = dict_set (heap st config) key (VStr id) /\
  (forall k, k <> key -> lookup k (heap st' config) = lookup k (heap st config)) /\
  (forall other, other <> config -> heap st' other = heap st other) /\
  trace E r st = [EClient; EApi (mkCall client path [] (heap st' config))].
Proof.
  intros Hr Hclient.
  destruct r; try discriminate Hr; injection Hr as <- <- <- <-; cbv zeta.
  all: split; [| split; [| split ] ].
  all: try apply trace_from.
  all: open_run; rewrite Hclient; unfold api, set_item, kwargs_of, bind, lift; cbn;
    rewrite ?Nat.eqb_refl.
  all: try (destruct (respond E _); cbn; rewrite <- ?app_assoc, ?Nat.eqb_refl; reflexivity).
  all: try (intros k Hk; destruct (respond E _); cbn; rewrite ?Nat.eqb_refl;
            now apply lookup_dict_set_other).
  all: intros other Hother; destruct (respond E _); cbn;
    apply Nat.eqb_neq in Hother; now rewrite Hother.
Qed.

Lemma edit_completes_config_in_place_witness :
  heap (snd (run env_empty (Invoke_edit_cluster "0923-164208-meows279" 0) one_config)) 0 =
    [("num_workers", VInt 4); ("spark_version", VStr "15.4.x-scala2.12");
     ("cluster_id", VStr "0923-164208-meows279")] /\
  trace env_empty (Invoke_edit_cluster "0923-164208-meows279" 0) one_config =
    [EClient;
     EApi (mkCall a_client "clusters.edit" []
             [("num_workers", VInt 4); ("spark_version", VStr "15.4.x-scala2.12");
              ("cluster_id", VStr "0923-164208-meows279")])].
Proof.
  destruct (edit_completes_config_in_place env_empty
              (Invoke_edit_cluster "0923-164208-meows279" 0) one_config
              "cluster_id" "0923-164208-meows279" 0 "clusters.edit" a_client
              eq_refl eq_refl) as (Hheap & _ & _ & Htrace).
  split; [exact Hheap | exact Htrace].
Defined.

(** ** Statements submitted for execution (C6, C7, C8, C10) *)

Lemma verbatim_here (s after : string) : verbatim s (s ++ after).
Proof. now exists "", after. Qed.

Lemma verbatim_head (c : ascii) (s after : string) :
  verbatim (String c s) (String c (s ++ after)).
Proof. now exists "", after. Qed.

Lemma verbatim_cons (s t : string) (c : ascii) : verbatim s t -> verbatim s (String c t).
Proof. intros (b & a & ->). now exists (String c b), a. Qed.

Lemma verbatim_app_l (s t u : string) : verbatim s t -> verbatim s (t ++ u).
Proof.
  intros (b & a & ->). exists b, (a ++ u)%string. now rewrite !append_assoc.
Qed.

Lemma verbatim_app_r (s t u : string) : verbatim s u -> verbatim s (t ++ u).
Proof.
  intros (b & a & ->). exists (t ++ b)%string, a. now rewrite !append_assoc.
Qed.

Lemma verbatim_empty (t : string) : verbatim "" t.
Proof. now exists "", t. Qed.

Ltac find_verbatim :=
  first
    [ apply verbatim_here
    | apply verbatim_head
    | apply verbatim_cons; find_verbatim
    | apply verbatim_app_l; find_verbatim
    | apply verbatim_app_r; find_verbatim ].

Lemma submits (E : env) (r : request) (st : state) (client : val) (s q : string) :
  trace E r st = [EClient; execute_statement client q] ->
  verbatim s q ->
  exists q, In q (statements E r st) /\ verbatim s q.
Proof.
  intros Ht Hv. exists q. split; [| exact Hv].
  unfold statements. rewrite Ht. now left.
Qed.

(** Runs a query handler up to the statement it submits, and finds the
    caller's text in it. *)
Ltac submitted :=
  let Hclient := fresh "Hclient" in
  intros ? ? ? Hclient;
  eapply submits; [one_statement Hclient | rewrite ?append_assoc; find_verbatim].

Lemma query_audit_logs_interpolates : interpolates "query_audit_logs".
Proof.
  intros s. exists (Invoke_query_audit_logs s "2024-12-31" None None 1000).
  split; [reflexivity |]. split; [now left |].
  submitted.
Qed.

Lemma query_table_lineage_interpolates : interpolates "query_table_lineage".
Proof.
  intros s. exists (Invoke_query_table_lineage s true true).
  split; [reflexivity |]. split; [now left |].
  submitted.
Qed.

Lemma query_column_lineage_interpolates : interpolates "query_column_lineage".
Proof.
  intros s. exists (Invoke_query_column_lineage s None).
  split; [reflexivity |]. split; [now left |].
  submitted.
Qed.

Lemma query_table_usage_interpolates : interpolates "query_table_usage".
Proof.
  intros s. exists (Invoke_query_table_usage s 30).
  split; [reflexivity |]. split; [now left |].
  submitted.
Qed.

Lemma query_compute_usage_interpolates : interpolates "query_compute_usage".
Proof.
  intros s. exists (Invoke_query_compute_usage s "2024-12-31" None).
  split; [reflexivity |]. split; [now left |].
  submitted.
Qed.

Lemma query_storage_usage_interpolates : interpolates "query_storage_usage".
Proof.
  intros s. exists (Invoke_query_storage_usage s "2024-12-31").
  split; [reflexivity |]. split; [now left |].
  submitted.
Qed.

(** The two tools below take their text as an optional filter; an empty
    filter adds no clause, and the empty text stands in any statement. *)
Lemma query_workspace_objects_interpolates : interpolates "query_workspace_objects".
Proof.
  intros s. exists (Invoke_query_workspace_objects (Some s) 30).
  split; [reflexivity |]. split; [now left |].
  destruct s as [| c s].
  - intros E client st Hclient.
    eapply submits; [one_statement Hclient | apply verbatim_empty].
  - submitted.
Qed.

Lemma query_permissions_changes_interpolates : interpolates "query_permissions_changes".
Proof.
  intros s. exists (Invoke_query_permissions_changes (Some s) 7).
  split; [reflexivity |]. split; [now left |].
  destruct s as [| c s].
  - intros E client st Hclient.
    eapply submits; [one_statement Hclient | apply verbatim_empty].
  - submitted.
Qed.

(** A tool that submits no statement interpolates nothing. *)
Ltac submits_nothing :=
  let H := fresh "H" in
  let r := fresh "r" in
  let Hname := fresh "Hname" in
  let Hrun := fresh "Hrun" in
  let q := fresh "q" in
  let Hq := fresh "Hq" in
  intros H;
  destruct (H "x") as (r & Hname & _ & Hrun);
  destruct (Hrun env_empty a_client fresh eq_refl) as (q & Hq & _);
  destruct r; try discriminate Hname;
  vm_compute in Hq; exact Hq.

Lemma list_system_schemas_submits_nothing : ~ interpolates "list_system_schemas".
Proof. submits_nothing. Qed.

Lemma list_quality_monitors_submits_nothing : ~ interpolates "list_quality_monitors".
Proof. submits_nothing. Qed.

Lemma get_quality_monitor_status_submits_nothing :
  ~ interpolates "get_quality_monitor_status".
Proof. submits_nothing. Qed.

(** C6 as stated fails: three governance tools, pairwise different, build
    their statement by interpolation. *)
Lemma two_tools_interpolate_fails : ~ two_tools_interpolate.
Proof.
  intros (t1 & t2 & _ & H).
  assert (Ha : "query_audit_logs" = t1 \/ "query_audit_logs" = t2)
    by (apply H; [simpl; tauto | apply query_audit_logs_interpolates]).
  assert (Hb : "query_table_usage" = t1 \/ "query_table_usage" = t2)
    by (apply H; [simpl; tauto | apply query_table_usage_interpolates]).
  assert (Hc : "query_storage_usage" = t1 \/ "query_storage_usage" = t2)
    by (apply H; [simpl; tauto | apply query_storage_usage_interpolates]).
  destruct Ha as [<- | <-], Hb as [Hb | Hb], Hc as [Hc | Hc];
    try discriminate Hb; try discriminate Hc; subst; discriminate.
Qed.

(** C6, amended.  Exactly eight handlers of the governance module - the
    eight [query_] tools - build the statement they submit by putting the
    caller's text into a template as it is, without escaping or binding. *)
Theorem eight_tools_interpolate (t : string) :
  In t governance_tools -> (interpolates t <-> In t query_tools).
Proof.
  intros Ht. simpl in Ht.
  repeat (destruct Ht as [<- | Ht]); [ .. | contradiction ].
  all: split; intros H.
  all: try (simpl; tauto).
  all: try (exfalso; revert H;
            first [ apply list_system_schemas_submits_nothing
                  | apply list_quality_monitors_submits_nothing
                  | apply get_quality_monitor_status_submits_nothing ]).
  all: try (first [ apply query_audit_logs_interpolates
                  | apply query_table_lineage_interpolates
                  | apply query_column_lineage_interpolates
                  | apply query_table_usage_interpolates
                  | apply query_workspace_objects_interpolates
                  | apply query_permissions_changes_interpolates
                  | apply query_compute_usage_interpolates
                  | apply query_storage_usage_interpolates ]).
  all: simpl in H; repeat (destruct H as [H | H]; [discriminate H |]); contradiction.
Qed.

Lemma eight_tools_interpolate_witness :
  interpolates "query_table_usage" <-> In "query_table_usage" query_tools.
Proof. apply eight_tools_interpolate. simpl. tauto. Defined.

(** C7.  For every date range, [query_audit_logs] called with neither
    filter, once it holds a client, submits exactly the template with the
    two date conditions joined by AND as its WHERE clause - no empty and no
    further clause - and on success returns that statement as 'query'. *)
Theorem unfiltered_audit_query (E : env) (start_date end_date : string) (limit : Z)
  (st : state) (client : val) :
  workspace_client E = Ok client ->
  trace E (Invoke_query_audit_logs start_date end_date None None limit) st =
    [EClient; execute_statement client (audit_statement (date_range start_date end_date) limit)]
  /\
  forall d,
    result E (Invoke_query_audit_logs start_date end_date None None limit) st = Ok (VDict d) ->
    lookup "status" d = Some (VStr "success") ->
    lookup "query" d = Some (VStr (audit_statement (date_range start_date end_date) limit)).
Proof.
  intros Hclient.
  split; [apply trace_from |]; open_run; rewrite Hclient; unfold api; cbn;
    unfold execute_statement, audit_statement, date_range;
    destruct (respond E _) as [answer | e]; cbn.
  - destruct (getattr answer "statement_id"); cbn;
      rewrite <- !app_assoc; cbn; rewrite !append_assoc; reflexivity.
  - rewrite <- !app_assoc; cbn; rewrite !append_assoc; reflexivity.
  - intros d. destruct (getattr answer "statement_id"); cbn; intros Hd Hs.
    + injection Hd as <-. cbn. rewrite !append_assoc. reflexivity.
    + injection Hd as <-. discriminate Hs.
  - intros d Hd Hs. injection Hd as <-. discriminate Hs.
Qed.

Lemma unfiltered_audit_query_witness :
  trace env_empty (Invoke_query_audit_logs "2024-01-01" "2024-01-31" None None 1000) fresh =
    [EClient;
     execute_statement a_client
       (audit_statement "event_date >= '2024-01-01' AND event_date <= '2024-01-31'" 1000)].
Proof.
  exact (proj1 (unfiltered_audit_query env_empty "2024-01-01" "2024-01-31" 1000 fresh
                  a_client eq_refl)).
Defined.

(** C8.  When the call that lists the schemas of the catalog 'system'
    raises, [list_system_schemas] returns no error envelope: it returns the
    success envelope with the six fixed system schemas and count 6. *)
Theorem system_schemas_fall_back (E : env) (st : state) (client : val) (e : exc) :
  workspace_client E = Ok client ->
  respond E (mkCall client "schemas.list" [] [("catalog_name", VStr "system")]) = Raise e ->
  result E Invoke_list_system_schemas st =
    Ok (VDict [
      ("status", VStr "success");
      ("system_schemas", VList [
        VDict [("name", VStr "access"); ("description", VStr "Audit logs and access information")];
        VDict [("name", VStr "billing"); ("description", VStr "Billing and usage information")];
        VDict [("name", VStr "compute"); ("description", VStr "Compute resource information")];
        VDict [("name", VStr "storage"); ("description", VStr "Storage usage information")];
        VDict [("name", VStr "marketplace"); ("description", VStr "Marketplace information")];
        VDict [("name", VStr "information_schema"); ("description", VStr "Information schema metadata")]
      ]);
      ("count", VInt 6);
      ("message", VStr "Standard system schemas listed")
    ]).
Proof.
  intros Hclient Hcall. open_run. rewrite Hclient. unfold api. rewrite Hcall. reflexivity.
Qed.

Lemma system_schemas_fall_back_witness :
  exists d, result env_forbidden Invoke_list_system_schemas fresh = Ok (VDict d) /\
            lookup "status" d = Some (VStr "success") /\
            lookup "count" d = Some (VInt 6).
Proof.
  eexists. split.
  - apply (system_schemas_fall_back env_forbidden fresh a_client
             (mkExc "PermissionDenied" "User does not have USE CATALOG on Catalog 'system'."));
      reflexivity.
  - split; reflexivity.
Defined.

(** C10 as stated fails: without credentials the client accessor raises
    before the directions are looked at, and the envelope carries the text
    of that exception. *)
Lemma lineage_contract_fails :
  ~ lineage_contract env_no_credentials "main.sales.orders" fresh.
Proof. intros [H _]. vm_compute in H. discriminate. Qed.

(** C10, amended.  For every table name, [query_table_lineage] called with
    neither direction: when the client accessor returns a client, the
    handler returns the envelope with status "error" and message "Must
    specify upstream or downstream lineage", and calls no API method; when
    the accessor raises, it returns the error envelope of that exception,
    and calls no API method either. *)
Theorem lineage_without_direction_is_refused (E : env) (table_name : string) (st : state) :
  (forall client, workspace_client E = Ok client ->
     result E (Invoke_query_table_lineage table_name false false) st = Ok refused /\
     trace E (Invoke_query_table_lineage table_name false false) st = [EClient]) /\
  (forall e, workspace_client E = Raise e ->
     result E (Invoke_query_table_lineage table_name false false) st = Ok (error_envelope e) /\
     trace E (Invoke_query_table_lineage table_name false false) st = [EClient]).
Proof.
  split; intros x Hx; (split; [| apply trace_from]); open_run; rewrite Hx; reflexivity.
Qed.

Lemma lineage_without_direction_is_refused_witness :
  result env_empty (Invoke_query_table_lineage "main.sales.orders" false false) fresh =
    Ok refused /\
  trace env_empty (Invoke_query_table_lineage "main.sales.orders" false false) fresh =
    [EClient].
Proof.
  exact (proj1 (lineage_without_direction_is_refused env_empty "main.sales.orders" fresh)
               a_client eq_refl).
Defined.

(** * Further theory *)

(** ** Every handler, path by path *)

(** As [run_paths], for a run whose client accessor answers. *)
Ltac run_paths_from Hclient :=
  open_run; rewrite Hclient; unfold api, kwargs_of, set_item, bind, lift; cbn;
  repeat
    (match goal with
     | |- context [if ?b then _ else _] => destruct b eqn:?
     | |- context [match respond ?E ?c with _ => _ end] => destruct (respond E c) eqn:?
     | |- context [match ?o with Ok _ => _ | Raise _ => _ end] => destruct o eqn:?
     end; cbn).

(** Names the API calls of a finished run. *)
Ltac name_calls :=
  rewrite <- ?app_assoc, skipn_length_app; cbn [app];
  lazymatch goal with
  | |- exists apis, [EClient] = _ /\ _ => exists []
  | |- exists apis, [EClient; EApi ?c] = _ /\ _ => exists [c]
  | |- exists apis, [EClient; EApi ?c1; EApi ?c2] = _ /\ _ => exists [c1; c2]
  end.

(** A run whose client accessor raises. *)
Lemma run_without_client (E : env) (r : request) (st : state) (e : exc) :
  workspace_client E = Raise e ->
  run E r st = (Ok (error_envelope e), note e (record EClient st)).
Proof. intros H. destruct r; open_run; rewrite H; reflexivity. Qed.

(** A run whose client accessor answers: the calls it makes, the dicts it
    leaves alone, and what a success envelope tells about the calls. *)
Lemma run_with_client (E : env) (r : request) (st : state) (client : val) :
  workspace_client E = Ok client ->
  exists apis,
    trace E r st = EClient :: map EApi apis /\
    Forall (fun c => receiver c = client) apis /\
    (composite r = false -> List.length apis = 1%nat) /\
    (edits r = None -> heap (snd (run E r st)) = heap st) /\
    (hides_failure r = false ->
     forall d, result E r st = Ok (VDict d) ->
               lookup "status" d = Some (VStr "success") ->
               apis <> [] /\ Forall (answered E) apis).
Proof.
  intros Hclient.
  destruct r; cbn [composite edits hides_failure].
  all: run_paths_from Hclient.
  all: name_calls.
  all: (split; [reflexivity |]); (split; [repeat constructor |]).
  all: (split; [first [reflexivity | discriminate] |]).
  all: (split; [first [reflexivity | discriminate] |]).
  all: first
    [ discriminate
    | intros _ d Hres Hstatus;
      first
        [ injection Hres as <-; discriminate Hstatus
        | split; [discriminate | repeat constructor; eexists; eassumption] ] ].
Qed.

(** ** The client and the calls (X1 - X4) *)

(** X1.  When the client accessor raises, every handler returns the error
    envelope of that exception, calls no API method and leaves the dicts of
    the caller as they were. *)
Theorem without_client_nothing_is_called (E : env) (r : request) (st : state) (e : exc) :
  workspace_client E = Raise e ->
  result E r st = Ok (error_envelope e) /\
  trace E r st = [EClient] /\
  heap (snd (run E r st)) = heap st.
Proof.
  intros H. unfold result, trace. rewrite (run_without_client E r st e H). cbn.
  rewrite skipn_length_app. repeat split.
Qed.

Lemma without_client_nothing_is_called_witness :
  result env_no_credentials (Invoke_put_secret "prod" "db-password" "hunter2") fresh =
    Ok (VDict [("status", VStr "error");
               ("message", VStr "default auth: cannot configure default credentials")]) /\
  trace env_no_credentials (Invoke_put_secret "prod" "db-password" "hunter2") fresh = [EClient].
Proof.
  destruct (without_client_nothing_is_called env_no_credentials
              (Invoke_put_secret "prod" "db-password" "hunter2") fresh
              (mkExc "ValueError" "default auth: cannot configure default credentials")
              eq_refl) as (Hres & Htrace & _).
  split; [exact Hres | exact Htrace].
Defined.



(** X3.  Only the four handlers that complete a configuration write to a
    dict of the caller: every other handler, those that forward a
    configuration included, leaves all of them as they were, however the
    run ends. *)
Theorem only_edits_write_to_a_config (E : env) (r : request) (st : state) :
  edits r = None ->
  heap (snd (run E r st)) = heap st.
Proof.
  intros He.
  destruct (workspace_client E) as [client | e] eqn:Hclient.
  - destruct (run_with_client E r st client Hclient) as (apis & _ & _ & _ & Hheap & _).
    exact (Hheap He).
  - now rewrite (run_without_client E r st e Hclient).
Qed.

Lemma only_edits_write_to_a_config_witness :
  heap (snd (run env_empty (Invoke_create_cluster 0) one_config)) 0 =
    [("num_workers", VInt 4); ("spark_version", VStr "15.4.x-scala2.12")].
Proof.
  now rewrite (only_edits_write_to_a_config env_empty (Invoke_create_cluster 0) one_config
                 eq_refl).
Defined.

(** X4.  A success envelope is earned: but for [list_system_schemas] and
    [get_workspace_settings], a handler returns status "success" only when
    the client was built, at least one API method was called and every API
    call of the run was answered. *)
Theorem success_is_earned (E : env) (r : request) (st : state) (d : dict) :
  hides_failure r = false ->
  result E r st = Ok (VDict d) ->
  lookup "status" d = Some (VStr "success") ->
  (exists client, workspace_client E = Ok client) /\
  (exists c, In (EApi c) (trace E r st)) /\
  (forall c, In (EApi c) (trace E r st) -> answered E c).
Proof.
  intros Hh Hres Hstatus.
  destruct (workspace_client E) as [client | e] eqn:Hclient.
  - destruct (run_with_client E r st client Hclient) as (apis & Htrace & _ & _ & _ & Hok).
    destruct (Hok Hh d Hres Hstatus) as (Hsome & Hall).
    split; [now exists client |]. rewrite Htrace. split.
    + destruct apis as [| c rest]; [contradiction |]. exists c. right. now left.
    + intros c [Hc | Hc]; [discriminate Hc |].
      apply in_map_iff in Hc. destruct Hc as (c' & Heq & Hin). injection Heq as ->.
      rewrite Forall_forall in Hall. now apply Hall.
  - unfold result in Hres. rewrite (run_without_client E r st e Hclient) in Hres.
    injection Hres as <-. discriminate Hstatus.
Qed.

Lemma success_is_earned_witness :
  (exists client, workspace_client env_two_secrets = Ok client) /\
  (exists c, In (EApi c) (trace env_two_secrets (Invoke_list_secrets "prod") fresh)) /\
  (forall c, In (EApi c) (trace env_two_secrets (Invoke_list_secrets "prod") fresh) ->
             answered env_two_secrets c).
Proof.
  eapply (success_is_earned env_two_secrets (Invoke_list_secrets "prod") fresh);
    [reflexivity | vm_compute; reflexivity | reflexivity].
Defined.

(** ** Empty values (X5) *)


(** ** Configurations (X6) *)

(** What a handler that forwards a configuration calls. *)
Lemma forwarded_call (E : env) (r : request) (st : state) (client : val)
  (config : nat) (path : string) (positional : list val) :
  forwards r = Some (config, path, positional) ->
  workspace_client E = Ok client ->
  trace E r st = [EClient; EApi (mkCall client path positional (heap st config))].
Proof.
  intros Hr Hclient.
  destruct r; try discriminate Hr; injection Hr as <- <- <-.
  all: run_paths_from Hclient; rewrite <- ?app_assoc, skipn_length_app; reflexivity.
Qed.

(** The caller's dict after a handler has completed it. *)
Lemma completed_config (E : env) (r : request) (st : state) (client : val)
  (key id : string) (config : nat) (path : string) :
  edits r = Some (key, id, config, path) ->
  workspace_client E = Ok client ->
  heap (snd (run E r st)) config = dict_set (heap st config) key (VStr id).
Proof.
  intros Hr Hclient.
  destruct r; try discriminate Hr; injection Hr as <- <- <- <-.
  all: open_run; rewrite Hclient; unfold api, set_item, kwargs_of, bind, lift; cbn;
    rewrite ?Nat.eqb_refl; destruct (respond E _); cbn; now rewrite Nat.eqb_refl.
Qed.

(** X6.  A configuration is forwarded as it stands, entry by entry, and the
    identifier that an edit has stored in it stays: a later handler that
    forwards the same dict passes the identifier on as a keyword argument
    of its own call. *)
Theorem completed_config_is_forwarded_later (E : env) (edit later : request) (st : state)
  (client : val) (key id : string) (config : nat) (path path' : string)
  (positional : list val) :
  edits edit = Some (key, id, config, path) ->
  forwards later = Some (config, path', positional) ->
  workspace_client E = Ok client ->
  trace E later (snd (run E edit st)) =
    [EClient;
     EApi (mkCall client path' positional (dict_set (heap st config) key (VStr id)))].
Proof.
  intros Hedit Hlater Hclient.
  rewrite (forwarded_call E later _ client config path' positional Hlater Hclient).
  now rewrite (completed_config E edit st client key id config path Hedit Hclient).
Qed.

Lemma completed_config_is_forwarded_later_witness :
  trace env_empty (Invoke_create_cluster 0)
    (snd (run env_empty (Invoke_edit_cluster "0923-164208-meows279" 0) one_config)) =
    [EClient;
     EApi (mkCall a_client "clusters.create" []
             [("num_workers", VInt 4); ("spark_version", VStr "15.4.x-scala2.12");
              ("cluster_id", VStr "0923-164208-meows279")])].
Proof.
  exact (completed_config_is_forwarded_later env_empty
           (Invoke_edit_cluster "0923-164208-meows279" 0) (Invoke_create_cluster 0)
           one_config a_client "cluster_id" "0923-164208-meows279" 0
           "clusters.edit" "clusters.create" [] eq_refl eq_refl eq_refl).
Defined.

(** ** Sequences (X7 - X11) *)

Lemma for_each_length (l : list val) (f : val -> outcome val) (ys : list val) :
  for_each l f = Ok ys -> List.length ys = List.length l.
Proof.
  intros H. apply for_each_Forall2 in H.
  induction H; simpl; [reflexivity | now f_equal].
Qed.

(** X7.  A listing drops and adds nothing: when the API method yields
    [items] and the handler returns a success envelope, the sequence in the
    envelope has one record for each item, and the count is the number of
    items the API yielded. *)
Theorem listing_keeps_every_item (E : env) (r : request) (st : state) (client : val)
  (path : string) (a : list val) (kw : list (string * val)) (v : val) (items : list val)
  (d : dict) :
  listing r = Some (path, a, kw) ->
  workspace_client E = Ok client ->
  respond E (mkCall client path a kw) = Ok v ->
  iterate v = Ok items ->
  result E r st = Ok (VDict d) ->
  lookup "status" d = Some (VStr "success") ->
  exists k l, sequence_key r = Some k /\
              lookup k d = Some (VList l) /\
              List.length l = List.length items /\
              lookup (count_key r) d = Some (VInt (Z.of_nat (List.length items))).
Proof.
  intros Hr Hclient Hcall Hiter.
  destruct r; try discriminate Hr; injection Hr as <- <- <-.
  all: open_run; rewrite Hclient; unfold api; rewrite Hcall;
    unfold lift, list_of, py_list, collect, ret; cbn [obind]; rewrite Hiter;
    cbv beta iota; cbn [obind iterate];
    match goal with
    | |- context [for_each ?l ?f] =>
        destruct (for_each l f) as [ys | e] eqn:Hloop; cbn [obind];
        [ apply for_each_length in Hloop
        | cbn; intros Hres Hstatus; injection Hres as <-; discriminate Hstatus ]
    end;
    match goal with
    | |- context [dict_lit ?fs] =>
        destruct (dict_lit fs) as [w | e] eqn:Hd; cbn; intros Hres Hstatus;
        [ injection Hres as -> | injection Hres as <-; discriminate Hstatus ];
        apply dict_lit_fields in Hd; [| reflexivity];
        destruct Hd as (d' & Hd' & _ & Hf); injection Hd' as <-
    end;
    eexists; exists ys; split; [reflexivity |];
    split; [apply Hf; find_field |];
    split; [exact Hloop |];
    rewrite <- Hloop; apply Hf; find_field.
Qed.

Lemma listing_keeps_every_item_witness :
  exists d k l,
    result env_two_secrets (Invoke_list_secrets "prod") fresh = Ok (VDict d) /\
    sequence_key (Invoke_list_secrets "prod") = Some k /\
    lookup k d = Some (VList l) /\
    List.length l = 2%nat /\
    lookup "count" d = Some (VInt 2).
Proof.
  assert (exists d, result env_two_secrets (Invoke_list_secrets "prod") fresh = Ok (VDict d) /\
                    lookup "status" d = Some (VStr "success"))
    as (d & Hres & Hstatus)
    by (eexists; split; reflexivity).
  destruct (listing_keeps_every_item env_two_secrets (Invoke_list_secrets "prod") fresh
              a_client _ _ _ _ _ d eq_refl eq_refl eq_refl eq_refl Hres Hstatus)
    as (k & l & Hk & Hl & Hlen & Hcount).
  exists d, k, l. repeat split; assumption.
Defined.

(** The one call of a handler that reads an optional sequence. *)
Ltac the_call Hclient Hall :=
  let Htrace := fresh "Htrace" in
  lazymatch type of Hall with
  | forall c, In _ (trace ?E ?r ?st) -> _ =>
      eassert (Htrace : trace E r st = [EClient; EApi _])
  end;
  [ run_paths_from Hclient; rewrite <- ?app_assoc, skipn_length_app; reflexivity
  | rewrite Htrace in Hall;
    specialize (Hall _ (or_intror (or_introl eq_refl))); clear Htrace ].

(** X8.  A response without its sequence is no error: when the attribute
    that holds the sequence is None or empty and the handler returns a
    success envelope, the envelope holds the empty list and count 0. *)
Theorem missing_sequence_is_empty (E : env) (r : request) (st : state) (client resp : val)
  (attr : string) (x : val) (d : dict) :
  optional_sequence r = Some attr ->
  workspace_client E = Ok client ->
  (forall c, In (EApi c) (trace E r st) -> respond E c = Ok resp) ->
  getattr resp attr = Ok x ->
  truthy x = false ->
  result E r st = Ok (VDict d) ->
  lookup "status" d = Some (VStr "success") ->
  exists k, sequence_key r = Some k /\
            lookup k d = Some (VList []) /\
            lookup "count" d = Some (VInt 0).
Proof.
  intros Hr Hclient Hall Hattr Hfalsy.
  destruct r; try discriminate Hr; injection Hr as <-.
  all: try (destruct filter_string as [[| ? ?] |]; destruct run_view_type as [| ? ?]).
  all: the_call Hclient Hall.
  all: open_run; rewrite Hclient; unfold api, kwargs_of, set_item, bind, lift;
    cbn -[getattr]; rewrite Hall; cbn -[getattr]; rewrite ?Hattr; cbn -[getattr];
    rewrite Hfalsy; cbn -[getattr];
    repeat (match goal with
            | |- context [match ?o with Ok _ => _ | Raise _ => _ end] => destruct o eqn:?
            end; cbn -[getattr]);
    intros Hres Hstatus; injection Hres as Hres;
    first
      [ subst d; discriminate Hstatus
      | subst d; eexists; repeat split; reflexivity
      | match goal with
        | Hd : dict_lit ?fs = Ok _ |- _ =>
            apply dict_lit_fields in Hd; [| reflexivity];
            destruct Hd as (d' & Hd' & _ & Hf); rewrite Hd' in Hres; injection Hres as <-;
            eexists; split; [reflexivity |]; split; apply Hf; find_field
        end ].
Qed.

Lemma missing_sequence_is_empty_witness :
  exists d k,
    result env_no_events (Invoke_get_cluster_events "0923-164208-meows279" None None "DESC" 50)
      fresh = Ok (VDict d) /\
    sequence_key (Invoke_get_cluster_events "0923-164208-meows279" None None "DESC" 50)
      = Some k /\
    lookup k d = Some (VList []) /\
    lookup "count" d = Some (VInt 0).
Proof.
  assert (exists d,
            result env_no_events
              (Invoke_get_cluster_events "0923-164208-meows279" None None "DESC" 50) fresh
              = Ok (VDict d) /\
            lookup "status" d = Some (VStr "success"))
    as (d & Hres & Hstatus)
    by (eexists; split; reflexivity).
  destruct (missing_sequence_is_empty env_no_events
              (Invoke_get_cluster_events "0923-164208-meows279" None None "DESC" 50) fresh
              a_client
              (VObj "GetEventsResponse"
                 [("events", VNone); ("next_page", VNone); ("total_count", VInt 0)])
              "events" VNone d eq_refl eq_refl (fun _ _ => eq_refl) eq_refl eq_refl
              Hres Hstatus)
    as (k & Hk & Hl & Hcount).
  exists d, k. repeat split; assumption.
Defined.

Lemma for_each_raises (l : list val) (f : val -> outcome val) (x : val) :
  In x l -> (exists e, f x = Raise e) -> exists e, for_each l f = Raise e.
Proof.
  intros Hin [e Hx].
  induction l as [| y rest IH]; simpl; [contradiction |].
  destruct (f y) as [z | e'] eqn:Hy; cbn [obind]; [| now exists e'].
  destruct Hin as [-> | Hin]; [congruence |].
  destruct (IH Hin) as [e' ->]. now exists e'.
Qed.

(** X9.  A listing is all or nothing: when one of the items the API
    yields is None, the handler returns an error envelope, whatever the
    other items are and however many of them it had turned into records. *)
Theorem listing_is_all_or_nothing (E : env) (r : request) (st : state) (client : val)
  (path : string) (a : list val) (kw : list (string * val)) (v : val) (items : list val) :
  listing r = Some (path, a, kw) ->
  workspace_client E = Ok client ->
  respond E (mkCall client path a kw) = Ok v ->
  iterate v = Ok items ->
  In VNone items ->
  exists e, result E r st = Ok (error_envelope e).
Proof.
  intros Hr Hclient Hcall Hiter Hnone.
  destruct r; try discriminate Hr; injection Hr as <- <- <-.
  all: open_run; rewrite Hclient; unfold api; rewrite Hcall;
    unfold lift, list_of, py_list, collect, ret; cbn [obind]; rewrite Hiter;
    cbv beta iota; cbn [obind iterate];
    match goal with
    | |- context [for_each ?l ?f] =>
        destruct (for_each_raises l f VNone Hnone) as [e ->];
        [ eexists; reflexivity | cbn; now exists e ]
    end.
Qed.

Lemma listing_is_all_or_nothing_witness :
  exists e,
    result env_scope_and_none Invoke_list_secret_scopes fresh = Ok (error_envelope e).
Proof.
  eapply listing_is_all_or_nothing; [reflexivity | reflexivity | reflexivity | reflexivity |].
  right. now left.
Defined.










(** X11.  [list_all_cluster_libraries] returns one record for each cluster
    the API yields, in order; each holds the cluster identifier and a list
    of library statuses that has one entry for each status of the cluster
    and is empty, not None, for a cluster without statuses. *)
Theorem every_cluster_has_a_library_list (E : env) (st : state) (client v : val)
  (statuses : list val) (d : dict) :
  workspace_client E = Ok client ->
  respond E (mkCall client "libraries.all_cluster_statuses" [] []) = Ok v ->
  iterate v = Ok statuses ->
  result E Invoke_list_all_cluster_libraries st = Ok (VDict d) ->
  lookup "status" d = Some (VStr "success") ->
  exists items,
    lookup "cluster_libraries" d = Some (VList items) /\
    Forall2 shows_libraries statuses items.
Proof.
  intros Hclient Hcall Hiter.
  open_run. rewrite Hclient. unfold api. rewrite Hcall.
  unfold lift, list_of, py_list, collect at 1, ret. cbn [obind]. rewrite Hiter.
  cbv beta iota. cbn [obind iterate].
  match goal with
  | |- context [for_each ?l ?f] =>
      destruct (for_each l f) as [ys | e] eqn:Hloop; cbn [obind];
      [| cbn; intros Hres Hstatus; injection Hres as <-; discriminate Hstatus]
  end.
  match goal with
  | |- context [dict_lit ?fs] =>
      destruct (dict_lit fs) as [w | e] eqn:Hd; cbn; intros Hres Hstatus;
      [ injection Hres as -> | injection Hres as <-; discriminate Hstatus ];
      apply dict_lit_fields in Hd; [| reflexivity];
      destruct Hd as (d' & Hd' & _ & Hf); injection Hd' as <-
  end.
  exists ys. split; [apply Hf; find_field |].
  apply for_each_Forall2 in Hloop.
  eapply Forall2_impl; [| exact Hloop].
  clear. intros status item. cbv beta.
  unfold attr_of. cbn [obind].
  destruct (getattr status "cluster_id") as [id | e] eqn:Hid; [| discriminate].
  cbn -[getattr collect].
  destruct (getattr status "library_statuses") as [x | e] eqn:Hls; [| discriminate].
  cbn -[getattr collect].
  destruct (truthy x) eqn:Hx.
  - unfold collect. cbn [obind].
    destruct (iterate x) as [l | e] eqn:Hl; [| discriminate]. cbn [obind].
    match goal with
    | |- context [for_each l ?g] => destruct (for_each l g) as [libs | e] eqn:Hlibs
    end; [| discriminate].
    cbn. intros H. injection H as <-.
    exists id, libs. split; [exact Hid |]. split; [reflexivity |].
    intros x' Hx'. rewrite Hls in Hx'. injection Hx' as <-. split; [congruence |].
    intros l' _ Hl'. rewrite Hl in Hl'. injection Hl' as <-. now apply for_each_length in Hlibs.
  - intros H. injection H as <-.
    exists id, []. split; [exact Hid |]. split; [reflexivity |].
    intros x' Hx'. rewrite Hls in Hx'. injection Hx' as <-. split; [reflexivity | congruence].
Qed.

Lemma every_cluster_has_a_library_list_witness :
  exists d items,
    result env_two_clusters Invoke_list_all_cluster_libraries fresh = Ok (VDict d) /\
    lookup "cluster_libraries" d = Some (VList items) /\
    List.length items = 2%nat.
Proof.
  assert (exists d,
            result env_two_clusters Invoke_list_all_cluster_libraries fresh = Ok (VDict d) /\
            lookup "status" d = Some (VStr "success"))
    as (d & Hres & Hstatus)
    by (eexists; split; reflexivity).
  destruct (every_cluster_has_a_library_list env_two_clusters fresh a_client _ _ d
              eq_refl eq_refl eq_refl Hres Hstatus)
    as (items & Hitems & Hshown).
  exists d, items. repeat split; [exact Hres | exact Hitems |].
  now rewrite <- (Forall2_length Hshown).
Defined.

(** ** Handlers that decide something themselves (X12 - X16) *)



(** X13.  [get_workspace_settings] returns a success envelope whenever the
    client is built.  It reads the token settings, then the IP access list
    settings, each in a [try] of its own: the second is read whatever the
    first did, and a setting whose call raises, or answers None, is
    reported as None. *)
Theorem workspace_settings_always_succeed (E : env) (st : state) (client : val) :
  workspace_client E = Ok client ->
  exists token ip,
    result E Invoke_get_workspace_settings st =
      Ok (VDict [("status", VStr "success");
                 ("workspace_settings",
                  VDict [("token_management", token); ("ip_access_list", ip)])]) /\
    trace E Invoke_get_workspace_settings st =
      [EClient; EApi (token_management_call client); EApi (ip_access_list_call client)] /\
    (truthy_answer E (token_management_call client) = false -> token = VNone) /\
    (truthy_answer E (ip_access_list_call client) = false -> ip = VNone).
Proof.
  intros Hclient. unfold truthy_answer, token_management_call, ip_access_list_call.
  run_paths_from Hclient.
  all: rewrite <- ?app_assoc, skipn_length_app.
  all: do 2 eexists; split; [reflexivity |]; split; [reflexivity |].
  all: split; intros H; first [reflexivity | discriminate H].
Qed.

Lemma workspace_settings_always_succeed_witness :
  result env_forbidden Invoke_get_workspace_settings fresh =
    Ok (VDict [("status", VStr "success");
               ("workspace_settings",
                VDict [("token_management", VNone); ("ip_access_list", VNone)])]).
Proof.
  destruct (workspace_settings_always_succeed env_forbidden fresh a_client eq_refl)
    as (token & ip & Hres & _ & Htoken & Hip).
  now rewrite Hres, (Htoken eq_refl), (Hip eq_refl).
Defined.

(** X14.  [update_model_version] is not atomic.  It updates the version
    first; when that call raises, the stage transition is not attempted;
    when a stage is given and the update went through, it calls the stage
    transition, and when that raises, the handler returns the error
    envelope although the update has been made. *)
Theorem stage_failure_follows_update (E : env) (model_name version : string)
  (description stage : option string) (st : state) (client : val) :
  workspace_client E = Ok client ->
  let r := Invoke_update_model_version model_name version description stage in
  let update := version_update_call client model_name version description in
  (forall e, respond E update = Raise e ->
     trace E r st = [EClient; EApi update] /\
     result E r st = Ok (error_envelope e)) /\
  (forall v, respond E update = Ok v ->
     given_text stage = None ->
     trace E r st = [EClient; EApi update] /\
     exists d, result E r st = Ok (VDict d) /\ lookup "status" d = Some (VStr "success")) /\
  (forall v s e, respond E update = Ok v ->
     given_text stage = Some s ->
     respond E (stage_transition_call client model_name version s) = Raise e ->
     trace E r st =
       [EClient; EApi update; EApi (stage_transition_call client model_name version s)] /\
     result E r st = Ok (error_envelope e)).
Proof.
  intros Hclient r update. subst r update.
  unfold version_update_call, stage_transition_call.
  split; [| split].
  - intros e Hup.
    destruct description as [[| a text] |]; cbn [given_text app] in *.
    all: split; [apply trace_from |].
    all: open_run; rewrite Hclient; unfold api, kwargs_of, set_item, bind, lift; cbn;
      rewrite Hup; cbn; rewrite <- ?app_assoc; reflexivity.
  - intros v Hup Hstage.
    destruct description as [[| a text] |]; destruct stage as [[| b s] |];
      try discriminate Hstage; cbn [given_text app] in *.
    all: split; [apply trace_from | eexists].
    all: open_run; rewrite Hclient; unfold api, kwargs_of, set_item, bind, lift; cbn;
      rewrite Hup; cbn; rewrite <- ?app_assoc; try reflexivity.
    all: split; reflexivity.
  - intros v s e Hup Hstage Htr.
    destruct description as [[| a text] |]; destruct stage as [[| b s'] |];
      try discriminate Hstage; injection Hstage as <-; cbn [given_text app] in *.
    all: split; [apply trace_from |].
    all: open_run; rewrite Hclient; unfold api, kwargs_of, set_item, bind, lift; cbn;
      rewrite Hup; cbn; rewrite Htr; cbn; rewrite <- ?app_assoc; reflexivity.
Qed.

Lemma stage_failure_follows_update_witness :
  trace env_stage_refused (Invoke_update_model_version "churn" "3" None (Some "Prod")) fresh =
    [EClient;
     EApi (version_update_call a_client "churn" "3" None);
     EApi (stage_transition_call a_client "churn" "3" "Prod")] /\
  result env_stage_refused (Invoke_update_model_version "churn" "3" None (Some "Prod")) fresh =
    Ok (VDict [("status", VStr "error"); ("message", VStr "Invalid stage: Prod")]).
Proof.
  exact (proj2 (proj2 (stage_failure_follows_update env_stage_refused "churn" "3" None
                         (Some "Prod") fresh a_client eq_refl))
               VNone "Prod" (mkExc "InvalidParameterValue" "Invalid stage: Prod")
               eq_refl eq_refl eq_refl).
Defined.



(** A loop that may skip items keeps, in order, the items it does not
    skip. *)
Lemma for_each_some_filter (l : list val) (f : val -> outcome (option val))
  (keep : val -> bool) (R : val -> val -> Prop) (ys : list val) :
  (forall x o, f x = Ok o ->
     match o with
     | Some y => keep x = true /\ R x y
     | None => keep x = false
     end) ->
  for_each_some l f = Ok ys ->
  Forall2 R (filter keep l) ys.
Proof.
  intros Hf. revert ys.
  induction l as [| x rest IH]; simpl; intros ys H.
  - injection H as <-. constructor.
  - destruct (f x) as [o | e] eqn:Hx; simpl in H; [| discriminate].
    destruct (for_each_some rest f) as [ys' | e]; simpl in H; [| discriminate].
    injection H as <-. specialize (Hf x o Hx).
    destruct o as [y |].
    + destruct Hf as [-> HR]. constructor; [exact HR | now apply IH].
    + rewrite Hf. now apply IH.
Qed.

(** What the loop body of [list_quality_monitors] does with one monitor. *)
Lemma monitor_kept_or_skipped (E : env) (catalog_name : option string) (monitor : val)
  (fields : list (string * outcome val)) (o : option val) :
  In ("table_name", Ok monitor ~> "table_name") fields ->
  distinct (map fst fields) = true ->
  (let! skip := and_of (Ok (opt VStr catalog_name))
                  (not_of (startswith_of (Ok monitor ~> "table_name")
                             (fstr E [Fmt (Ok (opt VStr catalog_name)); Lit "."]))) in
   if truthy skip
   then Ok None
   else let! monitor_info := dict_lit fields in Ok (Some monitor_info)) = Ok o ->
  match o with
  | Some item => in_catalog catalog_name monitor = true /\ reports monitor item
  | None => in_catalog catalog_name monitor = false
  end.
Proof.
  intros Hin Hd.
  assert (Hitem : forall item, dict_lit fields = Ok item -> reports monitor item).
  { intros item Hitem.
    destruct (dict_lit_fields fields item Hd Hitem) as (c & -> & _ & _).
    destruct (dict_lit_entry fields c "table_name" _ Hd Hitem Hin) as (t & Ht & Hlook).
    exists c, t. now repeat split. }
  unfold in_catalog.
  destruct catalog_name as [[| a catalog] |]; cbn [given_text opt and_of obind truthy negb String.eqb].
  - destruct (dict_lit fields) as [item | e]; cbn; intros H; [| discriminate].
    injection H as <-. split; [reflexivity | now apply Hitem].
  - unfold not_of, startswith_of, attr_of. cbn [obind fstr fstr_text py_str].
    destruct (getattr monitor "table_name") as [[| | | table | | | | | |] | e]; cbn;
      try discriminate.
    destruct (String.prefix _ table) eqn:Hp; cbn.
    + destruct (dict_lit fields) as [item | e]; cbn; intros H; [| discriminate].
      injection H as <-. split; [reflexivity | now apply Hitem].
    + intros H. injection H as <-. reflexivity.
  - destruct (dict_lit fields) as [item | e]; cbn; intros H; [| discriminate].
    injection H as <-. split; [reflexivity | now apply Hitem].
Qed.

(** X16.  [list_quality_monitors] filters by catalog.  When the API yields
    [monitors] and the handler returns a success envelope, the envelope
    reports, in the order of the API, exactly the monitors whose table name
    starts with the catalog name and a dot - every monitor when no catalog
    name or an empty one is given - and counts those. *)
Theorem monitors_are_filtered_by_catalog (E : env) (catalog_name : option string)
  (st : state) (client v : val) (monitors : list val) (d : dict) :
  workspace_client E = Ok client ->
  respond E (mkCall client "quality_monitors.list" [] []) = Ok v ->
  iterate v = Ok monitors ->
  result E (Invoke_list_quality_monitors catalog_name) st = Ok (VDict d) ->
  lookup "status" d = Some (VStr "success") ->
  exists items,
    lookup "monitors" d = Some (VList items) /\
    Forall2 reports (filter (in_catalog catalog_name) monitors) items /\
    lookup "count" d =
      Some (VInt (Z.of_nat (List.length (filter (in_catalog catalog_name) monitors)))).
Proof.
  intros Hclient Hcall Hiter.
  open_run. rewrite Hclient. unfold api. rewrite Hcall.
  unfold lift, list_of, py_list, collect_some, ret. cbn [obind]. rewrite Hiter.
  cbv beta iota. cbn [obind iterate].
  match goal with
  | |- context [for_each_some ?l ?f] =>
      destruct (for_each_some l f) as [ys | e] eqn:Hloop; cbn [obind];
      [| cbn; intros Hres Hstatus; injection Hres as <-; discriminate Hstatus]
  end.
  apply (for_each_some_filter _ _ (in_catalog catalog_name) reports) in Hloop.
  - match goal with
    | |- context [dict_lit ?fs] =>
        destruct (dict_lit fs) as [w | e] eqn:Hd; cbn; intros Hres Hstatus;
        [ injection Hres as -> | injection Hres as <-; discriminate Hstatus ];
        apply dict_lit_fields in Hd; [| reflexivity];
        destruct Hd as (d' & Hd' & _ & Hf); injection Hd' as <-
    end.
    exists ys. split; [apply Hf; find_field |]. split; [exact Hloop |].
    rewrite (Forall2_length Hloop). apply Hf; find_field.
  - intros monitor o.
    apply monitor_kept_or_skipped; [find_field | reflexivity].
Qed.

Lemma monitors_are_filtered_by_catalog_witness :
  exists d items,
    result env_monitors (Invoke_list_quality_monitors (Some "main")) fresh = Ok (VDict d) /\
    lookup "monitors" d = Some (VList items) /\
    List.length items = 2%nat /\
    lookup "count" d = Some (VInt 2).
Proof.
  assert (exists d,
            result env_monitors (Invoke_list_quality_monitors (Some "main")) fresh
              = Ok (VDict d) /\
            lookup "status" d = Some (VStr "success"))
    as (d & Hres & Hstatus)
    by (eexists; split; reflexivity).
  destruct (monitors_are_filtered_by_catalog env_monitors (Some "main") fresh a_client
              _ _ d eq_refl eq_refl eq_refl Hres Hstatus)
    as (items & Hitems & Hkept & Hcount).
  exists d, items. repeat split; [exact Hres | exact Hitems | | exact Hcount].
  now rewrite <- (Forall2_length Hkept).
Defined.

(** ** Statements of the governance queries (X17 - X19) *)

(** X17.  Whatever filters [query_audit_logs] is given, the WHERE clause of
    the statement it submits is the two date conditions followed by one
    condition for each filter that is given and not empty, joined by AND:
    a filter left out or empty leaves no clause behind. *)
Theorem audit_filters_are_conjoined (E : env) (start_date end_date : string)
  (service_name action_name : option string) (limit : Z) (st : state) (client : val) :
  workspace_client E = Ok client ->
  trace E (Invoke_query_audit_logs start_date end_date service_name action_name limit) st =
    [EClient;
     execute_statement client
       (audit_statement
          (String.concat " AND "
             (audit_conditions start_date end_date service_name action_name))
          limit)].
Proof.
  intros Hclient.
  destruct service_name as [[| a service] |]; destruct action_name as [[| b action] |].
  all: apply trace_from; open_run; rewrite Hclient; unfold api; cbn;
    unfold execute_statement, audit_statement;
    destruct (respond E _) as [answer | e]; cbn;
    [ destruct (getattr answer "statement_id"); cbn |];
    rewrite <- !app_assoc; cbn; rewrite !append_assoc; cbn; rewrite ?append_assoc;
    reflexivity.
Qed.

Lemma audit_filters_are_conjoined_witness :
  trace env_empty
    (Invoke_query_audit_logs "2024-01-01" "2024-01-31" (Some "") (Some "login") 10) fresh =
    [EClient;
     execute_statement a_client
       (audit_statement
          "event_date >= '2024-01-01' AND event_date <= '2024-01-31' AND action_name = 'login'"
          10)].
Proof.
  exact (audit_filters_are_conjoined env_empty "2024-01-01" "2024-01-31" (Some "")
           (Some "login") 10 fresh a_client eq_refl).
Defined.

(** X18.  [query_table_lineage] asked for a direction submits one statement
    whose WHERE clause follows the directions: the table as target for
    upstream lineage, as source for downstream lineage, and both conditions
    joined by OR when both are asked for. *)
Theorem lineage_follows_directions (E : env) (table_name : string)
  (upstream downstream : bool) (st : state) (client : val) :
  workspace_client E = Ok client ->
  upstream || downstream = true ->
  trace E (Invoke_query_table_lineage table_name upstream downstream) st =
    [EClient;
     execute_statement client
       (lineage_statement
          (String.concat " OR " (lineage_conditions table_name upstream downstream)))].
Proof.
  intros Hclient Hdir.
  destruct upstream, downstream; try discriminate Hdir.
  all: apply trace_from; open_run; rewrite Hclient; unfold api; cbn;
    unfold execute_statement, lineage_statement;
    destruct (respond E _) as [answer | e]; cbn;
    [ destruct (getattr answer "statement_id"); cbn |];
    rewrite <- !app_assoc; cbn; rewrite ?append_assoc; cbn; rewrite ?append_assoc;
    reflexivity.
Qed.

Lemma lineage_follows_directions_witness :
  trace env_empty (Invoke_query_table_lineage "main.sales.orders" true true) fresh =
    [EClient;
     execute_statement a_client
       (lineage_statement
          "target_table_full_name = 'main.sales.orders' OR source_table_full_name = 'main.sales.orders'")].
Proof.
  exact (lineage_follows_directions env_empty "main.sales.orders" true true fresh a_client
           eq_refl eq_refl).
Defined.

(** X19.  What a governance query reports is what it ran: a success
    envelope of a query tool holds under 'query' the one statement the run
    submitted. *)
Theorem reported_query_is_the_one_submitted (E : env) (r : request) (st : state) (d : dict) :
  In (name_of r) query_tools ->
  result E r st = Ok (VDict d) ->
  lookup "status" d = Some (VStr "success") ->
  exists q, statements E r st = [q] /\ lookup "query" d = Some (VStr q).
Proof.
  intros Hr. revert d. unfold statements.
  destruct r; simpl in Hr;
    try (exfalso; repeat (destruct Hr as [Hr | Hr]; [discriminate Hr |]); exact Hr);
    clear Hr.
  all: run_paths.
  all: intros d Hres Hstatus; injection Hres as Hres;
    rewrite <- ?app_assoc, skipn_length_app;
    first
      [ subst d; discriminate Hstatus
      | subst d; eexists; split; reflexivity
      | match goal with
        | Hd : dict_lit ?fs = Ok _ |- _ =>
            apply dict_lit_fields in Hd; [| reflexivity];
            destruct Hd as (d' & Hd' & _ & Hf); rewrite Hd' in Hres; injection Hres as <-;
            eexists; split; [reflexivity | apply Hf; find_field]
        end ].
Qed.

Lemma reported_query_is_the_one_submitted_witness :
  exists d q,
    result env_warehouse (Invoke_query_table_usage "main.sales.orders" 30) fresh
      = Ok (VDict d) /\
    statements env_warehouse (Invoke_query_table_usage "main.sales.orders" 30) fresh = [q] /\
    lookup "query" d = Some (VStr q).
Proof.
  assert (exists d,
            result env_warehouse (Invoke_query_table_usage "main.sales.orders" 30) fresh
              = Ok (VDict d) /\
            lookup "status" d = Some (VStr "success"))
    as (d & Hres & Hstatus)
    by (eexists; split; reflexivity).
  destruct (reported_query_is_the_one_submitted env_warehouse
              (Invoke_query_table_usage "main.sales.orders" 30) fresh d
              ltac:(simpl; tauto) Hres Hstatus)
    as (q & Hq & Hreported).
  exists d, q. repeat split; assumption.
Defined.

(** ** Member lists of a record (X20) *)

Lemma list_comp_length (items : list val) (f : val -> outcome val) (y : val) :
  list_comp (Ok (VList items)) f = Ok y ->
  exists l, y = VList l /\ List.length l = List.length items.
Proof.
  unfold list_comp. cbn [obind iterate].
  destruct (for_each items f) as [ys | e] eqn:Hloop; cbn [obind]; [| discriminate].
  intros H. injection H as <-. exists ys. split; [reflexivity |].
  now apply for_each_length in Hloop.
Qed.

(** A member list of the source object, as the record shows it. *)
Lemma member_list_shown (x : val) (f : val -> outcome val) (y : val) :
  (list_comp (Ok x) f <| Ok x |> Ok VNone) = Ok y ->
  (truthy x = false -> y = VNone) /\
  (forall items, x = VList items -> items <> [] ->
     exists l, y = VList l /\ List.length l = List.length items).
Proof.
  unfold if_else. cbn [obind]. intros H. split.
  - intros Hx. rewrite Hx in H. now injection H as <-.
  - intros items -> Hitems.
    destruct items as [| item rest]; [contradiction |]. cbn [truthy] in H.
    now apply (list_comp_length _ f).
Qed.

(** X20.  A record shows a list of members as a list with one entry for
    each member, and as None - not as an empty list - when the source
    object has no members or an empty list of them. *)
Theorem empty_member_list_is_none (E : env) (r : request) (st : state) (client obj : val)
  (key : string) (attrs : list string) (attr : string) (x : val) (d : dict) :
  member_lists r = Some (key, attrs) ->
  In attr attrs ->
  workspace_client E = Ok client ->
  (forall c, In (EApi c) (trace E r st) -> respond E c = Ok obj) ->
  getattr obj attr = Ok x ->
  result E r st = Ok (VDict d) ->
  lookup "status" d = Some (VStr "success") ->
  exists record,
    lookup key d = Some (VDict record) /\
    (truthy x = false -> lookup attr record = Some VNone) /\
    (forall items, x = VList items -> items <> [] ->
       exists l, lookup attr record = Some (VList l) /\
                 List.length l = List.length items).
Proof.
  intros Hr Hin Hclient Hall Hattr.
  destruct r; try discriminate Hr; injection Hr as <- <-.
  all: simpl in Hin; repeat (destruct Hin as [<- | Hin]); try contradiction.
  all: the_call Hclient Hall.
  all: open_run; rewrite Hclient; unfold api; rewrite Hall; cbv beta iota;
    match goal with
    | |- context [lift (dict_lit ?fs)] =>
        unfold lift; destruct (dict_lit fs) as [w | e] eqn:Hd; cbn;
        intros Hres Hstatus;
        [ injection Hres as -> | injection Hres as <-; discriminate Hstatus ]
    end;
    match goal with
    | |- exists record, lookup ?k _ = _ /\ _ =>
        let Hrec := fresh "Hrec" in
        let Hlook := fresh "Hlook" in
        lazymatch type of Hd with
        | dict_lit ?fs = _ =>
            destruct (dict_lit_entry fs d k _ eq_refl Hd ltac:(find_field))
              as (rec & Hrec & Hlook)
        end;
        lazymatch type of Hrec with
        | dict_lit ?fs = _ =>
            destruct (dict_lit_fields fs rec eq_refl Hrec) as (fields & -> & _ & _)
        end
    end;
    exists fields; split; [exact Hlook |];
    match goal with
    | |- (_ -> lookup ?a _ = _) /\ _ =>
        let Hy := fresh "Hy" in
        let Hfield := fresh "Hfield" in
        lazymatch type of Hrec with
        | dict_lit ?fs = _ =>
            destruct (dict_lit_entry fs fields a _ eq_refl Hrec ltac:(find_field))
              as (y & Hy & Hfield)
        end;
        unfold attr_of in Hy; cbn [obind] in Hy; rewrite Hattr in Hy;
        apply member_list_shown in Hy; destruct Hy as [Hnone Hsome];
        rewrite Hfield; split;
        [ intros Hx; now rewrite (Hnone Hx)
        | intros items Hitems Hne; destruct (Hsome items Hitems Hne) as (l & -> & Hlen);
          now exists l ]
    end.
Qed.

Lemma empty_member_list_is_none_witness :
  exists d record,
    result env_one_user (Invoke_get_user "4711") fresh = Ok (VDict d) /\
    lookup "user" d = Some (VDict record) /\
    lookup "emails" record = Some VNone.
Proof.
  assert (exists d, result env_one_user (Invoke_get_user "4711") fresh = Ok (VDict d) /\
                    lookup "status" d = Some (VStr "success"))
    as (d & Hres & Hstatus)
    by (eexists; split; reflexivity).
  destruct (empty_member_list_is_none env_one_user (Invoke_get_user "4711") fresh a_client
              _ "user" _ "emails" (VList []) d eq_refl ltac:(now left) eq_refl
              (fun _ _ => eq_refl) eq_refl Hres Hstatus)
    as (record & Hrecord & Hnone & _).
  exists d, record. repeat split; [exact Hres | exact Hrecord | now apply Hnone].
Defined.
